(** * containerz-plugin: veth link management and the bandwidth plugin

    A shallow embedding of
      - [pkg/ip/link_linux.go]           (package [ip], the link manager)
      - [plugins/meta/bandwidth/main.go] (the bandwidth meta plugin)
    and the properties of them that the specification states.

    Conventions.  Go's [uint64], [uint32] and [int] are modelled as [Z]; the
    places where the width matters (the bound of [validateRateAndBurst], the
    conversion [uint32(burstInBytes)]) are written out.  A Go function with
    a result [(T, error)] becomes a computation of type [M T]: a function of
    the system state that yields a value, an error, or a run-time panic.
    Everything the code obtains from the operating system or from packages
    outside the two files (netlink, ethtool, the namespace switch, the JSON
    decoder, ...) is a field of the class [Platform]. *)

From Stdlib Require Import ZArith String Ascii List Bool Lia.
From Stdlib Require Import Strings.Byte.
From stdpp Require Import base option list strings gmap.

Import ListNotations.
Local Open Scope string_scope.
Local Open Scope Z_scope.

(** ** Go values shared by both packages *)

Module Go.

(** [math.MaxUint32] and the range of [uint64]. *)
Definition MaxUint32 : Z := 4294967295.
Definition MaxUint64 : Z := 18446744073709551615.

Definition is_uint64 (x : Z) : Prop := 0 <= x <= MaxUint64.

(** The conversion [uint32(x)] of an unsigned value: the low 32 bits. *)
Definition to_uint32 (x : Z) : Z := x mod 2 ^ 32.

(** An argument of a [fmt.Errorf] call, and the error values the two
    packages can see.  A formatted error keeps its format string and its
    arguments, so that no formatting has to be modelled and two errors
    are equal exactly when they were built from the same call with the
    same arguments. *)
Inductive error : Type :=
| Errno (code : Z)                      (* a [syscall.Errno] from the kernel *)
| LinkNotFoundError (msg : string)      (* [netlink.LinkNotFoundError] *)
| AddrError (msg addr : string)         (* [*net.AddrError], from [net.ParseMAC] *)
| ErrLinkNotFound                       (* the sentinel of package [ip] *)
| Errorf (format : string) (args : list fmtarg)
with fmtarg : Type :=
| AStr (s : string)
| AInt (n : Z)
| AErr (e : option error)
| ANil.

Definition EEXIST : Z := 17.
Definition ENOTEMPTY : Z := 39.

(** [os.IsExist]: the error reports that a file or directory (here: a
    link name) already exists. *)
Definition os_IsExist (err : error) : bool :=
  match err with
  | Errno c => (c =? EEXIST) || (c =? ENOTEMPTY)
  | _ => false
  end.

(** The type assertion [err.(netlink.LinkNotFoundError)]. *)
Definition is_LinkNotFoundError (err : error) : bool :=
  match err with
  | LinkNotFoundError _ => true
  | _ => false
  end.

Definition is_ErrLinkNotFound (err : error) : bool :=
  match err with
  | ErrLinkNotFound => true
  | _ => false
  end.

(** What a Go function call can end in: a value, a returned error, or a
    panic (a nil dereference aborts the plugin process). *)
Inductive outcome (A : Type) : Type :=
| Ret (a : A)
| Fail (e : error)
| Panic (msg : string).
Arguments Ret {A} a.
Arguments Fail {A} e.
Arguments Panic {A} msg.

Definition nil_dereference : string :=
  "invalid memory address or nil pointer dereference".

End Go.
Export Go.

(** ** netlink data *)

Module Netlink.

(** The dynamic type of a [netlink.Link]. *)
Inductive LinkType : Type :=
| Veth
| Ifb
| Bridge
| Device
| GenericLink (kind : string).

Record LinkAttrs : Type := mkLinkAttrs {
  Index : Z;
  MTU : Z;
  Name : string;
  HardwareAddr : string;
  ParentIndex : Z
}.

Record Link : Type := mkLink {
  Type_ : LinkType;
  Attrs : LinkAttrs
}.

Definition is_Veth (l : Link) : bool :=
  match Type_ l with
  | Veth => true
  | _ => false
  end.

(** The fields of [netlink.Tbf] that the plugin reads. *)
Record TbfParams : Type := mkTbf {
  Rate : Z;      (* uint64, bytes per second *)
  Limit : Z;     (* uint32 *)
  Buffer : Z     (* uint32 *)
}.

(** The dynamic type of a [netlink.Qdisc], with the Tbf payload. *)
Inductive Qdisc : Type :=
| Tbf (p : TbfParams)
| PfifoFast
| Ingress
| GenericQdisc (kind : string).

Definition is_PfifoFast (q : Qdisc) : bool :=
  match q with
  | PfifoFast => true
  | _ => false
  end.

Definition is_Tbf (q : Qdisc) : bool :=
  match q with
  | Tbf _ => true
  | _ => false
  end.

(** An address of a link, as far as [DelLinkByNameAddr] looks at it. *)
Record Addr : Type := mkAddr {
  IPNet : string;
  IsGlobalUnicast : bool
}.

(** A handle on a network namespace ([ns.NetNS]). *)
Record NetNS : Type := mkNetNS {
  Fd : Z;
  Path : string
}.

(** The [*netlink.Veth] that [makeVethPair] hands to [netlink.LinkAdd]. *)
Record VethReq : Type := mkVethReq {
  LinkAttrs_ : LinkAttrs;
  PeerName : string;
  PeerNamespace : Z
}.

(** [netlink.NewLinkAttrs()]: the zero attributes. *)
Definition NewLinkAttrs : LinkAttrs :=
  {| Index := 0; MTU := 0; Name := ""; HardwareAddr := ""; ParentIndex := 0 |}.

End Netlink.
Export Netlink.

(** ** CNI result and configuration types *)

Module current.

(** An entry of the interface list of a result. *)
Record Interface : Type := mkInterface {
  Name : string;
  Mac : string;
  Sandbox : string
}.

(** A chain result.  Only the interface list is looked at by the plugin;
    addresses, routes and DNS settings travel along in [Rest]. *)
Record Result : Type := mkResult {
  CNIVersion : string;
  Interfaces : list Interface;
  Rest : string
}.

End current.

Module types.

(** [types.NetConf]; a nil [RawPrevResult] or [PrevResult] is [None]. *)
Record NetConf : Type := mkNetConf {
  CNIVersion : string;
  Name : string;
  RawPrevResult : option string;
  PrevResult : option current.Result
}.

End types.

Module skel.

Record CmdArgs : Type := mkCmdArgs {
  ContainerID : string;
  Netns : string;
  IfName : string;
  StdinData : string
}.

End skel.



(** ** The bandwidth configuration *)

Definition maxIfbDeviceLength : Z := 15.
Definition ifbDevicePrefix : string := "bwp".

Record BandwidthEntry : Type := mkBandwidthEntry {
  IngressRate : Z;
  IngressBurst : Z;
  EgressRate : Z;
  EgressBurst : Z
}.

Definition isZero (bw : BandwidthEntry) : bool :=
  (IngressBurst bw =? 0) && (IngressRate bw =? 0) &&
  (EgressBurst bw =? 0) && (EgressRate bw =? 0).

(** [PluginConf]: the embedded [types.NetConf], the bandwidth entry under
    [runtimeConfig] and the embedded top-level [*BandwidthEntry]; a nil
    pointer is [None]. *)
Record PluginConf : Type := mkPluginConf {
  NetConf : types.NetConf;
  RuntimeConfig_Bandwidth : option BandwidthEntry;
  BandwidthEntry_ : option BandwidthEntry
}.

Definition getBandwidth (conf : PluginConf) : option BandwidthEntry :=
  match BandwidthEntry_ conf, RuntimeConfig_Bandwidth conf with
  | None, Some b => Some b
  | _, _ => BandwidthEntry_ conf
  end.

(** [validateRateAndBurst]: [None] is Go's [nil]. *)
Definition validateRateAndBurst (rate burst : Z) : option error :=
  if (burst =? 0) && negb (rate =? 0) then
    Some (Errorf "if rate is set, burst must also be set" [])
  else if (rate =? 0) && negb (burst =? 0) then
    Some (Errorf "if burst is set, rate must also be set" [])
  else if burst / 8 >=? MaxUint32 then
    Some (Errorf "burst cannot be more than 4GB" [])
  else None.

(** ** The platform

    What the two files call but do not define.  [W] is the state of the
    machine (link tables, queueing disciplines, entropy pool, standard
    output); every operation that touches it is a state transformer. *)

Class Platform (W : Type) : Type := {
  (* vishvananda/netlink and the repository's EINTR-safe wrappers *)
  sys_LinkByName : string -> W -> (Link + error) * W;
  sys_LinkByIndex : Z -> W -> (Link + error) * W;
  sys_LinkAdd : VethReq -> W -> option error * W;
  sys_LinkDel : LinkAttrs -> W -> option error * W;
  sys_AddrList : Link -> W -> (list Addr + error) * W;
  sys_QdiscList : Link -> W -> (list Qdisc + error) * W;
  (* safchain/ethtool *)
  sys_NewEthtool : W -> option error * W;
  sys_EthtoolStats : string -> W -> (gmap string N + error) * W;
  sys_EthtoolClose : W -> W;
  (* crypto/rand and net *)
  sys_rand_Read : nat -> W -> (list byte + error) * W;
  net_ParseMAC : string -> option string;
  (* network namespaces *)
  sys_GetNS : string -> W -> (NetNS + error) * W;
  sys_CurrentNS : W -> NetNS;
  sys_SetNS : NetNS -> W -> option error * W;
  sys_CloseNS : NetNS -> W -> W;
  (* the dispatch harness and the CNI library *)
  json_Unmarshal : string -> PluginConf + error;
  version_ParsePrevResult : types.NetConf -> types.NetConf + error;
  current_NewResultFromResult : option current.Result -> current.Result + error;
  sys_PrintResult : option current.Result -> string -> W -> option error * W;
  (* [ifb_creator.go] of the bandwidth plugin: shaping itself *)
  float64 : Type;
  latencyInMillis : float64;
  latencyInUsec : float64 -> float64;
  buffer : Z -> Z -> Z;
  limit : Z -> float64 -> Z -> Z;
  sys_CreateIngressQdisc : Z -> Z -> string -> W -> option error * W;
  sys_CreateIfb : string -> Z -> W -> option error * W;
  sys_CreateEgressQdisc : Z -> Z -> string -> string -> W -> option error * W;
  (* [pkg/utils] *)
  utils_MustFormatHashWithPrefix : Z -> string -> string -> string
}.

(** ** Calls and the system state

    The state that the embedded functions thread is the machine state
    together with the record of the calls made on it so far, oldest first:
    the number of link creations, or the fact that nothing but the printing
    of a result happened, can then be read off. *)

Inductive Call : Type :=
| CLinkByName (name : string)
| CLinkByIndex (index : Z)
| CLinkAdd (name peer : string)
| CLinkDel (name : string)
| CAddrList (name : string)
| CQdiscList (name : string)
| CNewEthtool
| CEthtoolStats (name : string)
| CEthtoolClose
| CRandRead (n : nat)
| CGetNS (path : string)
| CSetNS (ns : NetNS)
| CCloseNS (ns : NetNS)
| CPrintResult (r : option current.Result) (version : string)
| CCreateIngressQdisc (rate burst : Z) (host : string)
| CCreateIfb (name : string) (mtu : Z)
| CCreateEgressQdisc (rate burst : Z) (host ifb : string).

Record Sys (W : Type) : Type := mkSys {
  world : W;
  calls : list Call
}.
Arguments mkSys {W} world calls.
Arguments world {W} s.
Arguments calls {W} s.

Definition is_CLinkAdd (c : Call) : bool :=
  match c with
  | CLinkAdd _ _ => true
  | _ => false
  end.

(** The number of link creations requested so far. *)
Definition creations {W : Type} (s : Sys W) : nat :=
  length (List.filter is_CLinkAdd (calls s)).

(** ** Computations *)

(** A Go function returning [(T, error)]. *)
Definition M (W A : Type) : Type := Sys W -> outcome A * Sys W.

Definition ret {W A : Type} (a : A) : M W A := fun s => (Ret a, s).

Definition fail {W A : Type} (e : error) : M W A := fun s => (Fail e, s).

Definition panic {W A : Type} (msg : string) : M W A := fun s => (Panic msg, s).

Definition bind {W A B : Type} (m : M W A) (k : A -> M W B) : M W B :=
  fun s =>
    match m s with
    | (Ret a, s1) => k a s1
    | (Fail e, s1) => (Fail e, s1)
    | (Panic msg, s1) => (Panic msg, s1)
    end.

Notation "x <- m ;; k" := (bind m (fun x => k))
  (at level 20, m at level 99, k at level 200, only parsing).
Notation "' pat <- m ;; k" := (bind m (fun x => match x with pat => k end))
  (at level 20, pat pattern, m at level 99, k at level 200, only parsing).
Notation "m ;;; k" := (bind m (fun _ => k))
  (at level 20, k at level 200, only parsing).

(** [if err != nil { return fmt.Errorf(..., err) }]: an error of [m] is
    returned after [f] has been applied to it. *)
Definition wrap {W A : Type} (f : error -> error) (m : M W A) : M W A :=
  fun s =>
    match m s with
    | (Fail e, s1) => (Fail (f e), s1)
    | r => r
    end.

(** [defer cleanup()]: [cleanup] runs when the function is left, whichever
    way. *)
Definition defer {W A : Type} (cleanup : Sys W -> Sys W) (body : M W A) : M W A :=
  fun s => let (r, s1) := body s in (r, cleanup s1).

(** Dereferencing a pointer: nil panics. *)
Definition deref {W A : Type} (p : option A) : M W A :=
  match p with
  | Some a => ret a
  | None => panic nil_dereference
  end.

(** A platform operation, recorded in the call log. *)
Definition call {W A : Type} (c : Call) (op : W -> A * W) : Sys W -> A * Sys W :=
  fun s => let (a, w1) := op (world s) in (a, mkSys w1 (calls s ++ [c])).

(** A [(T, error)] result, and an [error] result, as a computation. *)
Definition lift {W A : Type} (op : Sys W -> (A + error) * Sys W) : M W A :=
  fun s =>
    match op s with
    | (inl a, s1) => (Ret a, s1)
    | (inr e, s1) => (Fail e, s1)
    end.

Definition lift_err {W : Type} (op : Sys W -> option error * Sys W) : M W unit :=
  fun s =>
    match op s with
    | (None, s1) => (Ret tt, s1)
    | (Some e, s1) => (Fail e, s1)
    end.

(** ** The platform operations on the logged state *)

Section Calls.
Context {W : Type} {P : Platform W}.

Definition netlinksafe_LinkByName (name : string) : Sys W -> (Link + error) * Sys W :=
  call (CLinkByName name) (sys_LinkByName name).

Definition netlink_LinkByIndex (index : Z) : Sys W -> (Link + error) * Sys W :=
  call (CLinkByIndex index) (sys_LinkByIndex index).

Definition netlink_LinkAdd (veth : VethReq) : Sys W -> option error * Sys W :=
  call (CLinkAdd (Netlink.Name (LinkAttrs_ veth)) (PeerName veth)) (sys_LinkAdd veth).

Definition netlink_LinkDel (a : LinkAttrs) : Sys W -> option error * Sys W :=
  call (CLinkDel (Netlink.Name a)) (sys_LinkDel a).

Definition netlinksafe_AddrList (l : Link) : Sys W -> (list Addr + error) * Sys W :=
  call (CAddrList (Netlink.Name (Attrs l))) (sys_AddrList l).

Definition netlinksafe_QdiscList (l : Link) : Sys W -> (list Qdisc + error) * Sys W :=
  call (CQdiscList (Netlink.Name (Attrs l))) (sys_QdiscList l).

Definition ethtool_NewEthtool : Sys W -> option error * Sys W :=
  call CNewEthtool sys_NewEthtool.

Definition ethtool_Stats (name : string) : Sys W -> (gmap string N + error) * Sys W :=
  call (CEthtoolStats name) (sys_EthtoolStats name).

Definition ethtool_Close : Sys W -> Sys W :=
  fun s => snd (call CEthtoolClose (fun w => (tt, sys_EthtoolClose w)) s).

Definition rand_Read (n : nat) : Sys W -> (list byte + error) * Sys W :=
  call (CRandRead n) (sys_rand_Read n).

Definition ns_GetNS (path : string) : Sys W -> (NetNS + error) * Sys W :=
  call (CGetNS path) (sys_GetNS path).

Definition ns_Close (netns : NetNS) : Sys W -> Sys W :=
  fun s => snd (call (CCloseNS netns) (fun w => (tt, sys_CloseNS netns w)) s).

Definition ns_Set (netns : NetNS) : Sys W -> option error * Sys W :=
  call (CSetNS netns) (sys_SetNS netns).

(** Modelled from the spec: [netns.Do] of [pkg/ns], which is not among the
    sources: "run a callback with the calling thread's network namespace
    set to a target, with guaranteed restoration".  When the switch fails
    the callback does not run and the error is returned. *)
Definition ns_Do {A : Type} (netns : NetNS) (toRun : Sys W -> A * Sys W)
    : Sys W -> (A + error) * Sys W :=
  fun s =>
    let orig := sys_CurrentNS (world s) in
    match ns_Set netns s with
    | (Some e, s1) => (inr e, s1)
    | (None, s1) =>
        let (a, s2) := toRun s1 in
        (inl a, snd (ns_Set orig s2))
    end.

(** [net.ParseMAC]: the hardware address, or an [*net.AddrError]. *)
Definition ParseMAC (mac : string) : string + error :=
  match net_ParseMAC mac with
  | Some m => inl m
  | None => inr (AddrError "invalid MAC address" mac)
  end.

(** [types.PrintResult] starts with [result.GetAsVersion(version)]: called
    with a nil result it dereferences a nil pointer, before anything is
    printed. *)
Definition types_PrintResult (r : option current.Result) (version : string) : M W unit :=
  match r with
  | None => panic nil_dereference
  | Some _ => lift_err (call (CPrintResult r version) (sys_PrintResult r version))
  end.

Definition CreateIngressQdisc (rate burst : Z) (hostDeviceName : string)
    : Sys W -> option error * Sys W :=
  call (CCreateIngressQdisc rate burst hostDeviceName)
       (sys_CreateIngressQdisc rate burst hostDeviceName).

Definition CreateIfb (ifbDeviceName : string) (mtu : Z) : Sys W -> option error * Sys W :=
  call (CCreateIfb ifbDeviceName mtu) (sys_CreateIfb ifbDeviceName mtu).

Definition CreateEgressQdisc (rate burst : Z) (hostDeviceName ifbDeviceName : string)
    : Sys W -> option error * Sys W :=
  call (CCreateEgressQdisc rate burst hostDeviceName ifbDeviceName)
       (sys_CreateEgressQdisc rate burst hostDeviceName ifbDeviceName).

End Calls.

(** ** Package [ip]: [link_linux.go] *)

Module ip.

(** [fmt.Sprintf("%x", b)] for a byte slice: two lower-case hexadecimal
    digits per byte. *)
Definition hex_digit (n : N) : ascii :=
  match n with
  | 0%N => "0" | 1%N => "1" | 2%N => "2" | 3%N => "3"
  | 4%N => "4" | 5%N => "5" | 6%N => "6" | 7%N => "7"
  | 8%N => "8" | 9%N => "9" | 10%N => "a" | 11%N => "b"
  | 12%N => "c" | 13%N => "d" | 14%N => "e" | _ => "f"
  end%char.

Definition hex_byte (b : byte) : string :=
  let n := Byte.to_N b in
  String (hex_digit (n / 16)) (String (hex_digit (n mod 16)) EmptyString).

Fixpoint hex (bs : list byte) : string :=
  match bs with
  | [] => ""
  | b :: rest => hex_byte b +:+ hex rest
  end.

Section LinkLinux.
Context {W : Type} {P : Platform W}.

(** [makeVethPair] is called from within the container's network namespace. *)
Definition makeVethPair (name peer : string) (mtu : Z) (mac : string) (hostNS : NetNS)
    : Sys W -> (Link + error) * Sys W :=
  fun s =>
    let linkAttrs :=
      {| Index := Index NewLinkAttrs; MTU := mtu; Netlink.Name := name;
         HardwareAddr := HardwareAddr NewLinkAttrs;
         ParentIndex := ParentIndex NewLinkAttrs |} in
    let veth := {| LinkAttrs_ := linkAttrs; PeerName := peer; PeerNamespace := Fd hostNS |} in
    let veth :=
      if negb (mac =? "")%string then
        match ParseMAC mac with
        | inr err => inr err
        | inl m =>
            inl {| LinkAttrs_ :=
                     {| Index := Index linkAttrs; MTU := MTU linkAttrs;
                        Netlink.Name := Netlink.Name linkAttrs; HardwareAddr := m;
                        ParentIndex := ParentIndex linkAttrs |};
                   PeerName := PeerName veth; PeerNamespace := PeerNamespace veth |}
        end
      else inl veth in
    match veth with
    | inr err => (inr err, s)
    | inl veth =>
        match netlink_LinkAdd veth s with
        | (Some err, s1) => (inr err, s1)
        | (None, s1) =>
            (* Re-fetch the container link to get its creation-time parameters,
               e.g. index and mac *)
            match netlinksafe_LinkByName name s1 with
            | (inr err, s2) =>
                (* try and clean up the link if possible *)
                let (_, s3) := netlink_LinkDel (LinkAttrs_ veth) s2 in
                (inr err, s3)
            | (inl veth2, s2) => (inl veth2, s2)
            end
        end
    end.

Definition peerExists (name : string) : Sys W -> bool * Sys W :=
  fun s =>
    match netlinksafe_LinkByName name s with
    | (inr _, s1) => (false, s1)
    | (inl _, s1) => (true, s1)
    end.

(** [RandomVethName] returns the string "veth" followed by the hexadecimal
    form of four bytes of entropy. *)
Definition RandomVethName : Sys W -> (string * option error) * Sys W :=
  fun s =>
    match rand_Read 4 s with
    | (inr err, s1) =>
        (("", Some (Errorf "failed to generate random veth name: %v" [AErr (Some err)])), s1)
    | (inl entropy, s1) => (("veth" +:+ hex entropy, None), s1)
    end.

(** The loop of [makeVeth]; [n] is the number of iterations left and
    [peerName] the current value of the variable of that name. *)
Fixpoint makeVeth_loop (n : nat) (name vethPeerName : string) (mtu : Z) (mac : string)
    (hostNS : NetNS) (peerName : string) (s : Sys W)
    : (string * option Link * option error) * Sys W :=
  match n with
  | O =>
      (* should really never be hit *)
      ((peerName, None, Some (Errorf "failed to find a unique veth name" [])), s)
  | S n' =>
      let '((peerName, err), s1) :=
        if negb (vethPeerName =? "")%string then ((vethPeerName, None), s)
        else RandomVethName s in
      match err with
      | Some err => ((peerName, None, Some err), s1)
      | None =>
          match makeVethPair name peerName mtu mac hostNS s1 with
          | (inl veth, s2) => ((peerName, Some veth, None), s2)
          | (inr err, s2) =>
              if os_IsExist err then
                let (exists_, s3) := peerExists peerName s2 in
                if exists_ && (vethPeerName =? "")%string then
                  makeVeth_loop n' name vethPeerName mtu mac hostNS peerName s3
                else
                  ((peerName, None,
                    Some (Errorf "container veth name (%q) peer provided (%q) already exists"
                            [AStr name; AStr peerName])), s3)
              else
                ((peerName, None,
                  Some (Errorf "failed to make veth pair: %v" [AErr (Some err)])), s2)
          end
      end
  end.

Definition makeVeth (name vethPeerName : string) (mtu : Z) (mac : string) (hostNS : NetNS)
    : Sys W -> (string * option Link * option error) * Sys W :=
  makeVeth_loop 10 name vethPeerName mtu mac hostNS "".

(** [DelLinkByName] removes an interface link. *)
Definition DelLinkByName (ifName : string) : Sys W -> option error * Sys W :=
  fun s =>
    match netlinksafe_LinkByName ifName s with
    | (inr err, s1) =>
        if is_LinkNotFoundError err then (Some ErrLinkNotFound, s1)
        else (Some (Errorf "failed to lookup %q: %v" [AStr ifName; AErr (Some err)]), s1)
    | (inl iface, s1) =>
        match netlink_LinkDel (Attrs iface) s1 with
        | (Some err, s2) =>
            (Some (Errorf "failed to delete %q: %v" [AStr ifName; AErr (Some err)]), s2)
        | (None, s2) => (None, s2)
        end
    end.

(** [DelLinkByNameAddr] removes an interface and returns its addresses. *)
Definition DelLinkByNameAddr (ifName : string) : Sys W -> (list string + error) * Sys W :=
  fun s =>
    match netlinksafe_LinkByName ifName s with
    | (inr err, s1) =>
        if is_LinkNotFoundError err then (inr ErrLinkNotFound, s1)
        else (inr (Errorf "failed to lookup %q: %v" [AStr ifName; AErr (Some err)]), s1)
    | (inl iface, s1) =>
        match netlinksafe_AddrList iface s1 with
        | (inr err, s2) =>
            (inr (Errorf "failed to get IP addresses for %q: %v"
                    [AStr ifName; AErr (Some err)]), s2)
        | (inl addrs, s2) =>
            match netlink_LinkDel (Attrs iface) s2 with
            | (Some err, s3) =>
                (inr (Errorf "failed to delete %q: %v" [AStr ifName; AErr (Some err)]), s3)
            | (None, s3) =>
                (inl (map IPNet (List.filter IsGlobalUnicast addrs)), s3)
            end
        end
    end.

(** [GetVethPeerIfindex] returns the veth link object, the peer ifindex of
    the veth, or an error; on an error the other two results are [nil] and
    [-1]. *)
Definition GetVethPeerIfindex (ifName : string)
    : Sys W -> (option Link * Z * option error) * Sys W :=
  fun s =>
    match netlinksafe_LinkByName ifName s with
    | (inr err, s1) =>
        ((None, -1, Some (Errorf "could not look up %q: %v" [AStr ifName; AErr (Some err)])), s1)
    | (inl link, s1) =>
        if negb (is_Veth link) then
          ((None, -1, Some (Errorf "interface %q was not a veth interface" [AStr ifName])), s1)
        else
          (* veth supports IFLA_LINK (ParentIndex) on 4.1 and higher kernels *)
          let peerIndex := ParentIndex (Attrs link) in
          if peerIndex <=? 0 then
            (* Fall back to ethtool for 4.0 and earlier kernels *)
            match ethtool_NewEthtool s1 with
            | (Some err, s2) =>
                ((None, -1, Some (Errorf "failed to initialize ethtool: %v" [AErr (Some err)])), s2)
            | (None, s2) =>
                (* defer e.Close() *)
                match ethtool_Stats (Netlink.Name (Attrs link)) s2 with
                | (inr err, s3) =>
                    ((None, -1,
                      Some (Errorf "failed to request ethtool stats: %v" [AErr (Some err)])),
                     ethtool_Close s3)
                | (inl stats, s3) =>
                    match stats !! "peer_ifindex" with
                    | None =>
                        ((None, -1,
                          Some (Errorf "failed to find 'peer_ifindex' in ethtool stats" [])),
                         ethtool_Close s3)
                    | Some n =>
                        if (32767 <? n)%N || (n =? 0)%N then
                          ((None, -1,
                            Some (Errorf "invalid 'peer_ifindex' %d" [AInt (Z.of_N n)])),
                           ethtool_Close s3)
                        else
                          let peerIndex := Z.of_N n in
                          ((Some link, peerIndex, None), ethtool_Close s3)
                    end
                end
            end
          else ((Some link, peerIndex, None), s1)
    end.

End LinkLinux.
End ip.

(** ** The bandwidth plugin: [main.go] *)

Module bandwidth.

Section Main.
Context {W : Type} {P : Platform W}.

(** [parseConfig] parses the supplied configuration (and prevResult) from
    stdin.  [version.ParsePrevResult] updates the embedded [NetConf] in
    place; the configuration returned carries the updated one. *)
Definition parseConfig (stdin : string) : PluginConf + error :=
  match json_Unmarshal stdin with
  | inr err => inr (Errorf "failed to parse network configuration: %v" [AErr (Some err)])
  | inl conf =>
      let invalid :=
        match getBandwidth conf with
        | Some bandwidth =>
            match validateRateAndBurst (IngressRate bandwidth) (IngressBurst bandwidth) with
            | Some err => Some err
            | None => validateRateAndBurst (EgressRate bandwidth) (EgressBurst bandwidth)
            end
        | None => None
        end in
      match invalid with
      | Some err => inr err
      | None =>
          match types.RawPrevResult (NetConf conf) with
          | Some _ =>
              match version_ParsePrevResult (NetConf conf) with
              | inr err => inr (Errorf "could not parse prevResult: %v" [AErr (Some err)])
              | inl netconf =>
                  match current_NewResultFromResult (types.PrevResult netconf) with
                  | inr err =>
                      inr (Errorf "could not convert result to current version: %v"
                             [AErr (Some err)])
                  | inl _ =>
                      inl {| NetConf := netconf;
                             RuntimeConfig_Bandwidth := RuntimeConfig_Bandwidth conf;
                             BandwidthEntry_ := BandwidthEntry_ conf |}
                  end
              end
          | None => inl conf
          end
      end
  end.

Definition getIfbDeviceName (networkName containerID : string) : string :=
  utils_MustFormatHashWithPrefix maxIfbDeviceLength ifbDevicePrefix
    (networkName +:+ containerID).

Definition getMTU (deviceName : string) : M W Z :=
  link <- lift (netlinksafe_LinkByName deviceName) ;;
  ret (MTU (Attrs link)).

(** [getHostInterface]: get the veth peer of the container interface in
    the host namespace.  The closure handed to [netns.Do] assigns the
    variables [peerIndex] and [err]; when it does not run they keep their
    zero values. *)
Definition getHostInterface (interfaces : list current.Interface)
    (containerIfName : string) (netns : NetNS) : M W current.Interface :=
  if (length interfaces =? 0)%nat then
    fail (Errorf "no interfaces provided" [])
  else
    (* get veth peer index of container interface *)
    '(peerIndex, err) <-
      (fun s =>
         match ns_Do netns (ip.GetVethPeerIfindex containerIfName) s with
         | (inl (_, peerIndex, err), s1) => (Ret (peerIndex, err), s1)
         | (inr _, s1) => (Ret (0, None), s1)
         end) ;;
    if peerIndex <=? 0 then
      fail (Errorf "container interface %s has no veth peer: %v"
              [AStr containerIfName; AErr err])
    else
      (* find host interface by index *)
      link <- wrap (fun _ => Errorf "veth peer with index %d is not in host ns" [AInt peerIndex])
                (lift (netlink_LinkByIndex peerIndex)) ;;
      match
        List.find (fun iface =>
                     (current.Sandbox iface =? "")%string &&
                     (current.Name iface =? Netlink.Name (Attrs link))%string)
                  interfaces
      with
      | Some iface => ret iface
      | None => fail (Errorf "no veth peer of container interface found in host ns" [])
      end.

Definition cmdAdd (args : skel.CmdArgs) : M W unit :=
  conf <- lift (fun s => (parseConfig (skel.StdinData args), s)) ;;
  let bandwidth := getBandwidth conf in
  if match bandwidth with None => true | Some b => isZero b end then
    types_PrintResult (types.PrevResult (NetConf conf)) (types.CNIVersion (NetConf conf))
  else
    bandwidth <- deref bandwidth ;;
    if match types.PrevResult (NetConf conf) with None => true | Some _ => false end then
      fail (Errorf "must be called as chained plugin" [])
    else
      result <- wrap (fun err => Errorf "could not convert result to current version: %v"
                                   [AErr (Some err)])
                  (lift (fun s => (current_NewResultFromResult
                                     (types.PrevResult (NetConf conf)), s))) ;;
      netns <- wrap (fun err => Errorf "failed to open netns %q: %v" [ANil; AErr (Some err)])
                 (lift (ns_GetNS (skel.Netns args))) ;;
      defer (ns_Close netns)
        (hostInterface <- getHostInterface (current.Interfaces result) (skel.IfName args) netns ;;
         (if (0 <? IngressRate bandwidth) && (0 <? IngressBurst bandwidth) then
            lift_err (CreateIngressQdisc (IngressRate bandwidth) (IngressBurst bandwidth)
                        (current.Name hostInterface))
          else ret tt) ;;;
         result <-
           (if (0 <? EgressRate bandwidth) && (0 <? EgressBurst bandwidth) then
              mtu <- getMTU (current.Name hostInterface) ;;
              let ifbDeviceName :=
                getIfbDeviceName (types.Name (NetConf conf)) (skel.ContainerID args) in
              lift_err (CreateIfb ifbDeviceName mtu) ;;;
              ifbDevice <- lift (netlinksafe_LinkByName ifbDeviceName) ;;
              let result :=
                {| current.CNIVersion := current.CNIVersion result;
                   current.Interfaces :=
                     current.Interfaces result ++
                     [ {| current.Name := ifbDeviceName;
                          current.Mac := HardwareAddr (Attrs ifbDevice);
                          current.Sandbox := "" |} ];
                   current.Rest := current.Rest result |} in
              lift_err (CreateEgressQdisc (EgressRate bandwidth) (EgressBurst bandwidth)
                          (current.Name hostInterface) ifbDeviceName) ;;;
              ret result
            else ret result) ;;
         types_PrintResult (Some result) (types.CNIVersion (NetConf conf))).

(** Modelled from the spec: [TeardownIfb] of [ifb_creator.go], which is not
    among the sources.  "Teardown: deleting the auxiliary device by its
    deterministic name is sufficient"; "deletion of an already-absent
    device is treated as success". *)
Definition TeardownIfb (deviceName : string) : Sys W -> option error * Sys W :=
  fun s =>
    match ip.DelLinkByName deviceName s with
    | (Some err, s1) =>
        if is_ErrLinkNotFound err then (None, s1) else (Some err, s1)
    | (None, s1) => (None, s1)
    end.

Definition cmdDel (args : skel.CmdArgs) : M W unit :=
  conf <- lift (fun s => (parseConfig (skel.StdinData args), s)) ;;
  let ifbDeviceName := getIfbDeviceName (types.Name (NetConf conf)) (skel.ContainerID args) in
  lift_err (TeardownIfb ifbDeviceName).

Definition SafeQdiscList (link : Link) : Sys W -> (list Qdisc + error) * Sys W :=
  fun s =>
    match netlinksafe_QdiscList link s with
    | (inr err, s1) => (inr err, s1)
    | (inl qdiscs, s1) =>
        (* filter out pfifo_fast qdiscs because older kernels don't return them *)
        (inl (List.filter (fun qdisc => negb (is_PfifoFast qdisc)) qdiscs), s1)
    end.

(** The loop [for _, qdisc := range qdiscs] of [cmdCheck], which is the
    same for both directions: the first error it returns, if any. *)
Fixpoint matchQdiscs (rateInBytes limitInBytes bufferInBytes : Z) (qdiscs : list Qdisc)
    : option error :=
  match qdiscs with
  | [] => None
  | qdisc :: rest =>
      match qdisc with
      | Tbf tbf =>
          if negb (Rate tbf =? rateInBytes) then Some (Errorf "Rate doesn't match" [])
          else if negb (Limit tbf =? limitInBytes) then Some (Errorf "Limit doesn't match" [])
          else if negb (Buffer tbf =? bufferInBytes) then Some (Errorf "Buffer doesn't match" [])
          else matchQdiscs rateInBytes limitInBytes bufferInBytes rest
      | _ => None (* break *)
      end
  end.

(** The listing and comparison that [cmdCheck] performs for one direction
    on the link that carries the direction's discipline. *)
Definition checkQdiscs (rateInBytes limitInBytes bufferInBytes : Z) (link : Link)
    : M W unit :=
  qdiscs <- lift (SafeQdiscList link) ;;
  if (length qdiscs =? 0)%nat then fail (Errorf "Failed to find qdisc" [])
  else
    match matchQdiscs rateInBytes limitInBytes bufferInBytes qdiscs with
    | Some err => fail err
    | None => ret tt
    end.

Definition cmdCheck (args : skel.CmdArgs) : M W unit :=
  bwConf <- lift (fun s => (parseConfig (skel.StdinData args), s)) ;;
  if match types.PrevResult (NetConf bwConf) with None => true | Some _ => false end then
    fail (Errorf "must be called as a chained plugin" [])
  else
    result <- wrap (fun err => Errorf "could not convert result to current version: %v"
                                 [AErr (Some err)])
                (lift (fun s => (current_NewResultFromResult
                                   (types.PrevResult (NetConf bwConf)), s))) ;;
    netns <- wrap (fun err => Errorf "failed to open netns %q: %v" [ANil; AErr (Some err)])
               (lift (ns_GetNS (skel.Netns args))) ;;
    defer (ns_Close netns)
      (hostInterface <- getHostInterface (current.Interfaces result) (skel.IfName args) netns ;;
       link <- lift (netlinksafe_LinkByName (current.Name hostInterface)) ;;
       let bandwidth := getBandwidth bwConf in
       ingress <- deref bandwidth ;;
       (if (0 <? IngressRate ingress) && (0 <? IngressBurst ingress) then
          let rateInBytes := IngressRate ingress / 8 in
          let burstInBytes := IngressBurst ingress / 8 in
          let bufferInBytes := buffer rateInBytes (to_uint32 burstInBytes) in
          let latency := latencyInUsec latencyInMillis in
          let limitInBytes := limit rateInBytes latency (to_uint32 burstInBytes) in
          checkQdiscs rateInBytes limitInBytes bufferInBytes link
        else ret tt) ;;;
       egress <- deref bandwidth ;;
       (if (0 <? EgressRate egress) && (0 <? EgressBurst egress) then
          let rateInBytes := EgressRate egress / 8 in
          let burstInBytes := EgressBurst egress / 8 in
          let bufferInBytes := buffer rateInBytes (to_uint32 burstInBytes) in
          let latency := latencyInUsec latencyInMillis in
          let limitInBytes := limit rateInBytes latency (to_uint32 burstInBytes) in
          let ifbDeviceName :=
            getIfbDeviceName (types.Name (NetConf bwConf)) (skel.ContainerID args) in
          ifbDevice <- wrap (fun err => Errorf "get ifb device: %s" [AErr (Some err)])
                         (lift (netlinksafe_LinkByName ifbDeviceName)) ;;
          checkQdiscs rateInBytes limitInBytes bufferInBytes ifbDevice
        else ret tt) ;;;
       ret tt).

End Main.
End bandwidth.

(** ** The auxiliary device name, as the specification describes it *)

(** Modelled from the spec: [utils.MustFormatHashWithPrefix] of [pkg/utils],
    which is not among the sources.  The specification describes the name
    of the auxiliary device as a deterministic hash of its input,
    "truncated to a fixed maximum length with a fixed prefix": the prefix,
    followed by the digest of the input, cut to [length] characters.  The
    digest function is left open. *)
Definition MustFormatHashWithPrefix (digest : string -> string)
    (length : Z) (prefix toHash : string) : string :=
  String.substring 0 (Z.to_nat length) (prefix +:+ digest toHash).

(** ** Name collisions during veth creation

    The attempts that [makeVeth] retries: an attempt made without a
    peer-name hint, in which the generated name is drawn, the creation
    fails with a duplicate-name error, and [peerExists] finds the generated
    name in the calling namespace.  A duplicate in the host's namespace,
    where the peer is created, is not among them (see [MachineNS]). *)

Section Collisions.
Context {W : Type} {P : Platform W}.

Definition collision (name : string) (mtu : Z) (mac : string) (hostNS : NetNS)
    (s : Sys W) : option (Sys W) :=
  match ip.RandomVethName s with
  | ((peerName, None), s1) =>
      match ip.makeVethPair name peerName mtu mac hostNS s1 with
      | (inr err, s2) =>
          if os_IsExist err then
            match ip.peerExists peerName s2 with
            | (true, s3) => Some s3
            | (false, _) => None
            end
          else None
      | (inl _, _) => None
      end
  | ((_, Some _), _) => None
  end.

(** [n] collisions in a row, and the state they lead to. *)
Fixpoint collisions (n : nat) (name : string) (mtu : Z) (mac : string) (hostNS : NetNS)
    (s : Sys W) : option (Sys W) :=
  match n with
  | O => Some s
  | S n' =>
      match collision name mtu mac hostNS s with
      | Some s1 => collisions n' name mtu mac hostNS s1
      | None => None
      end
  end.

End Collisions.

(** The two errors [makeVeth] reports about names. *)
Definition errNameCollision (name peerName : string) : error :=
  Errorf "container veth name (%q) peer provided (%q) already exists"
    [AStr name; AStr peerName].

Definition errNoUniqueName : error :=
  Errorf "failed to find a unique veth name" [].

(** The errors of [DelLinkByName] and [DelLinkByNameAddr] that carry the
    context of the operation that failed. *)
Definition errLookup (ifName : string) (err : error) : error :=
  Errorf "failed to lookup %q: %v" [AStr ifName; AErr (Some err)].

Definition errAddresses (ifName : string) (err : error) : error :=
  Errorf "failed to get IP addresses for %q: %v" [AStr ifName; AErr (Some err)].

Definition errDelete (ifName : string) (err : error) : error :=
  Errorf "failed to delete %q: %v" [AStr ifName; AErr (Some err)].

(** ** What Check compares

    A token-bucket discipline with the given rate, limit and buffer. *)
Definition is_expected_Tbf (rateInBytes limitInBytes bufferInBytes : Z) (q : Qdisc) : Prop :=
  match q with
  | Tbf tbf =>
      Rate tbf = rateInBytes /\ Limit tbf = limitInBytes /\ Buffer tbf = bufferInBytes
  | _ => False
  end.

(** The three mismatch errors of [cmdCheck]. *)
Definition mismatch (err : error) : Prop :=
  err = Errorf "Rate doesn't match" [] \/
  err = Errorf "Limit doesn't match" [] \/
  err = Errorf "Buffer doesn't match" [].

(** ** A small machine

    A concrete platform on which the embedded functions run: one link
    table, a queueing-discipline table by link name, a finite supply of
    entropy and a table of ethtool statistics.  It instantiates the
    general statements below and carries the examples. *)

Module Machine.

Record World : Type := mkWorld {
  links : list Link;
  qdiscs : list (string * list Qdisc);
  entropy : list (list byte);
  stats : gmap string N;
  netns : NetNS
}.

Definition ENODEV : Z := 19.

Definition named (name : string) (l : Link) : bool :=
  (Netlink.Name (Attrs l) =? name)%string.

Definition LinkByName (name : string) (w : World) : (Link + error) * World :=
  match List.find (named name) (links w) with
  | Some l => (inl l, w)
  | None => (inr (LinkNotFoundError "Link not found"), w)
  end.

Definition LinkByIndex (index : Z) (w : World) : (Link + error) * World :=
  match List.find (fun l => Index (Attrs l) =? index) (links w) with
  | Some l => (inl l, w)
  | None => (inr (LinkNotFoundError "Link not found"), w)
  end.

Definition with_links (w : World) (ls : list Link) : World :=
  {| links := ls; qdiscs := qdiscs w; entropy := entropy w; stats := stats w;
     netns := netns w |}.

(** Creating a veth pair fails with [EEXIST] when either name is taken. *)
Definition LinkAdd (req : VethReq) (w : World) : option error * World :=
  let name := Netlink.Name (LinkAttrs_ req) in
  if existsb (named name) (links w) || existsb (named (PeerName req)) (links w) then
    (Some (Errno EEXIST), w)
  else
    let i := Z.of_nat (length (links w)) + 1 in
    let a := LinkAttrs_ req in
    let l1 := {| Type_ := Veth;
                 Attrs := {| Index := i; MTU := MTU a; Netlink.Name := name;
                             HardwareAddr := HardwareAddr a; ParentIndex := i + 1 |} |} in
    let l2 := {| Type_ := Veth;
                 Attrs := {| Index := i + 1; MTU := MTU a; Netlink.Name := PeerName req;
                             HardwareAddr := ""; ParentIndex := i |} |} in
    (None, with_links w (links w ++ [l1; l2])).

Definition LinkDel (a : LinkAttrs) (w : World) : option error * World :=
  if existsb (named (Netlink.Name a)) (links w) then
    (None, with_links w (List.filter (fun l => negb (named (Netlink.Name a) l)) (links w)))
  else (Some (Errno ENODEV), w).

Definition QdiscList (l : Link) (w : World) : (list Qdisc + error) * World :=
  match List.find (fun e => (fst e =? Netlink.Name (Attrs l))%string) (qdiscs w) with
  | Some e => (inl (snd e), w)
  | None => (inl [], w)
  end.

Definition rand_Read (n : nat) (w : World) : (list byte + error) * World :=
  match entropy w with
  | [] => (inr (Errorf "entropy exhausted" []), w)
  | e :: rest =>
      (inl e, {| links := links w; qdiscs := qdiscs w; entropy := rest;
                 stats := stats w; netns := netns w |})
  end.

Definition SetNS (target : NetNS) (w : World) : option error * World :=
  (None, {| links := links w; qdiscs := qdiscs w; entropy := entropy w;
            stats := stats w; netns := target |}).

(** A digest for the examples. *)
Definition digest (s : string) : string := ip.hex (list_byte_of_string s).

(** The platform, given what the decoder makes of the standard input and
    the previous result that [RawPrevResult] stands for. *)
Definition platform (decode : string -> PluginConf + error)
    (prev : option current.Result) : Platform World :=
  {| sys_LinkByName := LinkByName;
     sys_LinkByIndex := LinkByIndex;
     sys_LinkAdd := LinkAdd;
     sys_LinkDel := LinkDel;
     sys_AddrList := fun _ w => (inl [], w);
     sys_QdiscList := QdiscList;
     sys_NewEthtool := fun w => (None, w);
     sys_EthtoolStats := fun _ w => (inl (stats w), w);
     sys_EthtoolClose := fun w => w;
     sys_rand_Read := rand_Read;
     net_ParseMAC := fun mac => Some mac;
     sys_GetNS := fun path w => (inl {| Fd := 3; Path := path |}, w);
     sys_CurrentNS := netns;
     sys_SetNS := SetNS;
     sys_CloseNS := fun _ w => w;
     json_Unmarshal := decode;
     version_ParsePrevResult := fun nc =>
       inl {| types.CNIVersion := types.CNIVersion nc; types.Name := types.Name nc;
              types.RawPrevResult := None; types.PrevResult := prev |};
     current_NewResultFromResult := fun r =>
       match r with
       | Some r => inl r
       | None => inr (Errorf "no result" [])
       end;
     sys_PrintResult := fun _ _ w => (None, w);
     float64 := Z;
     latencyInMillis := 25;
     latencyInUsec := fun ms => 1000 * ms;
     buffer := fun rate burst => burst * 1000000 / rate;
     limit := fun rate latency buffer => rate * latency / 1000000 + buffer;
     sys_CreateIngressQdisc := fun _ _ _ w => (None, w);
     sys_CreateIfb := fun _ _ w => (None, w);
     sys_CreateEgressQdisc := fun _ _ _ _ w => (None, w);
     utils_MustFormatHashWithPrefix := MustFormatHashWithPrefix digest |}.

(** *** A container attached through [veth123] *)

Definition hostNS : NetNS := {| Fd := 3; Path := "/proc/1/ns/net" |}.

Definition veth (name : string) (index parent : Z) : Link :=
  {| Type_ := Veth;
     Attrs := {| Index := index; MTU := 1500; Netlink.Name := name;
                 HardwareAddr := "0a:58:0a:00:00:02"; ParentIndex := parent |} |}.

Definition eth0 : Link := veth "eth0" 3 7.
Definition veth123 : Link := veth "veth123" 7 3.

Definition prevResult : current.Result :=
  {| current.CNIVersion := "1.0.0";
     current.Interfaces :=
       [ {| current.Name := "veth123"; current.Mac := "0a:58:0a:00:00:01";
            current.Sandbox := "" |};
         {| current.Name := "eth0"; current.Mac := "0a:58:0a:00:00:02";
            current.Sandbox := "/var/run/netns/cid1" |} ];
     current.Rest := "" |}.

Definition netconf : types.NetConf :=
  {| types.CNIVersion := "1.0.0"; types.Name := "net1";
     types.RawPrevResult := Some "prevResult"; types.PrevResult := None |}.

Definition args : skel.CmdArgs :=
  {| skel.ContainerID := "cid1"; skel.Netns := "/var/run/netns/cid1";
     skel.IfName := "eth0"; skel.StdinData := "stdin" |}.

(** The machine with the pair in place and the given disciplines on the
    host side. *)
Definition attached (qs : list Qdisc) : Sys World :=
  {| world := {| links := [eth0; veth123]; qdiscs := [("veth123", qs)];
                 entropy := []; stats := ∅; netns := hostNS |};
     calls := [] |}.

(** A configuration that limits ingress only. *)
Definition ingressOnly : PluginConf :=
  {| NetConf := netconf;
     RuntimeConfig_Bandwidth := None;
     BandwidthEntry_ :=
       Some {| IngressRate := 1000000; IngressBurst := 1000000;
               EgressRate := 0; EgressBurst := 0 |} |}.

(** A configuration with no bandwidth entry at either place. *)
Definition noBandwidth : PluginConf :=
  {| NetConf := netconf; RuntimeConfig_Bandwidth := None; BandwidthEntry_ := None |}.

(** A configuration whose entry is all zero. *)
Definition zeroBandwidth : PluginConf :=
  {| NetConf := netconf;
     RuntimeConfig_Bandwidth := None;
     BandwidthEntry_ :=
       Some {| IngressRate := 0; IngressBurst := 0; EgressRate := 0; EgressBurst := 0 |} |}.

Definition configured (conf : PluginConf) : Platform World :=
  platform (fun _ => inl conf) (Some prevResult).

(** *** A namespace in which generated names are taken *)

Definition name1 : list byte := [x00; x00; x00; x01].
Definition name2 : list byte := [x00; x00; x00; x02].
Definition name3 : list byte := [x00; x00; x00; x03].

(** [veth00000001] and [veth00000002] exist; the entropy pool is [pool]. *)
Definition crowded (pool : list (list byte)) : Sys World :=
  {| world := {| links := [veth "veth00000001" 1 0; veth "veth00000002" 2 0];
                 qdiscs := []; entropy := pool; stats := ∅; netns := hostNS |};
     calls := [] |}.

(** *** A veth whose peer has a large index *)

Definition farPeer : Sys World :=
  {| world := {| links := [veth "eth0" 3 40000]; qdiscs := []; entropy := [];
                 stats := ∅; netns := hostNS |};
     calls := [] |}.

(** A veth on an old kernel: no parent index, the peer is in the
    statistics. *)
Definition oldKernel : Sys World :=
  {| world := {| links := [veth "eth0" 3 0]; qdiscs := []; entropy := [];
                 stats := {[ "peer_ifindex" := 7%N ]}; netns := hostNS |};
     calls := [] |}.

(** The machine after an Add that shaped egress: the auxiliary device of
    network [net1] and container [cid1] exists. *)
Definition ifbName : string := "bwp6e6574316369".

Definition shaped : Sys World :=
  {| world := {| links := [eth0; veth123;
                           {| Type_ := Ifb;
                              Attrs := {| Index := 8; MTU := 1500; Netlink.Name := ifbName;
                                          HardwareAddr := "0a:58:0a:00:00:03";
                                          ParentIndex := 0 |} |}];
                 qdiscs := []; entropy := []; stats := ∅; netns := hostNS |};
     calls := [] |}.

(** The configuration as [parseConfig] returns it on this machine. *)
Definition parsed (conf : PluginConf) : PluginConf :=
  {| NetConf :=
       {| types.CNIVersion := "1.0.0"; types.Name := "net1";
          types.RawPrevResult := None; types.PrevResult := Some prevResult |};
     RuntimeConfig_Bandwidth := RuntimeConfig_Bandwidth conf;
     BandwidthEntry_ := BandwidthEntry_ conf |}.

End Machine.

(** ** More of package [ip]: renaming and the set-up of a veth pair *)

(** The operations that [RenameLink] and [SetupVethWithName] need beyond
    those of [Platform].  [link_Flags] is the [Flags] field of the
    attributes of a link, which [LinkAttrs] above does not carry. *)
Class LinkSetup (W : Type) : Type := {
  sys_LinkSetName : Link -> string -> W -> option error * W;
  sys_LinkSetUp : Link -> W -> option error * W;
  sys_Sysctl : string -> string -> W -> (string + error) * W;
  link_Flags : Link -> Z
}.

(** An operation of which the call log keeps no record. *)
Definition unrecorded {W A : Type} (op : W -> A * W) : Sys W -> A * Sys W :=
  fun s => let (a, w1) := op (world s) in (a, mkSys w1 (calls s)).

Module net.

(** [net.Interface]. *)
Record Interface : Type := mkInterface {
  Index : Z;
  MTU : Z;
  Name : string;
  HardwareAddr : string;
  Flags : Z
}.

End net.

Module ip_setup.

Section Setup.
Context {W : Type} {P : Platform W} {L : LinkSetup W}.

Definition netlink_LinkSetName (link : Link) (name : string) : Sys W -> option error * Sys W :=
  unrecorded (sys_LinkSetName link name).

Definition netlink_LinkSetUp (link : Link) : Sys W -> option error * Sys W :=
  unrecorded (sys_LinkSetUp link).

Definition sysctl_Sysctl (name value : string) : Sys W -> (string + error) * Sys W :=
  unrecorded (sys_Sysctl name value).

Definition RenameLink (curName newName : string) : Sys W -> option error * Sys W :=
  fun s =>
    match netlinksafe_LinkByName curName s with
    | (inl link, s1) => netlink_LinkSetName link newName s1
    | (inr err, s1) => (Some err, s1)
    end.

Definition ifaceFromNetlinkLink (l : Link) : net.Interface :=
  let a := Attrs l in
  {| net.Index := Netlink.Index a;
     net.MTU := Netlink.MTU a;
     net.Name := Netlink.Name a;
     net.HardwareAddr := Netlink.HardwareAddr a;
     net.Flags := link_Flags l |}.

(** The function handed to [hostNS.Do] by [SetupVethWithName]; it assigns
    the variable [hostVeth] and returns an error. *)
Definition setUpHostVeth (hostVethName : string) (hostNS : NetNS)
    : Sys W -> (option Link * option error) * Sys W :=
  fun s =>
    match netlinksafe_LinkByName hostVethName s with
    | (inr err, s1) =>
        ((None,
          Some (Errorf "failed to lookup %q in %q: %v"
                  [AStr hostVethName; AStr (Path hostNS); AErr (Some err)])), s1)
    | (inl hostVeth, s1) =>
        match netlink_LinkSetUp hostVeth s1 with
        | (Some err, s2) =>
            ((Some hostVeth,
              Some (Errorf "failed to set %q up: %v" [AStr hostVethName; AErr (Some err)])), s2)
        | (None, s2) =>
            (* we want to own the routes for this interface *)
            let (_, s3) :=
              sysctl_Sysctl ("net/ipv6/conf/" +:+ hostVethName +:+ "/accept_ra") "0" s2 in
            ((Some hostVeth, None), s3)
        end
    end.

(** [SetupVethWithName] sets up a pair of virtual ethernet devices; on
    success it returns [(hostVeth, containerVeth)].  With an error the Go
    function returns two zero interfaces, which are not represented. *)
Definition SetupVethWithName (contVethName hostVethName : string) (mtu : Z)
    (contVethMac : string) (hostNS : NetNS) : M W (net.Interface * net.Interface) :=
  fun s =>
    let '((hostVethName, contVeth, err), s1) :=
      ip.makeVeth contVethName hostVethName mtu contVethMac hostNS s in
    match err with
    | Some err => (Fail err, s1)
    | None =>
        let '(r, s2) := ns_Do hostNS (setUpHostVeth hostVethName hostNS) s1 in
        let '(hostVeth, err) :=
          match r with
          | inl (hostVeth, err) => (hostVeth, err)
          | inr err => (None, Some err)
          end in
        match err with
        | Some err => (Fail err, s2)
        | None =>
            (hostVeth <- deref hostVeth ;;
             contVeth <- deref contVeth ;;
             ret (ifaceFromNetlinkLink hostVeth, ifaceFromNetlinkLink contVeth)) s2
        end
    end.

(** [SetupVeth] sets up a pair of virtual ethernet devices with a random
    host-side name. *)
Definition SetupVeth (contVethName : string) (mtu : Z) (contVethMac : string)
    (hostNS : NetNS) : M W (net.Interface * net.Interface) :=
  SetupVethWithName contVethName "" mtu contVethMac hostNS.

End Setup.
End ip_setup.

(** ** Notions for the statements *)

(** Reading back what [ip.hex] writes. *)
Definition unhex_digit (c : ascii) : option N :=
  match c with
  | "0" => Some 0%N | "1" => Some 1%N | "2" => Some 2%N | "3" => Some 3%N
  | "4" => Some 4%N | "5" => Some 5%N | "6" => Some 6%N | "7" => Some 7%N
  | "8" => Some 8%N | "9" => Some 9%N | "a" => Some 10%N | "b" => Some 11%N
  | "c" => Some 12%N | "d" => Some 13%N | "e" => Some 14%N | "f" => Some 15%N
  | _ => None
  end%char.

Fixpoint unhex (s : string) : option (list byte) :=
  match s with
  | EmptyString => Some []
  | String hi (String lo rest) =>
      match unhex_digit hi, unhex_digit lo, unhex rest with
      | Some h, Some l, Some bs =>
          match Byte.of_N (16 * h + l) with
          | Some b => Some (b :: bs)
          | None => None
          end
      | _, _, _ => None
      end
  | String _ EmptyString => None
  end.

(** The token-bucket disciplines at the head of a list, up to the first
    discipline of another kind. *)
Fixpoint leading_Tbf (qdiscs : list Qdisc) : list Qdisc :=
  match qdiscs with
  | Tbf tbf :: rest => Tbf tbf :: leading_Tbf rest
  | _ => []
  end.

(** The calls that only look at the machine or switch the namespace of
    the calling thread: no link, discipline or device is made or removed
    by them, and nothing is printed. *)
Definition is_query (c : Call) : bool :=
  match c with
  | CLinkByName _ | CLinkByIndex _ | CAddrList _ | CQdiscList _
  | CNewEthtool | CEthtoolStats _ | CEthtoolClose
  | CGetNS _ | CSetNS _ | CCloseNS _ => true
  | _ => false
  end.

(** From [s] to [s'] the log grew by calls that satisfy [Q], and by
    nothing else. *)
Definition appended {W : Type} (Q : Call -> bool) (s s' : Sys W) : Prop :=
  exists l, calls s' = (calls s ++ l)%list /\ forallb Q l = true.

(** The calls that neither create a veth pair nor delete a link. *)
Definition keeps_links (c : Call) : bool :=
  match c with
  | CLinkAdd _ _ | CLinkDel _ => false
  | _ => true
  end.

(** Whatever the state, running [m] grows the log by calls that satisfy
    [Q] only. *)
Definition only_calls {W A : Type} (Q : Call -> bool) (m : Sys W -> A * Sys W) : Prop :=
  forall s, appended Q s (snd (m s)).

(** A direction of a bandwidth entry is configured, as [cmdAdd] and
    [cmdCheck] test it. *)
Definition configured_direction (rate burst : Z) : bool :=
  (0 <? rate) && (0 <? burst).

(** ** The small machine, continued *)

Module MachineSetup.

Definition LinkSetName (link : Link) (name : string) (w : Machine.World)
    : option error * Machine.World :=
  if existsb (Machine.named name) (Machine.links w) then (Some (Errno EEXIST), w)
  else
    (None,
     Machine.with_links w
       (map (fun l =>
               if Machine.named (Netlink.Name (Attrs link)) l then
                 {| Type_ := Type_ l;
                    Attrs := {| Index := Index (Attrs l); MTU := MTU (Attrs l);
                                Netlink.Name := name;
                                HardwareAddr := HardwareAddr (Attrs l);
                                ParentIndex := ParentIndex (Attrs l) |} |}
               else l)
            (Machine.links w))).

Definition setup : LinkSetup Machine.World :=
  {| sys_LinkSetName := LinkSetName;
     sys_LinkSetUp := fun _ w => (None, w);
     sys_Sysctl := fun _ value w => (inl value, w);
     link_Flags := fun _ => 1 |}.

(** An empty namespace with entropy for one name. *)
Definition empty : Sys Machine.World :=
  {| world := {| Machine.links := []; Machine.qdiscs := [];
                 Machine.entropy := [Machine.name3]; Machine.stats := ∅;
                 Machine.netns := Machine.hostNS |};
     calls := [] |}.

(** Addresses of a link, for [DelLinkByNameAddr]. *)
Definition addressed (addrs : list Addr) : Platform Machine.World :=
  let P := Machine.configured Machine.noBandwidth in
  {| sys_LinkByName := sys_LinkByName;
     sys_LinkByIndex := sys_LinkByIndex;
     sys_LinkAdd := sys_LinkAdd;
     sys_LinkDel := sys_LinkDel;
     sys_AddrList := fun _ w => (inl addrs, w);
     sys_QdiscList := sys_QdiscList;
     sys_NewEthtool := sys_NewEthtool;
     sys_EthtoolStats := sys_EthtoolStats;
     sys_EthtoolClose := sys_EthtoolClose;
     sys_rand_Read := sys_rand_Read;
     net_ParseMAC := net_ParseMAC;
     sys_GetNS := sys_GetNS;
     sys_CurrentNS := sys_CurrentNS;
     sys_SetNS := sys_SetNS;
     sys_CloseNS := sys_CloseNS;
     json_Unmarshal := json_Unmarshal;
     version_ParsePrevResult := version_ParsePrevResult;
     current_NewResultFromResult := current_NewResultFromResult;
     sys_PrintResult := sys_PrintResult;
     float64 := float64;
     latencyInMillis := latencyInMillis;
     latencyInUsec := latencyInUsec;
     buffer := buffer;
     limit := limit;
     sys_CreateIngressQdisc := sys_CreateIngressQdisc;
     sys_CreateIfb := sys_CreateIfb;
     sys_CreateEgressQdisc := sys_CreateEgressQdisc;
     utils_MustFormatHashWithPrefix := utils_MustFormatHashWithPrefix |}.

(** A configuration that limits both directions, as in the end-to-end
    example of the specification. *)
Definition bothDirections : PluginConf :=
  {| NetConf := Machine.netconf;
     RuntimeConfig_Bandwidth := None;
     BandwidthEntry_ :=
       Some {| IngressRate := 1000000; IngressBurst := 1000000;
               EgressRate := 2000000; EgressBurst := 2000000 |} |}.

(** The machine on which the auxiliary device already exists, as
    [CreateIfb] of the small machine creates nothing. *)
Definition prepared : Sys Machine.World :=
  {| world := world Machine.shaped; calls := [] |}.

End MachineSetup.

(** ** What Check requires of a direction *)

(** What is left of a listing once [pfifo_fast] is dropped. *)
Definition shaping (qdiscs : list Qdisc) : list Qdisc :=
  List.filter (fun qdisc => negb (is_PfifoFast qdisc)) qdiscs.

(** A listing passes for the parameters [e]: something other than
    [pfifo_fast] is listed, and each token-bucket discipline listed before
    the first discipline of another kind has the rate, limit and buffer of
    [e]. *)
Definition verified (e : TbfParams) (qdiscs : list Qdisc) : Prop :=
  shaping qdiscs <> [] /\
  Forall (is_expected_Tbf (Rate e) (Limit e) (Buffer e)) (leading_Tbf (shaping qdiscs)).

Section Directions.
Context {W : Type} {P : Platform W}.

(** The parameters recomputed from the rate and the burst of a direction
    of the bandwidth entry. *)
Definition expectedTbf (rate burst : Z) : TbfParams :=
  let rateInBytes := rate / 8 in
  let burstInBytes := burst / 8 in
  {| Rate := rateInBytes;
     Limit := limit rateInBytes (latencyInUsec latencyInMillis) (to_uint32 burstInBytes);
     Buffer := buffer rateInBytes (to_uint32 burstInBytes) |}.

(** The verification of one direction on [link], started in [s]: its
    result and the state it ends in, by what the listing gives. *)
Inductive direction_checked (e : TbfParams) (link : Link) (s : Sys W)
    : outcome unit -> Sys W -> Prop :=
| listing_failed (err : error) (s1 : Sys W) :
    netlinksafe_QdiscList link s = (inr err, s1) ->
    direction_checked e link s (Fail err) s1
| nothing_listed (qdiscs : list Qdisc) (s1 : Sys W) :
    netlinksafe_QdiscList link s = (inl qdiscs, s1) ->
    shaping qdiscs = [] ->
    direction_checked e link s (Fail (Errorf "Failed to find qdisc" [])) s1
| mismatched (qdiscs : list Qdisc) (s1 : Sys W) (err : error) :
    netlinksafe_QdiscList link s = (inl qdiscs, s1) ->
    shaping qdiscs <> [] ->
    ~ Forall (is_expected_Tbf (Rate e) (Limit e) (Buffer e)) (leading_Tbf (shaping qdiscs)) ->
    mismatch err ->
    direction_checked e link s (Fail err) s1
| passed (qdiscs : list Qdisc) (s1 : Sys W) :
    netlinksafe_QdiscList link s = (inl qdiscs, s1) ->
    verified e qdiscs ->
    direction_checked e link s (Ret tt) s1.

(** The result [r] of Check, and the state [s'] it ends in, for the entry
    [b], once the host link [link] is resolved in the state [s3]: the
    ingress direction, if configured, is verified on the host link, and a
    failure of it is the result; otherwise the egress direction, if
    configured, is verified on the auxiliary device, found by its name,
    and its result is the result; with nothing left to verify Check
    succeeds.  The namespace [netns] is closed at the end. *)
Definition directions_checked (args : skel.CmdArgs) (conf : PluginConf) (b : BandwidthEntry)
    (netns : NetNS) (link : Link) (s3 : Sys W) (r : outcome unit) (s' : Sys W) : Prop :=
  exists r_in s_in,
    (if configured_direction (IngressRate b) (IngressBurst b) then
       direction_checked (expectedTbf (IngressRate b) (IngressBurst b)) link s3 r_in s_in
     else r_in = Ret tt /\ s_in = s3) /\
    match r_in with
    | Ret _ =>
        if configured_direction (EgressRate b) (EgressBurst b) then
          match
            netlinksafe_LinkByName
              (bandwidth.getIfbDeviceName (types.Name (NetConf conf)) (skel.ContainerID args))
              s_in
          with
          | (inr err, s5) =>
              r = Fail (Errorf "get ifb device: %s" [AErr (Some err)]) /\
              s' = ns_Close netns s5
          | (inl ifbDevice, s5) =>
              exists s_eg,
                direction_checked (expectedTbf (EgressRate b) (EgressBurst b))
                  ifbDevice s5 r s_eg /\
                s' = ns_Close netns s_eg
          end
        else r = Ret tt /\ s' = ns_Close netns s_in
    | _ => r = r_in /\ s' = ns_Close netns s_in
    end.

End Directions.

Module MachineCheck.

(** The machine shaped in both directions as [MachineSetup.bothDirections]
    asks for, with the kernel default still listed on the host link. *)
Definition shaped (onHost onIfb : list Qdisc) : Sys Machine.World :=
  {| world := {| Machine.links := Machine.links (world Machine.shaped);
                 Machine.qdiscs := [("veth123", onHost); (Machine.ifbName, onIfb)];
                 Machine.entropy := []; Machine.stats := ∅;
                 Machine.netns := Machine.hostNS |};
     calls := [] |}.

Definition ingressTbf : Qdisc := Tbf {| Rate := 125000; Limit := 128125; Buffer := 1000000 |}.
Definition egressTbf : Qdisc := Tbf {| Rate := 250000; Limit := 256250; Buffer := 1000000 |}.

End MachineCheck.

(** ** Two namespaces

    [makeVethPair] runs in the container's namespace and asks for the peer
    in the host's ([PeerNamespace]).  On this machine each namespace has
    its own link table: [netlink.LinkAdd] puts the container end into the
    table of the calling namespace and the peer end into the host's, and
    fails with [EEXIST] when either name is taken where it is to be
    created; every other operation acts on the calling namespace. *)

Module MachineNS.

Record World : Type := mkWorld {
  container : Machine.World;
  host : list Link
}.

Definition base : Platform Machine.World := Machine.configured Machine.noBandwidth.

(** An operation on the calling namespace. *)
Definition calling {A : Type} (op : Machine.World -> A * Machine.World) (w : World)
    : A * World :=
  let (a, c) := op (container w) in
  (a, {| container := c; host := host w |}).

Definition LinkAdd (req : VethReq) (w : World) : option error * World :=
  let name := Netlink.Name (LinkAttrs_ req) in
  let here := Machine.links (container w) in
  if existsb (Machine.named name) here || existsb (Machine.named (PeerName req)) (host w) then
    (Some (Errno EEXIST), w)
  else
    let i := Z.of_nat (length here) + 1 in
    let j := Z.of_nat (length (host w)) + 101 in
    let a := LinkAttrs_ req in
    let l1 := {| Type_ := Veth;
                 Attrs := {| Index := i; MTU := MTU a; Netlink.Name := name;
                             HardwareAddr := HardwareAddr a; ParentIndex := j |} |} in
    let l2 := {| Type_ := Veth;
                 Attrs := {| Index := j; MTU := MTU a; Netlink.Name := PeerName req;
                             HardwareAddr := ""; ParentIndex := i |} |} in
    (None,
     {| container := Machine.with_links (container w) (here ++ [l1]);
        host := host w ++ [l2] |}).

Definition platform : Platform World :=
  {| sys_LinkByName := fun name => calling (@sys_LinkByName _ base name);
     sys_LinkByIndex := fun index => calling (@sys_LinkByIndex _ base index);
     sys_LinkAdd := LinkAdd;
     sys_LinkDel := fun a => calling (@sys_LinkDel _ base a);
     sys_AddrList := fun l => calling (@sys_AddrList _ base l);
     sys_QdiscList := fun l => calling (@sys_QdiscList _ base l);
     sys_NewEthtool := calling (@sys_NewEthtool _ base);
     sys_EthtoolStats := fun name => calling (@sys_EthtoolStats _ base name);
     sys_EthtoolClose := fun w => w;
     sys_rand_Read := fun n => calling (@sys_rand_Read _ base n);
     net_ParseMAC := @net_ParseMAC _ base;
     sys_GetNS := fun path => calling (@sys_GetNS _ base path);
     sys_CurrentNS := fun w => Machine.netns (container w);
     sys_SetNS := fun target => calling (@sys_SetNS _ base target);
     sys_CloseNS := fun _ w => w;
     json_Unmarshal := @json_Unmarshal _ base;
     version_ParsePrevResult := @version_ParsePrevResult _ base;
     current_NewResultFromResult := @current_NewResultFromResult _ base;
     sys_PrintResult := fun r version => calling (@sys_PrintResult _ base r version);
     float64 := @float64 _ base;
     latencyInMillis := @latencyInMillis _ base;
     latencyInUsec := @latencyInUsec _ base;
     buffer := @buffer _ base;
     limit := @limit _ base;
     sys_CreateIngressQdisc := fun rate burst name =>
       calling (@sys_CreateIngressQdisc _ base rate burst name);
     sys_CreateIfb := fun name mtu => calling (@sys_CreateIfb _ base name mtu);
     sys_CreateEgressQdisc := fun rate burst host ifb =>
       calling (@sys_CreateEgressQdisc _ base rate burst host ifb);
     utils_MustFormatHashWithPrefix := @utils_MustFormatHashWithPrefix _ base |}.

Definition containerNS : NetNS := {| Fd := 4; Path := "/var/run/netns/cid1" |}.

(** A new container, with no link yet, on a host where [veth00000001] is
    the host end of another container's pair; the entropy pool gives the
    names [veth00000001] and then [veth00000002]. *)
Definition peerTaken : Sys World :=
  {| world :=
       {| container := {| Machine.links := []; Machine.qdiscs := [];
                          Machine.entropy := [Machine.name1; Machine.name2];
                          Machine.stats := ∅; Machine.netns := containerNS |};
          host := [Machine.veth "veth00000001" 9 2] |};
     calls := [] |}.

End MachineNS.

(** * Properties *)

(** ** Rate and burst validation *)

(** What [validateRateAndBurst] accepts: both values zero, or both nonzero
    with the burst in bytes strictly below [math.MaxUint32]. *)
Lemma validateRateAndBurst_accepts (rate burst : Z) :
  validateRateAndBurst rate burst = None <->
  (rate = 0 /\ burst = 0) \/ (rate <> 0 /\ burst <> 0 /\ burst / 8 < MaxUint32).
Proof.
  unfold validateRateAndBurst.
  destruct (Z.eqb_spec burst 0) as [Hb | Hb], (Z.eqb_spec rate 0) as [Hr | Hr];
    cbn [andb negb].
  - subst. cbn. split; [ intros _; left; split; reflexivity | reflexivity ].
  - split; [ discriminate | intros [[? _] | [_ [? _]]]; contradiction ].
  - split; [ discriminate | intros [[_ ?] | [? _]]; contradiction ].
  - destruct (Z.geb_spec (burst / 8) MaxUint32) as [Hge | Hlt].
    + split; [ discriminate | intros [[? _] | [_ [_ ?]]]; [ contradiction | lia ] ].
    + split; [ intros _; right; repeat split; assumption | reflexivity ].
Qed.

(** The instances that the specification lists. *)
Lemma validateRateAndBurst_examples :
  validateRateAndBurst 0 0 = None /\
  validateRateAndBurst 1000 0 <> None /\
  validateRateAndBurst 0 500 <> None /\
  validateRateAndBurst 100 (8 * 2 ^ 32) <> None.
Proof. repeat split; vm_compute; discriminate. Qed.

(** C2: the specification has [validateRateAndBurst] accept every pair of
    nonzero values with [burst/8 < 2^32].  At [burst = 8 * (2^32 - 1)], a
    valid [uint64] whose byte count [2^32 - 1] is below [2^32] and fits in
    32 bits, the function reports "burst cannot be more than 4GB". *)
Theorem validateRateAndBurst_rejects_MaxUint32 :
  let burst := 8 * (2 ^ 32 - 1) in
  is_uint64 100 /\ is_uint64 burst /\
  100 <> 0 /\ burst <> 0 /\ burst / 8 < 2 ^ 32 /\
  to_uint32 (burst / 8) = burst / 8 /\
  validateRateAndBurst 100 burst = Some (Errorf "burst cannot be more than 4GB" []).
Proof.
  cbv zeta. unfold is_uint64, MaxUint64.
  repeat split; try (vm_compute; congruence); vm_compute; discriminate.
Qed.

(** ** The name of the auxiliary device *)

Lemma length_substring_le (m : nat) (s : string) :
  (String.length (String.substring 0 m s) <= m)%nat.
Proof.
  revert s. induction m as [| m IH]; intros [| c s]; cbn; try lia.
  specialize (IH s). lia.
Qed.

Section IfbDeviceName.
Context {W : Type} {P : Platform W}.

(** C8: with the hash helper behaving as the specification describes it,
    [getIfbDeviceName] yields equal names for equal inputs, and every name
    has at most 15 characters and begins with "bwp". *)
Theorem getIfbDeviceName_bounded (digest : string -> string)
    (Hutils : forall length prefix toHash,
        utils_MustFormatHashWithPrefix length prefix toHash =
        MustFormatHashWithPrefix digest length prefix toHash)
    (networkName containerID : string) :
  (forall networkName' containerID',
      networkName' = networkName -> containerID' = containerID ->
      bandwidth.getIfbDeviceName networkName' containerID' =
      bandwidth.getIfbDeviceName networkName containerID) /\
  (String.length (bandwidth.getIfbDeviceName networkName containerID) <= 15)%nat /\
  (exists rest : string,
      bandwidth.getIfbDeviceName networkName containerID = ifbDevicePrefix +:+ rest).
Proof.
  split; [ intros ? ? -> ->; reflexivity | ].
  unfold bandwidth.getIfbDeviceName. rewrite Hutils.
  unfold MustFormatHashWithPrefix, maxIfbDeviceLength, ifbDevicePrefix.
  split.
  - apply (length_substring_le 15).
  - exists (String.substring 0 12 (digest (networkName +:+ containerID))).
    reflexivity.
Qed.

(** C10: the name depends on the network name and the container ID only
    through their concatenation, so pairs with equal concatenations get
    the same name, and there are distinct pairs that do. *)
Theorem getIfbDeviceName_concatenation :
  (forall net id net' id' : string,
      net +:+ id = net' +:+ id' ->
      bandwidth.getIfbDeviceName net id = bandwidth.getIfbDeviceName net' id') /\
  (exists net id net' id' : string,
      (net, id) <> (net', id') /\
      bandwidth.getIfbDeviceName net id = bandwidth.getIfbDeviceName net' id').
Proof.
  split.
  - intros net id net' id' Hcat. unfold bandwidth.getIfbDeviceName.
    rewrite Hcat. reflexivity.
  - exists "ab", "c", "a", "bc". split; [ discriminate | reflexivity ].
Qed.

End IfbDeviceName.

Lemma getIfbDeviceName_bounded_witness :
  let P := Machine.configured Machine.ingressOnly in
  (String.length (bandwidth.getIfbDeviceName "net1" "cid1") <= 15)%nat /\
  (exists rest : string, bandwidth.getIfbDeviceName "net1" "cid1" = "bwp" +:+ rest) /\
  bandwidth.getIfbDeviceName "net1" "cid1" = "bwp6e6574316369".
Proof.
  cbv zeta.
  pose proof (@getIfbDeviceName_bounded _ (Machine.configured Machine.ingressOnly)
                Machine.digest (fun _ _ _ => eq_refl) "net1" "cid1") as [_ [Hlen Hpre]].
  split; [ exact Hlen | split; [ exact Hpre | reflexivity ] ].
Defined.

Lemma getIfbDeviceName_concatenation_witness :
  let P := Machine.configured Machine.ingressOnly in
  "net1" +:+ "cid1" = "net" +:+ "1cid1" /\
  bandwidth.getIfbDeviceName "net1" "cid1" = bandwidth.getIfbDeviceName "net" "1cid1".
Proof.
  cbv zeta. split; [ reflexivity | ].
  apply (proj1 (@getIfbDeviceName_concatenation _ (Machine.configured Machine.ingressOnly))).
  reflexivity.
Defined.

(** ** Deleting a link *)

Lemma is_LinkNotFoundError_iff (err : error) :
  is_LinkNotFoundError err = true <-> exists msg, err = LinkNotFoundError msg.
Proof.
  destruct err; cbn; split; try discriminate; try (intros [? ?]; discriminate).
  - intros _. eexists. reflexivity.
  - reflexivity.
Qed.

Section DelLink.
Context {W : Type} {P : Platform W}.

(** The sentinel is returned exactly on an absent link, and any other
    error returned has one of the wrapped forms. *)
Lemma DelLink_sentinel (ifName : string) (s : Sys W) :
  let absent := exists msg s1, netlinksafe_LinkByName ifName s = (inr (LinkNotFoundError msg), s1) in
  (fst (ip.DelLinkByName ifName s) = Some ErrLinkNotFound <-> absent) /\
  (fst (ip.DelLinkByNameAddr ifName s) = inr ErrLinkNotFound <-> absent) /\
  (forall e, fst (ip.DelLinkByName ifName s) = Some e -> e <> ErrLinkNotFound ->
     exists err, e = errLookup ifName err \/ e = errDelete ifName err) /\
  (forall e, fst (ip.DelLinkByNameAddr ifName s) = inr e -> e <> ErrLinkNotFound ->
     exists err, e = errLookup ifName err \/ e = errAddresses ifName err \/
                 e = errDelete ifName err) /\
  (absent -> snd (ip.DelLinkByName ifName s) = snd (ip.DelLinkByNameAddr ifName s)).
Proof.
  cbv zeta. unfold ip.DelLinkByName, ip.DelLinkByNameAddr, errLookup, errAddresses, errDelete.
  destruct (netlinksafe_LinkByName ifName s) as [[iface | err] s1] eqn:Hlookup.
  - (* the link exists *)
    destruct (netlinksafe_AddrList iface s1) as [[addrs | erra] s2];
      destruct (netlink_LinkDel (Attrs iface) s1) as [[errd |] s3];
      try destruct (netlink_LinkDel (Attrs iface) s2) as [[errd' |] s4];
      cbn [fst snd];
      (repeat split;
       try discriminate;
       try (intros (msg & s' & Heq); discriminate);
       try (intros e He Hne; injection He as <-; eauto);
       try (intros e He; discriminate)).
  - (* the lookup fails *)
    destruct (is_LinkNotFoundError err) eqn:Hnf; cbn [fst snd].
    + apply is_LinkNotFoundError_iff in Hnf as [msg ->].
      repeat split; eauto; try (intros e He Hne; injection He as <-; contradiction).
    + assert (Hno : ~ (exists msg s', (inr err : Link + error, s1) = (inr (LinkNotFoundError msg), s'))).
      { intros (msg & s' & Heq). injection Heq as -> _. discriminate. }
      repeat split;
        try discriminate;
        try (intros H; contradiction);
        try (intros e He Hne; injection He as <-; eauto).
Qed.


(** What the two functions return, case by case. *)
Lemma DelLink_results (ifName : string) (s : Sys W) :
  (forall msg s1,
      netlinksafe_LinkByName ifName s = (inr (LinkNotFoundError msg), s1) ->
      ip.DelLinkByName ifName s = (Some ErrLinkNotFound, s1) /\
      ip.DelLinkByNameAddr ifName s = (inr ErrLinkNotFound, s1)) /\
  (forall err s1,
      netlinksafe_LinkByName ifName s = (inr err, s1) ->
      is_LinkNotFoundError err = false ->
      ip.DelLinkByName ifName s = (Some (errLookup ifName err), s1) /\
      ip.DelLinkByNameAddr ifName s = (inr (errLookup ifName err), s1)) /\
  (forall iface s1 r s2,
      netlinksafe_LinkByName ifName s = (inl iface, s1) ->
      netlink_LinkDel (Attrs iface) s1 = (r, s2) ->
      ip.DelLinkByName ifName s =
        (match r with
         | Some err => Some (errDelete ifName err)
         | None => None
         end, s2)) /\
  (forall iface s1 err s2,
      netlinksafe_LinkByName ifName s = (inl iface, s1) ->
      netlinksafe_AddrList iface s1 = (inr err, s2) ->
      ip.DelLinkByNameAddr ifName s = (inr (errAddresses ifName err), s2)) /\
  (forall iface s1 addrs s2 r s3,
      netlinksafe_LinkByName ifName s = (inl iface, s1) ->
      netlinksafe_AddrList iface s1 = (inl addrs, s2) ->
      netlink_LinkDel (Attrs iface) s2 = (r, s3) ->
      ip.DelLinkByNameAddr ifName s =
        (match r with
         | Some err => inr (errDelete ifName err)
         | None => inl (map IPNet (List.filter IsGlobalUnicast addrs))
         end, s3)).
Proof.
  unfold ip.DelLinkByName, ip.DelLinkByNameAddr, errLookup, errAddresses, errDelete.
  split; [ | split; [ | split; [ | split ] ] ].
  - intros msg s1 ->. split; reflexivity.
  - intros err s1 -> ->. split; reflexivity.
  - intros iface s1 r s2 -> ->. destruct r; reflexivity.
  - intros iface s1 err s2 -> ->. reflexivity.
  - intros iface s1 addrs s2 r s3 -> -> ->. destruct r; reflexivity.
Qed.

(** C9: [DelLinkByName] and [DelLinkByNameAddr] return the sentinel
    [ErrLinkNotFound] exactly when the lookup fails with a
    [LinkNotFoundError], and leave the same state behind then.  Every
    other failure is returned, wrapped with the operation and the
    interface name around the error that occurred: a lookup that fails
    otherwise, a deletion that fails and, for [DelLinkByNameAddr], an
    address listing that fails.  When the lookup finds the link, its
    deletion is requested (after the listing, for [DelLinkByNameAddr]) and
    a deletion that succeeds gives success. *)
Theorem DelLinkByName_NotFound (ifName : string) (s : Sys W) :
  let absent := exists msg s1, netlinksafe_LinkByName ifName s = (inr (LinkNotFoundError msg), s1) in
  (fst (ip.DelLinkByName ifName s) = Some ErrLinkNotFound <-> absent) /\
  (fst (ip.DelLinkByNameAddr ifName s) = inr ErrLinkNotFound <-> absent) /\
  (forall e, fst (ip.DelLinkByName ifName s) = Some e -> e <> ErrLinkNotFound ->
     exists err, e = errLookup ifName err \/ e = errDelete ifName err) /\
  (forall e, fst (ip.DelLinkByNameAddr ifName s) = inr e -> e <> ErrLinkNotFound ->
     exists err, e = errLookup ifName err \/ e = errAddresses ifName err \/
                 e = errDelete ifName err) /\
  (absent -> snd (ip.DelLinkByName ifName s) = snd (ip.DelLinkByNameAddr ifName s)) /\
  (forall msg s1,
      netlinksafe_LinkByName ifName s = (inr (LinkNotFoundError msg), s1) ->
      ip.DelLinkByName ifName s = (Some ErrLinkNotFound, s1) /\
      ip.DelLinkByNameAddr ifName s = (inr ErrLinkNotFound, s1)) /\
  (forall err s1,
      netlinksafe_LinkByName ifName s = (inr err, s1) ->
      is_LinkNotFoundError err = false ->
      ip.DelLinkByName ifName s = (Some (errLookup ifName err), s1) /\
      ip.DelLinkByNameAddr ifName s = (inr (errLookup ifName err), s1)) /\
  (forall iface s1 r s2,
      netlinksafe_LinkByName ifName s = (inl iface, s1) ->
      netlink_LinkDel (Attrs iface) s1 = (r, s2) ->
      ip.DelLinkByName ifName s =
        (match r with
         | Some err => Some (errDelete ifName err)
         | None => None
         end, s2)) /\
  (forall iface s1 err s2,
      netlinksafe_LinkByName ifName s = (inl iface, s1) ->
      netlinksafe_AddrList iface s1 = (inr err, s2) ->
      ip.DelLinkByNameAddr ifName s = (inr (errAddresses ifName err), s2)) /\
  (forall iface s1 addrs s2 r s3,
      netlinksafe_LinkByName ifName s = (inl iface, s1) ->
      netlinksafe_AddrList iface s1 = (inl addrs, s2) ->
      netlink_LinkDel (Attrs iface) s2 = (r, s3) ->
      ip.DelLinkByNameAddr ifName s =
        (match r with
         | Some err => inr (errDelete ifName err)
         | None => inl (map IPNet (List.filter IsGlobalUnicast addrs))
         end, s3)).
Proof.
  cbv zeta.
  destruct (DelLink_sentinel ifName s) as (H1 & H2 & H3 & H4 & H5).
  destruct (DelLink_results ifName s) as (H6 & H7 & H8 & H9 & H10).
  split; [ exact H1 | ]. split; [ exact H2 | ]. split; [ exact H3 | ].
  split; [ exact H4 | ]. split; [ exact H5 | ]. split; [ exact H6 | ].
  split; [ exact H7 | ]. split; [ exact H8 | ]. split; [ exact H9 | exact H10 ].
Qed.

End DelLink.

Lemma DelLinkByName_NotFound_witness :
  let P := Machine.configured Machine.noBandwidth in
  (fst (ip.DelLinkByName "bwp0" (Machine.attached [])) = Some ErrLinkNotFound /\
   fst (ip.DelLinkByNameAddr "bwp0" (Machine.attached [])) = inr ErrLinkNotFound) /\
  (fst (ip.DelLinkByName Machine.ifbName Machine.shaped) = None /\
   Machine.links (world (snd (ip.DelLinkByName Machine.ifbName Machine.shaped))) =
     [Machine.eth0; Machine.veth123] /\
   calls (snd (ip.DelLinkByName Machine.ifbName Machine.shaped)) =
     [CLinkByName Machine.ifbName; CLinkDel Machine.ifbName]).
Proof.
  cbv zeta.
  set (P := Machine.configured Machine.noBandwidth).
  split.
  - pose proof (@DelLinkByName_NotFound _ P "bwp0" (Machine.attached [])) as (H1 & H2 & _).
    split; [ apply H1 | apply H2 ];
      exists "Link not found",
             (snd (@netlinksafe_LinkByName _ P "bwp0" (Machine.attached [])));
      reflexivity.
  - pose proof (@DelLinkByName_NotFound _ P Machine.ifbName Machine.shaped)
      as (_ & _ & _ & _ & _ & _ & _ & H8 & _).
    pose (ifb := {| Type_ := Ifb;
                    Attrs := {| Index := 8; MTU := 1500; Netlink.Name := Machine.ifbName;
                                HardwareAddr := "0a:58:0a:00:00:03";
                                ParentIndex := 0 |} |}).
    pose (s1 := snd (@netlinksafe_LinkByName _ P Machine.ifbName Machine.shaped)).
    pose (s2 := snd (@netlink_LinkDel _ P (Attrs ifb) s1)).
    assert (Hlookup : @netlinksafe_LinkByName _ P Machine.ifbName Machine.shaped =
                      (inl ifb, s1)) by (vm_compute; reflexivity).
    assert (Hdel : @netlink_LinkDel _ P (Attrs ifb) s1 = (None, s2))
      by (vm_compute; reflexivity).
    rewrite (H8 ifb s1 None s2 Hlookup Hdel).
    repeat split; vm_compute; reflexivity.
Defined.

(** ** The peer index of a veth *)

Section PeerIfindex.
Context {W : Type} {P : Platform W}.

(** C4, as the code has it: when [GetVethPeerIfindex] returns without an
    error, the link is a veth and the peer index is at least 1; it is the
    kernel-reported parent index when that is positive, with no upper
    bound checked, and otherwise the [peer_ifindex] statistic, which is
    then between 1 and 32767.  A link that is not a veth is an error, and
    so is, in the fallback, a statistic that is missing, zero or above
    32767. *)
Theorem GetVethPeerIfindex_ok (ifName : string) (s : Sys W) :
  (forall link peerIndex s',
      ip.GetVethPeerIfindex ifName s = ((link, peerIndex, None), s') ->
      exists l s1,
        netlinksafe_LinkByName ifName s = (inl l, s1) /\
        link = Some l /\ is_Veth l = true /\ 1 <= peerIndex /\
        ((0 < ParentIndex (Attrs l) /\ peerIndex = ParentIndex (Attrs l)) \/
         (ParentIndex (Attrs l) <= 0 /\ 1 <= peerIndex <= 32767 /\
          exists s2 stats s3,
            ethtool_Stats (Netlink.Name (Attrs l)) s2 = (inl stats, s3) /\
            stats !! "peer_ifindex" = Some (Z.to_N peerIndex)))) /\
  (forall l s1,
      netlinksafe_LinkByName ifName s = (inl l, s1) -> is_Veth l = false ->
      ip.GetVethPeerIfindex ifName s =
      ((None, -1, Some (Errorf "interface %q was not a veth interface" [AStr ifName])), s1)) /\
  (forall l s1 s2 stats s3,
      netlinksafe_LinkByName ifName s = (inl l, s1) -> is_Veth l = true ->
      ParentIndex (Attrs l) <= 0 ->
      ethtool_NewEthtool s1 = (None, s2) ->
      ethtool_Stats (Netlink.Name (Attrs l)) s2 = (inl stats, s3) ->
      (stats !! "peer_ifindex" = None \/
       exists n, stats !! "peer_ifindex" = Some n /\ (n = 0 \/ 32767 < n)%N) ->
      exists err,
        ip.GetVethPeerIfindex ifName s = ((None, -1, Some err), ethtool_Close s3)).
Proof.
  unfold ip.GetVethPeerIfindex. split; [ | split ].
  - intros link peerIndex s'.
    destruct (netlinksafe_LinkByName ifName s) as [[l | err] s1]; [ | discriminate ].
    destruct (is_Veth l) eqn:Hveth; cbn [negb]; [ | discriminate ].
    destruct (Z.leb_spec (ParentIndex (Attrs l)) 0) as [Hold | Hnew].
    + destruct (ethtool_NewEthtool s1) as [[err |] s2]; [ discriminate | ].
      destruct (ethtool_Stats (Netlink.Name (Attrs l)) s2) as [[stats | err] s3] eqn:Hstats;
        [ | discriminate ].
      destruct (stats !! "peer_ifindex") as [n |] eqn:Hn; [ | discriminate ].
      destruct (N.ltb_spec 32767 n) as [Hbig | Hsmall]; cbn [orb]; [ discriminate | ].
      destruct (N.eqb_spec n 0) as [Hz | Hnz]; [ discriminate | ].
      intros [= <- <- <-].
      exists l, s1. do 3 (split; [ first [ reflexivity | assumption ] | ]). split; [ lia | ].
      right. split; [ lia | ]. split; [ lia | ].
      exists s2, stats, s3. rewrite N2Z.id. split; [ exact Hstats | exact Hn ].
    + intros [= <- <- <-]. exists l, s1.
      do 3 (split; [ first [ reflexivity | assumption ] | ]). split; [ lia | ]. left. lia.
  - intros l s1 -> ->. reflexivity.
  - intros l s1 s2 stats s3 -> -> Hold -> -> Hstat. cbn [negb].
    apply Z.leb_le in Hold. rewrite Hold.
    destruct Hstat as [-> | (n & -> & Hn)]; [ eexists; reflexivity | ].
    assert (Hbad : (32767 <? n)%N || (n =? 0)%N = true).
    { apply orb_true_iff. destruct Hn as [-> | Hbig]; [ right; reflexivity | left ].
      apply N.ltb_lt. exact Hbig. }
    rewrite Hbad. eexists. reflexivity.
Qed.

End PeerIfindex.

Lemma GetVethPeerIfindex_ok_witness :
  let P := Machine.configured Machine.noBandwidth in
  exists s',
    ip.GetVethPeerIfindex "eth0" Machine.oldKernel =
      ((Some (Machine.veth "eth0" 3 0), 7, None), s') /\
    1 <= 7 <= 32767.
Proof.
  cbv zeta.
  exists (snd (@ip.GetVethPeerIfindex _ (Machine.configured Machine.noBandwidth)
                 "eth0" Machine.oldKernel)).
  split; [ reflexivity | ].
  destruct (proj1 (@GetVethPeerIfindex_ok _ (Machine.configured Machine.noBandwidth)
                     "eth0" Machine.oldKernel)
              (Some (Machine.veth "eth0" 3 0)) 7
              (snd (@ip.GetVethPeerIfindex _ (Machine.configured Machine.noBandwidth)
                      "eth0" Machine.oldKernel))
              eq_refl)
    as (l & s1 & _ & Hlink & _ & _ & [[Hparent _] | (_ & Hrange & _)]).
  - injection Hlink as <-. cbn in Hparent. lia.
  - exact Hrange.
Defined.

(** C4, as stated, fails: a veth whose kernel-reported parent index is
    40000 is returned without an error. *)
Lemma GetVethPeerIfindex_parent_index_unbounded :
  ~ (forall (W : Type) (P : Platform W) (ifName : string) (s : Sys W) link peerIndex s',
        ip.GetVethPeerIfindex ifName s = ((link, peerIndex, None), s') ->
        1 <= peerIndex <= 32767).
Proof.
  intros Hclaim.
  specialize (Hclaim _ (Machine.configured Machine.noBandwidth) "eth0" Machine.farPeer
                (Some (Machine.veth "eth0" 3 40000)) 40000 _ eq_refl).
  lia.
Qed.

(** ** Creating a veth pair under name collisions *)

Section MakeVeth.
Context {W : Type} {P : Platform W}.

Lemma creations_call {A : Type} (c : Call) (op : W -> A * W) (s : Sys W) :
  creations (snd (call c op s)) =
  (creations s + (if is_CLinkAdd c then 1 else 0))%nat.
Proof.
  unfold call, creations. destruct (op (world s)) as [a w1]. cbn [snd calls].
  rewrite List.filter_app, List.length_app. cbn [List.filter].
  destruct (is_CLinkAdd c); reflexivity.
Qed.

Lemma creations_LinkByName (name : string) (s : Sys W) :
  creations (snd (netlinksafe_LinkByName name s)) = creations s.
Proof. unfold netlinksafe_LinkByName. rewrite creations_call. cbn. lia. Qed.

Lemma creations_LinkDel (a : LinkAttrs) (s : Sys W) :
  creations (snd (netlink_LinkDel a s)) = creations s.
Proof. unfold netlink_LinkDel. rewrite creations_call. cbn. lia. Qed.

Lemma creations_LinkAdd (veth : VethReq) (s : Sys W) :
  creations (snd (netlink_LinkAdd veth s)) = S (creations s).
Proof. unfold netlink_LinkAdd. rewrite creations_call. cbn. lia. Qed.

Lemma creations_rand_Read (n : nat) (s : Sys W) :
  creations (snd (rand_Read n s)) = creations s.
Proof. unfold rand_Read. rewrite creations_call. cbn. lia. Qed.

Lemma creations_RandomVethName (s : Sys W) :
  creations (snd (ip.RandomVethName s)) = creations s.
Proof.
  unfold ip.RandomVethName.
  pose proof (creations_rand_Read 4 s) as H.
  destruct (rand_Read 4 s) as [[entropy | err] s1]; exact H.
Qed.

Lemma creations_peerExists (name : string) (s : Sys W) :
  creations (snd (ip.peerExists name s)) = creations s.
Proof.
  unfold ip.peerExists.
  pose proof (creations_LinkByName name s) as H.
  destruct (netlinksafe_LinkByName name s) as [[l | err] s1]; exact H.
Qed.

(** A call of [makeVethPair] that returns a link, or an error that
    [os.IsExist] recognises, has requested exactly one creation. *)
Lemma creations_makeVethPair (name peer : string) (mtu : Z) (mac : string)
    (hostNS : NetNS) (s s' : Sys W) (r : Link + error) :
  ip.makeVethPair name peer mtu mac hostNS s = (r, s') ->
  match r with inl _ => True | inr err => os_IsExist err = true end ->
  creations s' = S (creations s).
Proof.
  unfold ip.makeVethPair. cbv zeta.
  match goal with
  | |- context [ match ?v with inl _ => _ | inr _ => _ end ] =>
      assert (Hparse : forall err, v = inr err -> os_IsExist err = false);
      [ | destruct v as [veth | err0] eqn:Hveth ]
  end.
  { intros err. destruct (negb (mac =? "")%string); [ | discriminate ].
    unfold ParseMAC. destruct (net_ParseMAC mac); [ discriminate | ].
    intros [= <-]. reflexivity. }
  - pose proof (creations_LinkAdd veth s) as Hadd.
    destruct (netlink_LinkAdd veth s) as [[err |] s1]; cbn [snd] in Hadd.
    + intros [= _ <-] _. exact Hadd.
    + pose proof (creations_LinkByName name s1) as Hget.
      destruct (netlinksafe_LinkByName name s1) as [[veth2 | err] s2]; cbn [snd] in Hget.
      * intros [= _ <-] _. lia.
      * pose proof (creations_LinkDel (LinkAttrs_ veth) s2) as Hdel.
        destruct (netlink_LinkDel (LinkAttrs_ veth) s2) as [o s3]; cbn [snd] in Hdel.
        intros [= _ <-] _. lia.
  - intros [= <- <-] Hexist. rewrite (Hparse err0 eq_refl) in Hexist. discriminate.
Qed.

Lemma creations_collision (name : string) (mtu : Z) (mac : string) (hostNS : NetNS)
    (s s' : Sys W) :
  collision name mtu mac hostNS s = Some s' -> creations s' = S (creations s).
Proof.
  unfold collision.
  pose proof (creations_RandomVethName s) as Hname.
  destruct (ip.RandomVethName s) as [[peerName [err |]] s1]; [ discriminate | ].
  cbn [snd] in Hname.
  destruct (ip.makeVethPair name peerName mtu mac hostNS s1) as [[veth | err] s2] eqn:Hpair;
    [ discriminate | ].
  destruct (os_IsExist err) eqn:Hexist; [ | discriminate ].
  apply creations_makeVethPair in Hpair; [ | exact Hexist ].
  pose proof (creations_peerExists peerName s2) as Hpeer.
  destruct (ip.peerExists peerName s2) as [[|] s3]; [ | discriminate ].
  cbn [snd] in Hpeer. intros [= <-]. lia.
Qed.

Lemma creations_collisions (n : nat) (name : string) (mtu : Z) (mac : string)
    (hostNS : NetNS) (s s' : Sys W) :
  collisions n name mtu mac hostNS s = Some s' -> creations s' = (creations s + n)%nat.
Proof.
  revert s. induction n as [| n IH]; intros s; cbn [collisions].
  - intros [= <-]. lia.
  - destruct (collision name mtu mac hostNS s) as [s1 |] eqn:Hone; [ | discriminate ].
    intros Hrest. apply IH in Hrest. apply creations_collision in Hone. lia.
Qed.

(** A collision consumes one iteration of the loop and nothing else. *)
Lemma makeVeth_loop_collision (n : nat) (name : string) (mtu : Z) (mac : string)
    (hostNS : NetNS) (peerName : string) (s s' : Sys W) :
  collision name mtu mac hostNS s = Some s' ->
  exists peerName',
    ip.makeVeth_loop (S n) name "" mtu mac hostNS peerName s =
    ip.makeVeth_loop n name "" mtu mac hostNS peerName' s'.
Proof.
  unfold collision. cbn [ip.makeVeth_loop String.eqb negb].
  destruct (ip.RandomVethName s) as [[peer [err |]] s1]; [ discriminate | ].
  destruct (ip.makeVethPair name peer mtu mac hostNS s1) as [[veth | err] s2];
    [ discriminate | ].
  destruct (os_IsExist err); [ | discriminate ].
  destruct (ip.peerExists peer s2) as [[|] s3]; [ | discriminate ].
  intros [= <-]. exists peer. reflexivity.
Qed.

Lemma makeVeth_loop_collisions (k n : nat) (name : string) (mtu : Z) (mac : string)
    (hostNS : NetNS) (peerName : string) (s s' : Sys W) :
  collisions k name mtu mac hostNS s = Some s' ->
  exists peerName',
    ip.makeVeth_loop (k + n) name "" mtu mac hostNS peerName s =
    ip.makeVeth_loop n name "" mtu mac hostNS peerName' s'.
Proof.
  revert peerName s. induction k as [| k IH]; intros peerName s; cbn [collisions].
  - intros [= <-]. exists peerName. reflexivity.
  - destruct (collision name mtu mac hostNS s) as [s1 |] eqn:Hone; [ | discriminate ].
    intros Hrest.
    destruct (makeVeth_loop_collision (k + n) name mtu mac hostNS peerName s s1 Hone)
      as [peer1 Hstep].
    destruct (IH peer1 s1 Hrest) as [peer2 Hloop].
    exists peer2. cbn [Nat.add]. rewrite Hstep. exact Hloop.
Qed.

End MakeVeth.

Section MakeVethNames.
Context {W : Type} {P : Platform W}.
Variables (name : string) (mtu : Z) (mac : string) (hostNS : NetNS).

(** [N] collisions, then a creation that succeeds. *)
Lemma makeVeth_after_collisions (N : nat) (s s' s1 s2 : Sys W) (peer : string) (veth : Link) :
  (N < 10)%nat ->
  collisions N name mtu mac hostNS s = Some s' ->
  ip.RandomVethName s' = ((peer, None), s1) ->
  ip.makeVethPair name peer mtu mac hostNS s1 = (inl veth, s2) ->
  ip.makeVeth name "" mtu mac hostNS s = ((peer, Some veth, None), s2) /\
  creations s2 = (creations s + N + 1)%nat.
Proof.
  intros HN Hcoll Hname Hpair. split.
  - unfold ip.makeVeth.
    replace 10%nat with (N + S (9 - N))%nat by lia.
    destruct (makeVeth_loop_collisions N (S (9 - N)) name mtu mac hostNS "" s s' Hcoll)
      as [peer' ->].
    cbn [ip.makeVeth_loop String.eqb negb]. rewrite Hname, Hpair. reflexivity.
  - apply creations_collisions in Hcoll.
    pose proof (creations_RandomVethName s') as Hn. rewrite Hname in Hn. cbn [snd] in Hn.
    apply creations_makeVethPair in Hpair; [ | exact I ]. lia.
Qed.

(** Ten collisions. *)
Lemma makeVeth_exhausted (s s' : Sys W) :
  collisions 10 name mtu mac hostNS s = Some s' ->
  exists peer,
    ip.makeVeth name "" mtu mac hostNS s = ((peer, None, Some errNoUniqueName), s') /\
    creations s' = (creations s + 10)%nat.
Proof.
  intros Hcoll.
  destruct (makeVeth_loop_collisions 10 0 name mtu mac hostNS "" s s' Hcoll) as [peer Hloop].
  exists peer. split.
  - unfold ip.makeVeth. change 10%nat with (10 + 0)%nat. rewrite Hloop. reflexivity.
  - apply creations_collisions in Hcoll. exact Hcoll.
Qed.

(** A duplicate name when the peer name was provided. *)
Lemma makeVeth_hint_collision (hint : string) (s s1 : Sys W) (err : error) :
  hint <> "" ->
  ip.makeVethPair name hint mtu mac hostNS s = (inr err, s1) ->
  os_IsExist err = true ->
  ip.makeVeth name hint mtu mac hostNS s =
    ((hint, None, Some (errNameCollision name hint)), snd (ip.peerExists hint s1)) /\
  creations (snd (ip.peerExists hint s1)) = (creations s + 1)%nat.
Proof.
  intros Hhint Hpair Hexist. split.
  - unfold ip.makeVeth. cbn [ip.makeVeth_loop].
    apply String.eqb_neq in Hhint. rewrite Hhint. cbn [negb].
    rewrite Hpair, Hexist.
    destruct (ip.peerExists hint s1) as [b s2]. rewrite andb_false_r. reflexivity.
  - rewrite creations_peerExists.
    apply creations_makeVethPair in Hpair; [ | exact Hexist ]. lia.
Qed.

(** A duplicate name that is not the generated one. *)
Lemma makeVeth_foreign_collision (N : nat) (s s' s1 s2 s3 : Sys W) (peer : string)
    (err : error) :
  (N < 10)%nat ->
  collisions N name mtu mac hostNS s = Some s' ->
  ip.RandomVethName s' = ((peer, None), s1) ->
  ip.makeVethPair name peer mtu mac hostNS s1 = (inr err, s2) ->
  os_IsExist err = true ->
  ip.peerExists peer s2 = (false, s3) ->
  ip.makeVeth name "" mtu mac hostNS s =
    ((peer, None, Some (errNameCollision name peer)), s3) /\
  creations s3 = (creations s + N + 1)%nat.
Proof.
  intros HN Hcoll Hname Hpair Hexist Hpeer. split.
  - unfold ip.makeVeth.
    replace 10%nat with (N + S (9 - N))%nat by lia.
    destruct (makeVeth_loop_collisions N (S (9 - N)) name mtu mac hostNS "" s s' Hcoll)
      as [peer' ->].
    cbn [ip.makeVeth_loop String.eqb negb]. rewrite Hname, Hpair, Hexist, Hpeer.
    reflexivity.
  - apply creations_collisions in Hcoll.
    pose proof (creations_RandomVethName s') as Hn. rewrite Hname in Hn. cbn [snd] in Hn.
    apply creations_makeVethPair in Hpair; [ | exact Hexist ].
    pose proof (creations_peerExists peer s2) as Hp. rewrite Hpeer in Hp. cbn [snd] in Hp.
    lia.
Qed.

(** X23: the retries of [makeVeth], by its own test.  Call an attempt
    retried when [makeVethPair] fails with a duplicate-name error and the
    generated peer name resolves in the calling namespace.  Without a
    peer-name hint, [N < 10] retried attempts followed by a successful one
    make [makeVeth] succeed with that name after exactly [N + 1] creation
    attempts; ten retried attempts make it fail with the error "failed to
    find a unique veth name" after exactly ten attempts; and a duplicate
    on a provided peer name, or one where the generated name does not
    resolve in the calling namespace, fails at once with the collision
    error. *)
Theorem makeVeth_names (s : Sys W) :
  (forall N s' s1 s2 peer veth,
      (N < 10)%nat ->
      collisions N name mtu mac hostNS s = Some s' ->
      ip.RandomVethName s' = ((peer, None), s1) ->
      ip.makeVethPair name peer mtu mac hostNS s1 = (inl veth, s2) ->
      ip.makeVeth name "" mtu mac hostNS s = ((peer, Some veth, None), s2) /\
      creations s2 = (creations s + N + 1)%nat) /\
  (forall s',
      collisions 10 name mtu mac hostNS s = Some s' ->
      exists peer,
        ip.makeVeth name "" mtu mac hostNS s = ((peer, None, Some errNoUniqueName), s') /\
        creations s' = (creations s + 10)%nat) /\
  (forall hint s1 err,
      hint <> "" ->
      ip.makeVethPair name hint mtu mac hostNS s = (inr err, s1) ->
      os_IsExist err = true ->
      ip.makeVeth name hint mtu mac hostNS s =
        ((hint, None, Some (errNameCollision name hint)), snd (ip.peerExists hint s1)) /\
      creations (snd (ip.peerExists hint s1)) = (creations s + 1)%nat) /\
  (forall N s' s1 s2 s3 peer err,
      (N < 10)%nat ->
      collisions N name mtu mac hostNS s = Some s' ->
      ip.RandomVethName s' = ((peer, None), s1) ->
      ip.makeVethPair name peer mtu mac hostNS s1 = (inr err, s2) ->
      os_IsExist err = true ->
      ip.peerExists peer s2 = (false, s3) ->
      ip.makeVeth name "" mtu mac hostNS s =
        ((peer, None, Some (errNameCollision name peer)), s3) /\
      creations s3 = (creations s + N + 1)%nat) /\
  (forall peer, errNoUniqueName <> errNameCollision name peer).
Proof.
  split; [ | split; [ | split; [ | split ] ] ].
  - intros. eapply makeVeth_after_collisions; eassumption.
  - intros. apply makeVeth_exhausted. assumption.
  - intros. eapply makeVeth_hint_collision; eassumption.
  - intros. eapply makeVeth_foreign_collision; eassumption.
  - intros peer. discriminate.
Qed.

End MakeVethNames.

Lemma makeVeth_names_witness :
  let P := Machine.configured Machine.noBandwidth in
  let free := Machine.crowded [Machine.name1; Machine.name2; Machine.name3] in
  let taken := Machine.crowded (repeat Machine.name1 10) in
  let fresh := Machine.crowded [Machine.name3] in
  (fst (fst (fst (ip.makeVeth "eth0" "" 1500 "" Machine.hostNS free))) = "veth00000003" /\
   creations (snd (ip.makeVeth "eth0" "" 1500 "" Machine.hostNS free)) = 3%nat) /\
  (snd (fst (ip.makeVeth "eth0" "" 1500 "" Machine.hostNS taken)) = Some errNoUniqueName /\
   creations (snd (ip.makeVeth "eth0" "" 1500 "" Machine.hostNS taken)) = 10%nat) /\
  (snd (fst (ip.makeVeth "eth0" "veth00000001" 1500 "" Machine.hostNS free)) =
     Some (errNameCollision "eth0" "veth00000001") /\
   creations (snd (ip.makeVeth "eth0" "veth00000001" 1500 "" Machine.hostNS free)) = 1%nat) /\
  (snd (fst (ip.makeVeth "veth00000002" "" 1500 "" Machine.hostNS fresh)) =
     Some (errNameCollision "veth00000002" "veth00000003") /\
   creations (snd (ip.makeVeth "veth00000002" "" 1500 "" Machine.hostNS fresh)) = 1%nat).
Proof.
  cbv zeta.
  set (P := Machine.configured Machine.noBandwidth).
  set (free := Machine.crowded [Machine.name1; Machine.name2; Machine.name3]).
  set (taken := Machine.crowded (repeat Machine.name1 10)).
  set (fresh := Machine.crowded [Machine.name3]).
  pose (after n s := default s (@collisions _ P n "eth0" 1500 "" Machine.hostNS s)).
  split; [ | split; [ | split ] ].
  - pose (s' := after 2%nat free).
    pose (s1 := snd (@ip.RandomVethName _ P s')).
    pose (r := @ip.makeVethPair _ P "eth0" "veth00000003" 1500 "" Machine.hostNS s1).
    destruct (proj1 (@makeVeth_names _ P "eth0" 1500 "" Machine.hostNS free)
                2%nat s' s1 (snd r) "veth00000003"
                {| Type_ := Veth;
                   Attrs := {| Index := 3; MTU := 1500; Netlink.Name := "eth0";
                               HardwareAddr := ""; ParentIndex := 4 |} |})
      as [Hrun Hcount].
    + lia.
    + vm_compute. reflexivity.
    + vm_compute. reflexivity.
    + vm_compute. reflexivity.
    + rewrite Hrun. split; [ reflexivity | exact Hcount ].
  - destruct (proj1 (proj2 (@makeVeth_names _ P "eth0" 1500 "" Machine.hostNS taken))
                (after 10%nat taken)) as (peer & Hrun & Hcount).
    + vm_compute. reflexivity.
    + rewrite Hrun. split; [ reflexivity | exact Hcount ].
  - pose (r := @ip.makeVethPair _ P "eth0" "veth00000001" 1500 "" Machine.hostNS free).
    destruct (proj1 (proj2 (proj2 (@makeVeth_names _ P "eth0" 1500 "" Machine.hostNS free)))
                "veth00000001" (snd r) (Errno EEXIST)) as [Hrun Hcount].
    + discriminate.
    + vm_compute. reflexivity.
    + reflexivity.
    + rewrite Hrun. split; [ reflexivity | exact Hcount ].
  - pose (s1 := snd (@ip.RandomVethName _ P fresh)).
    pose (r := @ip.makeVethPair _ P "veth00000002" "veth00000003" 1500 "" Machine.hostNS s1).
    destruct (proj1 (proj2 (proj2 (proj2
                (@makeVeth_names _ P "veth00000002" 1500 "" Machine.hostNS fresh))))
                0%nat fresh s1 (snd r) (snd (@ip.peerExists _ P "veth00000003" (snd r)))
                "veth00000003" (Errno EEXIST)) as [Hrun Hcount].
    + lia.
    + reflexivity.
    + vm_compute. reflexivity.
    + vm_compute. reflexivity.
    + reflexivity.
    + vm_compute. reflexivity.
    + rewrite Hrun. split; [ reflexivity | exact Hcount ].
Defined.

(** C5, at a collision in the host's namespace: [makeVeth] is called in a
    new container's namespace without a peer-name hint; the first
    generated name, [veth00000001], is taken in the host's namespace,
    where the peer is created, and the second, [veth00000002], is free.
    The one creation attempt fails with a duplicate-name error;
    [peerExists] looks the name up in the calling namespace and does not
    find it; and [makeVeth] returns the collision error after that single
    attempt, without trying the second name, with which a second call
    succeeds. *)
Theorem makeVeth_gives_up_on_host_collision :
  let P := MachineNS.platform in
  let s := MachineNS.peerTaken in
  let run := ip.makeVeth "eth0" "" 1500 "" Machine.hostNS s in
  let named := ip.RandomVethName s in
  let attempt := ip.makeVethPair "eth0" "veth00000001" 1500 "" Machine.hostNS (snd named) in
  fst named = ("veth00000001", None) /\
  fst attempt = inr (Errno EEXIST) /\
  os_IsExist (Errno EEXIST) = true /\
  fst (ip.peerExists "veth00000001" (snd attempt)) = false /\
  collisions 1 "eth0" 1500 "" Machine.hostNS s = None /\
  fst run = ("veth00000001", None, Some (errNameCollision "eth0" "veth00000001")) /\
  creations (snd run) = 1%nat /\
  errNameCollision "eth0" "veth00000001" <> errNoUniqueName /\
  (exists veth,
     fst (ip.makeVeth "eth0" "" 1500 "" Machine.hostNS (snd run)) =
       ("veth00000002", Some veth, None)) /\
  creations (snd (ip.makeVeth "eth0" "" 1500 "" Machine.hostNS (snd run))) = 2%nat.
Proof.
  cbv zeta. repeat split; try (vm_compute; reflexivity); try discriminate.
  eexists. vm_compute. reflexivity.
Qed.

(** ** Add without a bandwidth entry *)

Section CmdAdd.
Context {W : Type} {P : Platform W}.

(** An entry with four zero fields passes validation, so whether such a
    configuration parses depends on the decoder and the previous result
    only. *)
Lemma isZero_fields (b : BandwidthEntry) :
  isZero b = true <->
  IngressRate b = 0 /\ IngressBurst b = 0 /\ EgressRate b = 0 /\ EgressBurst b = 0.
Proof.
  unfold isZero. rewrite !andb_true_iff, !Z.eqb_eq. tauto.
Qed.

(** C6: when the configuration parses, carries a previous result, and its
    effective bandwidth entry is absent or has four zero fields, [cmdAdd]
    does nothing but hand that previous result, as it is, to
    [types.PrintResult]: no platform operation other than that one is
    performed, and the result of Add is the result of the printing. *)
Theorem cmdAdd_unconfigured (args : skel.CmdArgs) (conf : PluginConf)
    (prev : current.Result) (s : Sys W) :
  bandwidth.parseConfig (skel.StdinData args) = inl conf ->
  types.PrevResult (NetConf conf) = Some prev ->
  (getBandwidth conf = None \/
   exists b, getBandwidth conf = Some b /\
             IngressRate b = 0 /\ IngressBurst b = 0 /\ EgressRate b = 0 /\ EgressBurst b = 0) ->
  bandwidth.cmdAdd args s =
    lift_err (call (CPrintResult (Some prev) (types.CNIVersion (NetConf conf)))
                (sys_PrintResult (Some prev) (types.CNIVersion (NetConf conf)))) s /\
  calls (snd (bandwidth.cmdAdd args s)) =
    (calls s ++ [CPrintResult (Some prev) (types.CNIVersion (NetConf conf))])%list /\
  world (snd (bandwidth.cmdAdd args s)) =
    snd (sys_PrintResult (Some prev) (types.CNIVersion (NetConf conf)) (world s)) /\
  fst (bandwidth.cmdAdd args s) =
    match fst (sys_PrintResult (Some prev) (types.CNIVersion (NetConf conf)) (world s)) with
    | None => Ret tt
    | Some err => Fail err
    end.
Proof.
  intros Hparse Hprev Hzero.
  assert (Hrun : bandwidth.cmdAdd args s =
                 lift_err (call (CPrintResult (Some prev) (types.CNIVersion (NetConf conf)))
                             (sys_PrintResult (Some prev) (types.CNIVersion (NetConf conf)))) s).
  { unfold bandwidth.cmdAdd, bind, lift at 1. rewrite Hparse, Hprev.
    destruct Hzero as [-> | (b & -> & Hfields)]; [ reflexivity | ].
    apply isZero_fields in Hfields. rewrite Hfields. reflexivity. }
  split; [ exact Hrun | ].
  rewrite Hrun. unfold lift_err, call.
  destruct (sys_PrintResult _ _ (world s)) as [[err |] w1]; repeat split; reflexivity.
Qed.

End CmdAdd.

Lemma cmdAdd_unconfigured_witness :
  let P := Machine.configured Machine.zeroBandwidth in
  bandwidth.cmdAdd Machine.args (Machine.attached []) =
    (Ret tt, mkSys (world (Machine.attached []))
               [CPrintResult (Some Machine.prevResult) "1.0.0"]).
Proof.
  cbv zeta.
  destruct (@cmdAdd_unconfigured _ (Machine.configured Machine.zeroBandwidth)
              Machine.args (Machine.parsed Machine.zeroBandwidth) Machine.prevResult
              (Machine.attached []))
    as (Hrun & _ & _).
  - reflexivity.
  - reflexivity.
  - right. eexists. split; [ reflexivity | ]. repeat split; reflexivity.
  - rewrite Hrun. reflexivity.
Defined.

(** ** Del *)

Section CmdDel.
Context {W : Type} {P : Platform W}.

(** C7: [cmdDel] recomputes the name of the auxiliary device from the
    network name and the container ID and tears the device down; when the
    lookup reports it absent the result is success, and when it is found
    and its deletion succeeds the result is success as well. *)
Theorem cmdDel_absent_device (args : skel.CmdArgs) (conf : PluginConf) (s : Sys W) :
  bandwidth.parseConfig (skel.StdinData args) = inl conf ->
  let ifbDeviceName :=
    bandwidth.getIfbDeviceName (types.Name (NetConf conf)) (skel.ContainerID args) in
  bandwidth.cmdDel args s = lift_err (bandwidth.TeardownIfb ifbDeviceName) s /\
  (forall msg s1,
      netlinksafe_LinkByName ifbDeviceName s = (inr (LinkNotFoundError msg), s1) ->
      bandwidth.cmdDel args s = (Ret tt, s1)) /\
  (forall iface s1 s2,
      netlinksafe_LinkByName ifbDeviceName s = (inl iface, s1) ->
      netlink_LinkDel (Attrs iface) s1 = (None, s2) ->
      bandwidth.cmdDel args s = (Ret tt, s2)).
Proof.
  intros Hparse ifbDeviceName.
  assert (Hrun : bandwidth.cmdDel args s = lift_err (bandwidth.TeardownIfb ifbDeviceName) s).
  { unfold bandwidth.cmdDel, bind, lift at 1. rewrite Hparse. reflexivity. }
  split; [ exact Hrun | ].
  rewrite Hrun. unfold lift_err, bandwidth.TeardownIfb, ip.DelLinkByName. split.
  - intros msg s1 ->. reflexivity.
  - intros iface s1 s2 -> ->. reflexivity.
Qed.

End CmdDel.

Lemma cmdDel_absent_device_witness :
  let P := Machine.configured Machine.ingressOnly in
  bandwidth.getIfbDeviceName "net1" "cid1" = Machine.ifbName /\
  fst (bandwidth.cmdDel Machine.args (Machine.attached [])) = Ret tt /\
  calls (snd (bandwidth.cmdDel Machine.args (Machine.attached []))) =
    [CLinkByName Machine.ifbName].
Proof.
  cbv zeta.
  destruct (@cmdDel_absent_device _ (Machine.configured Machine.ingressOnly)
              Machine.args (Machine.parsed Machine.ingressOnly) (Machine.attached [])
              eq_refl) as (_ & Habsent & _).
  split; [ reflexivity | ].
  rewrite (Habsent "Link not found" _ eq_refl). split; reflexivity.
Defined.

(** Del twice on the small machine: the first run deletes the auxiliary
    device, the second finds it absent, and both succeed. *)
Example cmdDel_twice :
  let P := Machine.configured Machine.ingressOnly in
  let first := bandwidth.cmdDel Machine.args Machine.shaped in
  let second := bandwidth.cmdDel Machine.args (snd first) in
  fst first = Ret tt /\ fst second = Ret tt /\
  calls (snd second) =
    [CLinkByName Machine.ifbName; CLinkDel Machine.ifbName; CLinkByName Machine.ifbName] /\
  Machine.links (world (snd second)) = [Machine.eth0; Machine.veth123].
Proof. vm_compute. repeat split; reflexivity. Qed.

(** ** Check *)

(** The loop over the listed disciplines reports nothing but mismatches. *)
Lemma matchQdiscs_mismatch (rate limit buffer : Z) (qdiscs : list Qdisc) (err : error) :
  bandwidth.matchQdiscs rate limit buffer qdiscs = Some err -> mismatch err.
Proof.
  unfold mismatch.
  induction qdiscs as [| [tbf | | |] rest IH]; cbn [bandwidth.matchQdiscs]; try discriminate.
  destruct (Rate tbf =? rate); cbn [negb]; [ | intros [= <-]; auto ].
  destruct (Limit tbf =? limit); cbn [negb]; [ | intros [= <-]; auto ].
  destruct (Buffer tbf =? buffer); cbn [negb]; [ exact IH | intros [= <-]; auto ].
Qed.

(** On token-bucket disciplines only, the loop passes exactly when each
    of them has the expected rate, limit and buffer. *)
Lemma matchQdiscs_all_Tbf (rate limit buffer : Z) (qdiscs : list Qdisc) :
  forallb is_Tbf qdiscs = true ->
  bandwidth.matchQdiscs rate limit buffer qdiscs = None <->
  Forall (is_expected_Tbf rate limit buffer) qdiscs.
Proof.
  induction qdiscs as [| q rest IH]; cbn [forallb bandwidth.matchQdiscs].
  - intros _. split; [ constructor | reflexivity ].
  - destruct q as [tbf | | |]; cbn [is_Tbf andb]; try discriminate.
    intros Hrest. specialize (IH Hrest). rewrite List.Forall_cons_iff. cbn [is_expected_Tbf].
    destruct (Z.eqb_spec (Rate tbf) rate) as [Hr | Hr]; cbn [negb];
      [ | split; [ discriminate | tauto ] ].
    destruct (Z.eqb_spec (Limit tbf) limit) as [Hl | Hl]; cbn [negb];
      [ | split; [ discriminate | tauto ] ].
    destruct (Z.eqb_spec (Buffer tbf) buffer) as [Hb | Hb]; cbn [negb];
      [ | split; [ discriminate | tauto ] ].
    tauto.
Qed.

(** The loop passes exactly when each token-bucket discipline at the head
    of the list has the expected rate, limit and buffer. *)
Lemma matchQdiscs_passes (rate limit buffer : Z) (qdiscs : list Qdisc) :
  bandwidth.matchQdiscs rate limit buffer qdiscs = None <->
  Forall (is_expected_Tbf rate limit buffer) (leading_Tbf qdiscs).
Proof.
  induction qdiscs as [| q rest IH]; cbn [bandwidth.matchQdiscs leading_Tbf].
  - split; [ constructor | reflexivity ].
  - destruct q as [tbf | | |]; try (split; [ constructor | reflexivity ]).
    rewrite List.Forall_cons_iff. cbn [is_expected_Tbf].
    destruct (Z.eqb_spec (Rate tbf) rate) as [Hr | Hr]; cbn [negb];
      [ | split; [ discriminate | tauto ] ].
    destruct (Z.eqb_spec (Limit tbf) limit) as [Hl | Hl]; cbn [negb];
      [ | split; [ discriminate | tauto ] ].
    destruct (Z.eqb_spec (Buffer tbf) buffer) as [Hb | Hb]; cbn [negb];
      [ | split; [ discriminate | tauto ] ].
    tauto.
Qed.

Section CmdCheck.
Context {W : Type} {P : Platform W}.

(** The verification of one direction, as [cmdCheck] runs it. *)
Lemma checkQdiscs_direction (e : TbfParams) (link : Link) (s : Sys W) :
  direction_checked e link s
    (fst (bandwidth.checkQdiscs (Rate e) (Limit e) (Buffer e) link s))
    (snd (bandwidth.checkQdiscs (Rate e) (Limit e) (Buffer e) link s)).
Proof.
  unfold bandwidth.checkQdiscs, bind, lift, bandwidth.SafeQdiscList.
  destruct (netlinksafe_QdiscList link s) as [[qdiscs | err] s1] eqn:Hlist;
    [ | apply listing_failed; exact Hlist ].
  fold (shaping qdiscs).
  destruct (shaping qdiscs) as [| q rest] eqn:Hshaping.
  - cbn. eapply nothing_listed; eassumption.
  - cbn [length Nat.eqb].
    pose proof (matchQdiscs_passes (Rate e) (Limit e) (Buffer e) (q :: rest)) as Hpass.
    pose proof (matchQdiscs_mismatch (Rate e) (Limit e) (Buffer e) (q :: rest)) as Hmis.
    destruct (bandwidth.matchQdiscs (Rate e) (Limit e) (Buffer e) (q :: rest)) as [err |];
      cbn [fst snd].
    + eapply mismatched; [ exact Hlist | | | apply Hmis; reflexivity ].
      * rewrite Hshaping. discriminate.
      * rewrite Hshaping. intros Hall. apply Hpass in Hall. discriminate.
    + eapply passed; [ exact Hlist | ]. unfold verified. rewrite Hshaping.
      split; [ discriminate | apply Hpass; reflexivity ].
Qed.

End CmdCheck.

Section CheckVerifies.
Context {W : Type} {P : Platform W}.
Variables (args : skel.CmdArgs) (conf : PluginConf) (prev result : current.Result).
Variables (netns : NetNS) (hostInterface : current.Interface) (link : Link).
Variables (s s1 s2 s3 : Sys W).
Hypothesis Hparse : bandwidth.parseConfig (skel.StdinData args) = inl conf.
Hypothesis Hprev : types.PrevResult (NetConf conf) = Some prev.
Hypothesis Hresult : current_NewResultFromResult (Some prev) = inl result.
Hypothesis Hns : ns_GetNS (skel.Netns args) s = (inl netns, s1).
Hypothesis Hhost :
  bandwidth.getHostInterface (current.Interfaces result) (skel.IfName args) netns s1 =
    (Ret hostInterface, s2).
Hypothesis Hlink : netlinksafe_LinkByName (current.Name hostInterface) s2 = (inl link, s3).

(** C1, as the code has it: in a Check invocation that has resolved the
    host link, each configured direction is verified in turn, ingress on
    the host link and egress on the auxiliary device, against the rate,
    limit and buffer recomputed from the bandwidth entry.  The disciplines
    of the link are listed and [pfifo_fast] is dropped; when nothing
    remains the verification fails with "Failed to find qdisc"; when a
    token-bucket discipline listed before the first discipline of another
    kind differs in rate, limit or buffer it fails with a mismatch error;
    an error of the listing is returned; and otherwise the direction
    passes.  Check fails with the first failure and succeeds when every
    configured direction passes. *)
Theorem cmdCheck_verifies (b : BandwidthEntry) :
  getBandwidth conf = Some b ->
  directions_checked args conf b netns link s3
    (fst (bandwidth.cmdCheck args s)) (snd (bandwidth.cmdCheck args s)).
Proof.
  intros Hb.
  unfold bandwidth.cmdCheck, bind, wrap, defer, lift.
  rewrite Hparse, Hprev, Hresult, Hns, Hhost, Hlink, Hb. cbn [deref ret]. cbv zeta.
  unfold directions_checked, configured_direction.
  set (ifbName := bandwidth.getIfbDeviceName (types.Name (NetConf conf))
                    (skel.ContainerID args)).
  assert (Hegress : forall s_in : Sys W,
    let run :=
      let (r, s') :=
        match
          (if (0 <? EgressRate b) && (0 <? EgressBurst b)
           then
             fun s0 : Sys W =>
               match
                 match
                   match netlinksafe_LinkByName ifbName s0 with
                   | (inl a, s4) => (Ret a, s4)
                   | (inr e, s4) => (Fail e, s4)
                   end
                 with
                 | (Fail e, s4) => (Fail (Errorf "get ifb device: %s" [AErr (Some e)]), s4)
                 | r => r
                 end
               with
               | (Ret ifbDevice, s4) =>
                   bandwidth.checkQdiscs (EgressRate b / 8)
                     (limit (EgressRate b / 8) (latencyInUsec latencyInMillis)
                        (to_uint32 (EgressBurst b / 8)))
                     (buffer (EgressRate b / 8) (to_uint32 (EgressBurst b / 8)))
                     ifbDevice s4
               | (Fail e, s4) => (Fail e, s4)
               | (Panic msg, s4) => (Panic msg, s4)
               end
           else ret tt) s_in
        with
        | (Ret _, s4) => (Ret tt, s4)
        | (Fail e, s4) => (Fail e, s4)
        | (Panic msg, s4) => (Panic msg, s4)
        end in
      (r, ns_Close netns s') in
    if (0 <? EgressRate b) && (0 <? EgressBurst b) then
      match netlinksafe_LinkByName ifbName s_in with
      | (inr err, s5) =>
          fst run = Fail (Errorf "get ifb device: %s" [AErr (Some err)]) /\
          snd run = ns_Close netns s5
      | (inl ifbDevice, s5) =>
          exists s_eg,
            direction_checked (expectedTbf (EgressRate b) (EgressBurst b))
              ifbDevice s5 (fst run) s_eg /\
            snd run = ns_Close netns s_eg
      end
    else fst run = Ret tt /\ snd run = ns_Close netns s_in).
  { intros s_in. cbv zeta.
    destruct ((0 <? EgressRate b) && (0 <? EgressBurst b)); [ | split; reflexivity ].
    destruct (netlinksafe_LinkByName ifbName s_in) as [[ifbDevice | err] s5];
      [ | split; reflexivity ].
    pose proof (checkQdiscs_direction (expectedTbf (EgressRate b) (EgressBurst b))
                  ifbDevice s5) as Heg.
    cbn [expectedTbf Rate Limit Buffer] in Heg.
    destruct (bandwidth.checkQdiscs _ _ _ ifbDevice s5) as [[[] | err | msg] s6];
      exists s6; split; solve [ exact Heg | reflexivity ]. }
  cbv zeta in Hegress.
  destruct ((0 <? IngressRate b) && (0 <? IngressBurst b)).
  - pose proof (checkQdiscs_direction (expectedTbf (IngressRate b) (IngressBurst b))
                  link s3) as Hin.
    cbn [expectedTbf Rate Limit Buffer] in Hin.
    destruct (bandwidth.checkQdiscs _ _ _ link s3) as [[[] | err | msg] s4];
      cbn [fst snd] in Hin.
    + exists (Ret tt), s4. split; [ exact Hin | ]. apply Hegress.
    + exists (Fail err), s4. split; [ exact Hin | split; reflexivity ].
    + exists (Panic msg), s4. split; [ exact Hin | split; reflexivity ].
  - exists (Ret tt), s3. split; [ split; reflexivity | ]. apply (Hegress s3).
Qed.

End CheckVerifies.

Lemma cmdCheck_verifies_witness :
  let P := Machine.configured MachineSetup.bothDirections in
  let s := MachineCheck.shaped [PfifoFast; MachineCheck.ingressTbf] [MachineCheck.egressTbf] in
  fst (bandwidth.cmdCheck Machine.args s) = Ret tt /\
  exists s3,
    directions_checked Machine.args (Machine.parsed MachineSetup.bothDirections)
      {| IngressRate := 1000000; IngressBurst := 1000000;
         EgressRate := 2000000; EgressBurst := 2000000 |}
      {| Fd := 3; Path := "/var/run/netns/cid1" |} Machine.veth123 s3
      (fst (bandwidth.cmdCheck Machine.args s)) (snd (bandwidth.cmdCheck Machine.args s)).
Proof.
  cbv zeta.
  set (P := Machine.configured MachineSetup.bothDirections).
  set (s := MachineCheck.shaped [PfifoFast; MachineCheck.ingressTbf] [MachineCheck.egressTbf]).
  split; [ vm_compute; reflexivity | ].
  pose (netns := {| Fd := 3; Path := "/var/run/netns/cid1" |}).
  pose (s1 := snd (@ns_GetNS _ P "/var/run/netns/cid1" s)).
  pose (s2 := snd (@bandwidth.getHostInterface _ P (current.Interfaces Machine.prevResult)
                     "eth0" netns s1)).
  pose (s3 := snd (@netlinksafe_LinkByName _ P "veth123" s2)).
  exists s3.
  apply (@cmdCheck_verifies _ P Machine.args (Machine.parsed MachineSetup.bothDirections)
           Machine.prevResult Machine.prevResult netns
           {| current.Name := "veth123"; current.Mac := "0a:58:0a:00:00:01";
              current.Sandbox := "" |}
           Machine.veth123 s s1 s2 s3);
    vm_compute; reflexivity.
Defined.

(** C1, as stated, fails: with ingress configured and nothing but an
    ingress discipline (and the kernel default) on the host link, Check
    succeeds although no token-bucket discipline is listed. *)
Lemma cmdCheck_passes_without_Tbf :
  let P := Machine.configured Machine.ingressOnly in
  let s := Machine.attached [PfifoFast; Ingress] in
  (exists b, getBandwidth Machine.ingressOnly = Some b /\
             IngressRate b <> 0 /\ IngressBurst b <> 0) /\
  fst (bandwidth.SafeQdiscList Machine.veth123 s) = inl [Ingress] /\
  ~ (exists q, In q [Ingress] /\ is_Tbf q = true) /\
  fst (bandwidth.cmdCheck Machine.args s) = Ret tt.
Proof.
  cbv zeta. split; [ | split; [ | split ] ].
  - eexists. split; [ reflexivity | ]. split; discriminate.
  - reflexivity.
  - intros (q & [<- | []] & Htbf). discriminate.
  - vm_compute. reflexivity.
Qed.

(** A token-bucket discipline behind one of another kind is not looked
    at. *)
Example cmdCheck_stops_at_other_kind :
  let P := Machine.configured Machine.ingressOnly in
  fst (bandwidth.cmdCheck Machine.args
         (Machine.attached [Ingress; Tbf {| Rate := 1; Limit := 1; Buffer := 1 |}])) = Ret tt /\
  fst (bandwidth.cmdCheck Machine.args
         (Machine.attached [Tbf {| Rate := 1; Limit := 1; Buffer := 1 |}])) =
    Fail (Errorf "Rate doesn't match" []).
Proof. vm_compute. split; reflexivity. Qed.

(** A token-bucket discipline that differs is reported also when a
    discipline of another kind follows it. *)
Example cmdCheck_mismatch_before_other_kind :
  let P := Machine.configured Machine.ingressOnly in
  fst (bandwidth.cmdCheck Machine.args
         (Machine.attached [PfifoFast; Tbf {| Rate := 1; Limit := 1; Buffer := 1 |}; Ingress])) =
    Fail (Errorf "Rate doesn't match" []) /\
  fst (bandwidth.cmdCheck Machine.args
         (Machine.attached
            [Tbf {| Rate := 125000; Limit := 1; Buffer := 1000000 |}; Ingress])) =
    Fail (Errorf "Limit doesn't match" []).
Proof. vm_compute. split; reflexivity. Qed.

(** *** Check, once the host interface is resolved

    The runs of [cmdCheck] in which the configuration parses, the previous
    result converts, the namespace opens, and the host interface and its
    link are found. *)

Section CheckResolved.
Context {W : Type} {P : Platform W}.
Variables (args : skel.CmdArgs) (conf : PluginConf) (prev result : current.Result).
Variables (netns : NetNS) (hostInterface : current.Interface) (link : Link).
Variables (s s1 s2 s3 : Sys W).
Hypothesis Hparse : bandwidth.parseConfig (skel.StdinData args) = inl conf.
Hypothesis Hprev : types.PrevResult (NetConf conf) = Some prev.
Hypothesis Hresult : current_NewResultFromResult (Some prev) = inl result.
Hypothesis Hns : ns_GetNS (skel.Netns args) s = (inl netns, s1).
Hypothesis Hhost :
  bandwidth.getHostInterface (current.Interfaces result) (skel.IfName args) netns s1 =
    (Ret hostInterface, s2).
Hypothesis Hlink : netlinksafe_LinkByName (current.Name hostInterface) s2 = (inl link, s3).

(** A configuration without a bandwidth entry makes [cmdCheck] panic. *)
Lemma cmdCheck_panics_without_entry :
  getBandwidth conf = None ->
  bandwidth.cmdCheck args s = (Panic nil_dereference, ns_Close netns s3).
Proof.
  intros Hnone.
  unfold bandwidth.cmdCheck, bind, wrap, defer, lift.
  rewrite Hparse, Hprev, Hresult, Hns, Hhost, Hlink, Hnone. reflexivity.
Qed.

(** A failure of the ingress verification is the result of Check. *)
Lemma cmdCheck_ingress_failure (b : BandwidthEntry) (err : error) (s4 : Sys W) :
  getBandwidth conf = Some b ->
  (0 <? IngressRate b) && (0 <? IngressBurst b) = true ->
  bandwidth.checkQdiscs (IngressRate b / 8)
    (limit (IngressRate b / 8) (latencyInUsec latencyInMillis) (to_uint32 (IngressBurst b / 8)))
    (buffer (IngressRate b / 8) (to_uint32 (IngressBurst b / 8))) link s3 = (Fail err, s4) ->
  bandwidth.cmdCheck args s = (Fail err, ns_Close netns s4).
Proof.
  intros Hsome Hin Hcheck.
  unfold bandwidth.cmdCheck, bind, wrap, defer, lift.
  rewrite Hparse, Hprev, Hresult, Hns, Hhost, Hlink, Hsome. cbn [deref ret].
  rewrite Hin. cbv zeta. rewrite Hcheck. reflexivity.
Qed.

(** With ingress alone configured, Check is the ingress verification on
    the host link. *)
Lemma cmdCheck_ingress_only (b : BandwidthEntry) (r : outcome unit) (s4 : Sys W) :
  getBandwidth conf = Some b ->
  (0 <? IngressRate b) && (0 <? IngressBurst b) = true ->
  (0 <? EgressRate b) && (0 <? EgressBurst b) = false ->
  bandwidth.checkQdiscs (IngressRate b / 8)
    (limit (IngressRate b / 8) (latencyInUsec latencyInMillis) (to_uint32 (IngressBurst b / 8)))
    (buffer (IngressRate b / 8) (to_uint32 (IngressBurst b / 8))) link s3 = (r, s4) ->
  bandwidth.cmdCheck args s = (r, ns_Close netns s4).
Proof.
  intros Hsome Hin Heg Hcheck.
  unfold bandwidth.cmdCheck, bind, wrap, defer, lift.
  rewrite Hparse, Hprev, Hresult, Hns, Hhost, Hlink, Hsome. cbn [deref ret].
  rewrite Hin, Heg. cbv zeta. rewrite Hcheck.
  destruct r as [[] | err | msg]; reflexivity.
Qed.

(** With egress alone configured, Check is the egress verification on
    the auxiliary device. *)
Lemma cmdCheck_egress_only (b : BandwidthEntry) (ifbDevice : Link) (r : outcome unit)
    (s4 s5 : Sys W) :
  getBandwidth conf = Some b ->
  (0 <? IngressRate b) && (0 <? IngressBurst b) = false ->
  (0 <? EgressRate b) && (0 <? EgressBurst b) = true ->
  netlinksafe_LinkByName
    (bandwidth.getIfbDeviceName (types.Name (NetConf conf)) (skel.ContainerID args)) s3 =
    (inl ifbDevice, s4) ->
  bandwidth.checkQdiscs (EgressRate b / 8)
    (limit (EgressRate b / 8) (latencyInUsec latencyInMillis) (to_uint32 (EgressBurst b / 8)))
    (buffer (EgressRate b / 8) (to_uint32 (EgressBurst b / 8))) ifbDevice s4 = (r, s5) ->
  bandwidth.cmdCheck args s = (r, ns_Close netns s5).
Proof.
  intros Hsome Hin Heg Hifb Hcheck.
  unfold bandwidth.cmdCheck, bind, wrap, defer, lift.
  rewrite Hparse, Hprev, Hresult, Hns, Hhost, Hlink, Hsome. cbn [deref ret].
  rewrite Hin, Heg. cbv beta iota zeta delta [ret]. rewrite Hifb, Hcheck.
  destruct r as [[] | err | msg]; reflexivity.
Qed.

End CheckResolved.

(** C3: a configuration with no bandwidth entry at either place, called
    as a chained plugin for an attached container: [cmdCheck] reads
    [bandwidth.IngressRate] through the nil pointer that [getBandwidth]
    returned and panics, where [cmdAdd] tests for nil and returns. *)
Theorem cmdCheck_nil_bandwidth :
  let P := Machine.configured Machine.noBandwidth in
  let s := Machine.attached [PfifoFast] in
  bandwidth.parseConfig (skel.StdinData Machine.args) =
    inl (Machine.parsed Machine.noBandwidth) /\
  getBandwidth (Machine.parsed Machine.noBandwidth) = None /\
  fst (bandwidth.cmdCheck Machine.args s) = Panic nil_dereference /\
  fst (bandwidth.cmdAdd Machine.args s) = Ret tt /\
  fst (bandwidth.cmdDel Machine.args s) = Ret tt.
Proof. cbv zeta. repeat split; vm_compute; reflexivity. Qed.

(** * Further properties *)

(** ** What validation guarantees *)

(** X2: a burst that passes validation converts to [uint32] without loss, so
    the value Add and Check work with is the burst in bytes itself. *)
Theorem validated_burst_fits (rate burst : Z) :
  validateRateAndBurst rate burst = None ->
  0 <= burst ->
  to_uint32 (burst / 8) = burst / 8.
Proof.
  intros Hvalid Hpos. apply validateRateAndBurst_accepts in Hvalid.
  unfold to_uint32. apply Z.mod_small. change (2 ^ 32) with 4294967296.
  assert (0 <= burst / 8) by (apply Z.div_pos; lia).
  unfold MaxUint32 in Hvalid.
  destruct Hvalid as [[_ ->] | (_ & _ & Hlt)]; [ | lia ].
  change (0 / 8) with 0. lia.
Qed.

Lemma validated_burst_fits_witness :
  validateRateAndBurst 1000000 2000000 = None /\
  to_uint32 (2000000 / 8) = 2000000 / 8.
Proof.
  split; [ reflexivity | ].
  apply (validated_burst_fits 1000000 2000000); [ reflexivity | lia ].
Defined.

(** X3: an entry of unsigned values that passes validation and is not all
    zero has a direction that Add and Check treat as configured; and an
    entry with a configured direction is not all zero. *)
Theorem validated_entry_configures (b : BandwidthEntry) :
  0 <= IngressRate b -> 0 <= IngressBurst b -> 0 <= EgressRate b -> 0 <= EgressBurst b ->
  validateRateAndBurst (IngressRate b) (IngressBurst b) = None ->
  validateRateAndBurst (EgressRate b) (EgressBurst b) = None ->
  (isZero b = false <->
   configured_direction (IngressRate b) (IngressBurst b) = true \/
   configured_direction (EgressRate b) (EgressBurst b) = true).
Proof.
  intros Hir Hib Her Heb Hin Heg.
  apply validateRateAndBurst_accepts in Hin, Heg.
  unfold configured_direction.
  rewrite !andb_true_iff, !Z.ltb_lt.
  destruct (isZero b) eqn:Hz.
  - apply isZero_fields in Hz. split; [ discriminate | lia ].
  - split; [ intros _ | reflexivity ].
    assert (Hnz : ~ (IngressRate b = 0 /\ IngressBurst b = 0 /\
                     EgressRate b = 0 /\ EgressBurst b = 0)).
    { intros H. apply isZero_fields in H. congruence. }
    lia.
Qed.

Lemma validated_entry_configures_witness :
  let b := {| IngressRate := 0; IngressBurst := 0;
              EgressRate := 2000000; EgressBurst := 2000000 |} in
  isZero b = false /\
  configured_direction (EgressRate b) (EgressBurst b) = true.
Proof.
  cbv zeta. split; [ reflexivity | ].
  destruct (proj1 (validated_entry_configures
                     {| IngressRate := 0; IngressBurst := 0;
                        EgressRate := 2000000; EgressBurst := 2000000 |}
                     ltac:(cbn; lia) ltac:(cbn; lia) ltac:(cbn; lia) ltac:(cbn; lia)
                     eq_refl eq_refl) eq_refl) as [Hin | Heg].
  - discriminate Hin.
  - exact Heg.
Defined.

(** ** Parsing the configuration *)

Section ParseConfig.
Context {W : Type} {P : Platform W}.

(** X4: what a successful [parseConfig] has established: the standard input
    decodes; the effective bandwidth entry, if there is one, passes
    validation in both directions; without a raw previous result the
    decoded configuration is returned as it is; and with one, the previous
    result was parsed into the configuration returned and converts to the
    current version, so that the conversions in [cmdAdd] and [cmdCheck]
    succeed. *)
Theorem parseConfig_ok (stdin : string) (conf : PluginConf) :
  bandwidth.parseConfig stdin = inl conf ->
  exists decoded,
    json_Unmarshal stdin = inl decoded /\
    getBandwidth conf = getBandwidth decoded /\
    (forall b, getBandwidth conf = Some b ->
       validateRateAndBurst (IngressRate b) (IngressBurst b) = None /\
       validateRateAndBurst (EgressRate b) (EgressBurst b) = None) /\
    (types.RawPrevResult (NetConf decoded) = None -> conf = decoded) /\
    (types.RawPrevResult (NetConf decoded) <> None ->
       version_ParsePrevResult (NetConf decoded) = inl (NetConf conf) /\
       exists result,
         current_NewResultFromResult (types.PrevResult (NetConf conf)) = inl result).
Proof.
  unfold bandwidth.parseConfig.
  destruct (json_Unmarshal stdin) as [decoded | err]; [ | discriminate ].
  intros Hparse. exists decoded. split; [ reflexivity | ].
  assert (Hvalid : forall b, getBandwidth decoded = Some b ->
            validateRateAndBurst (IngressRate b) (IngressBurst b) = None /\
            validateRateAndBurst (EgressRate b) (EgressBurst b) = None).
  { intros b Hb. rewrite Hb in Hparse.
    destruct (validateRateAndBurst (IngressRate b) (IngressBurst b)); [ discriminate | ].
    destruct (validateRateAndBurst (EgressRate b) (EgressBurst b)); [ discriminate | ].
    split; reflexivity. }
  assert (Hrest :
    match types.RawPrevResult (NetConf decoded) with
    | Some _ =>
        match version_ParsePrevResult (NetConf decoded) with
        | inr err => inr (Errorf "could not parse prevResult: %v" [AErr (Some err)])
        | inl netconf =>
            match current_NewResultFromResult (types.PrevResult netconf) with
            | inr err =>
                inr (Errorf "could not convert result to current version: %v"
                       [AErr (Some err)])
            | inl _ =>
                inl {| NetConf := netconf;
                       RuntimeConfig_Bandwidth := RuntimeConfig_Bandwidth decoded;
                       BandwidthEntry_ := BandwidthEntry_ decoded |}
            end
        end
    | None => inl decoded
    end = inl conf).
  { destruct (getBandwidth decoded) as [b |].
    - destruct (validateRateAndBurst (IngressRate b) (IngressBurst b)); [ discriminate | ].
      destruct (validateRateAndBurst (EgressRate b) (EgressBurst b)); [ discriminate | ].
      exact Hparse.
    - exact Hparse. }
  clear Hparse.
  destruct (types.RawPrevResult (NetConf decoded)) as [raw |].
  - destruct (version_ParsePrevResult (NetConf decoded)) as [netconf | err];
      [ | discriminate ].
    destruct (current_NewResultFromResult (types.PrevResult netconf)) as [result | err]
      eqn:Hconv; [ | discriminate ].
    injection Hrest as <-. cbn [NetConf].
    split; [ reflexivity | ]. split; [ exact Hvalid | ].
    split; [ discriminate | ].
    intros _. split; [ reflexivity | ]. exists result. exact Hconv.
  - injection Hrest as <-.
    split; [ reflexivity | ]. split; [ exact Hvalid | ].
    split; [ reflexivity | ]. intros H. contradiction.
Qed.

End ParseConfig.

Lemma parseConfig_ok_witness :
  let P := Machine.configured MachineSetup.bothDirections in
  bandwidth.parseConfig "stdin" = inl (Machine.parsed MachineSetup.bothDirections) /\
  current_NewResultFromResult
    (types.PrevResult (NetConf (Machine.parsed MachineSetup.bothDirections))) =
    inl Machine.prevResult.
Proof.
  cbv zeta. split; [ reflexivity | ].
  destruct (@parseConfig_ok _ (Machine.configured MachineSetup.bothDirections) "stdin"
              (Machine.parsed MachineSetup.bothDirections) eq_refl)
    as (decoded & Hdec & _ & _ & _ & Hprev).
  injection Hdec as <-.
  destruct (Hprev ltac:(discriminate)) as [_ [result Hresult]].
  rewrite Hresult. f_equal. cbn in Hresult. injection Hresult as <-. reflexivity.
Defined.

(** X1: the three errors of [validateRateAndBurst], case by case. *)
Theorem validateRateAndBurst_errors (rate burst : Z) :
  (rate <> 0 -> burst = 0 ->
   validateRateAndBurst rate burst =
     Some (Errorf "if rate is set, burst must also be set" [])) /\
  (rate = 0 -> burst <> 0 ->
   validateRateAndBurst rate burst =
     Some (Errorf "if burst is set, rate must also be set" [])) /\
  (rate <> 0 -> burst <> 0 -> MaxUint32 <= burst / 8 ->
   validateRateAndBurst rate burst = Some (Errorf "burst cannot be more than 4GB" [])) /\
  (rate <> 0 -> burst <> 0 -> burst / 8 < MaxUint32 ->
   validateRateAndBurst rate burst = None) /\
  (rate = 0 -> burst = 0 -> validateRateAndBurst rate burst = None).
Proof.
  unfold validateRateAndBurst. repeat split.
  - intros Hr ->. apply Z.eqb_neq in Hr. rewrite Hr. reflexivity.
  - intros -> Hb. apply Z.eqb_neq in Hb. rewrite Hb. reflexivity.
  - intros Hr Hb Hbig. apply Z.eqb_neq in Hr, Hb. rewrite Hr, Hb. cbn [andb negb].
    apply Z.geb_le in Hbig. rewrite Hbig. reflexivity.
  - intros Hr Hb Hsmall. apply Z.eqb_neq in Hr, Hb. rewrite Hr, Hb. cbn [andb negb].
    destruct (Z.geb_spec (burst / 8) MaxUint32); [ lia | reflexivity ].
  - intros -> ->. reflexivity.
Qed.

Lemma validateRateAndBurst_errors_witness :
  validateRateAndBurst 1000 0 = Some (Errorf "if rate is set, burst must also be set" []) /\
  validateRateAndBurst 0 500 = Some (Errorf "if burst is set, rate must also be set" []) /\
  validateRateAndBurst 100 (8 * 2 ^ 32) = Some (Errorf "burst cannot be more than 4GB" []) /\
  validateRateAndBurst 1000000 1000000 = None.
Proof.
  destruct (validateRateAndBurst_errors 1000 0) as (H1 & _).
  destruct (validateRateAndBurst_errors 0 500) as (_ & H2 & _).
  destruct (validateRateAndBurst_errors 100 (8 * 2 ^ 32)) as (_ & _ & H3 & _).
  destruct (validateRateAndBurst_errors 1000000 1000000) as (_ & _ & _ & H4 & _).
  split; [ apply H1; [ discriminate | reflexivity ] | ].
  split; [ apply H2; [ reflexivity | discriminate ] | ].
  split; [ apply H3; [ discriminate | discriminate | vm_compute; discriminate ] | ].
  apply H4; [ discriminate | discriminate | reflexivity ].
Defined.

(** ** The call log *)

Section Log.
Context {W : Type}.
Variable Q : Call -> bool.

Lemma appended_refl (s : Sys W) : appended Q s s.
Proof. exists []. split; [ symmetry; apply List.app_nil_r | reflexivity ]. Qed.

Lemma appended_trans (s1 s2 s3 : Sys W) :
  appended Q s1 s2 -> appended Q s2 s3 -> appended Q s1 s3.
Proof.
  intros (l1 & H1 & Q1) (l2 & H2 & Q2). exists (l1 ++ l2)%list. split.
  - rewrite H2, H1. symmetry. apply List.app_assoc.
  - rewrite forallb_app, Q1, Q2. reflexivity.
Qed.

Lemma appended_call {A : Type} (c : Call) (op : W -> A * W) (s : Sys W) :
  Q c = true -> appended Q s (snd (call c op s)).
Proof.
  intros Hc. unfold call. destruct (op (world s)) as [a w1]. exists [c].
  split; [ reflexivity | cbn; rewrite Hc; reflexivity ].
Qed.

Lemma appended_unrecorded {A : Type} (op : W -> A * W) (s : Sys W) :
  appended Q s (snd (unrecorded op s)).
Proof.
  unfold unrecorded. destruct (op (world s)) as [a w1]. exists [].
  split; [ symmetry; apply List.app_nil_r | reflexivity ].
Qed.

Lemma only_calls_ret {A : Type} (a : A) : only_calls Q (@ret W A a).
Proof. intros s. apply appended_refl. Qed.

Lemma only_calls_fail {A : Type} (e : error) : only_calls Q (@fail W A e).
Proof. intros s. apply appended_refl. Qed.

Lemma only_calls_deref {A : Type} (p : option A) : only_calls Q (@deref W A p).
Proof. intros s. destruct p; apply appended_refl. Qed.

Lemma only_calls_bind {A B : Type} (m : M W A) (k : A -> M W B) :
  only_calls Q m -> (forall a, only_calls Q (k a)) -> only_calls Q (bind m k).
Proof.
  intros Hm Hk s. unfold bind. specialize (Hm s).
  destruct (m s) as [[a | e | msg] s1]; cbn [snd] in Hm; try exact Hm.
  eapply appended_trans; [ exact Hm | apply Hk ].
Qed.

Lemma only_calls_wrap {A : Type} (f : error -> error) (m : M W A) :
  only_calls Q m -> only_calls Q (wrap f m).
Proof.
  intros Hm s. unfold wrap. specialize (Hm s).
  destruct (m s) as [[a | e | msg] s1]; exact Hm.
Qed.

Lemma only_calls_lift {A : Type} (op : Sys W -> (A + error) * Sys W) :
  only_calls Q op -> only_calls Q (lift op).
Proof.
  intros Hop s. unfold lift. specialize (Hop s).
  destruct (op s) as [[a | e] s1]; exact Hop.
Qed.

Lemma only_calls_lift_err (op : Sys W -> option error * Sys W) :
  only_calls Q op -> only_calls Q (lift_err op).
Proof.
  intros Hop s. unfold lift_err. specialize (Hop s).
  destruct (op s) as [[e |] s1]; exact Hop.
Qed.

Lemma only_calls_defer {A : Type} (cleanup : Sys W -> Sys W) (body : M W A) :
  (forall s, appended Q s (cleanup s)) -> only_calls Q body ->
  only_calls Q (defer cleanup body).
Proof.
  intros Hc Hb s. unfold defer. specialize (Hb s).
  destruct (body s) as [r s1]. cbn [snd] in *.
  eapply appended_trans; [ exact Hb | apply Hc ].
Qed.

Lemma only_calls_pure {A : Type} (a : A) : only_calls Q (fun s : Sys W => (a, s)).
Proof. intros s. apply appended_refl. Qed.

End Log.

(** Closes a goal [appended Q s s'] from the steps in the context. *)
Ltac log_chain :=
  cbn [snd] in *;
  solve [ apply appended_refl
        | eassumption
        | eapply appended_trans; [ eassumption | log_chain ] ].

(** ** Check only looks *)

Section CheckQueries.
Context {W : Type} {P : Platform W}.

Lemma query_LinkByName (name : string) : only_calls is_query (netlinksafe_LinkByName name).
Proof. intros s. apply appended_call. reflexivity. Qed.

Lemma query_LinkByIndex (index : Z) : only_calls is_query (netlink_LinkByIndex index).
Proof. intros s. apply appended_call. reflexivity. Qed.

Lemma query_QdiscList (link : Link) : only_calls is_query (netlinksafe_QdiscList link).
Proof. intros s. apply appended_call. reflexivity. Qed.

Lemma query_NewEthtool : only_calls is_query ethtool_NewEthtool.
Proof. intros s. apply appended_call. reflexivity. Qed.

Lemma query_Stats (name : string) : only_calls is_query (ethtool_Stats name).
Proof. intros s. apply appended_call. reflexivity. Qed.

Lemma query_ethtool_Close (s : Sys W) : appended is_query s (ethtool_Close s).
Proof. apply (appended_call is_query CEthtoolClose). reflexivity. Qed.

Lemma query_GetNS (path : string) : only_calls is_query (ns_GetNS path).
Proof. intros s. apply appended_call. reflexivity. Qed.

Lemma query_ns_Close (netns : NetNS) (s : Sys W) : appended is_query s (ns_Close netns s).
Proof. apply (appended_call is_query (CCloseNS netns)). reflexivity. Qed.

Lemma query_ns_Set (netns : NetNS) : only_calls is_query (ns_Set netns).
Proof. intros s. apply appended_call. reflexivity. Qed.

Lemma query_ns_Do {A : Type} (netns : NetNS) (toRun : Sys W -> A * Sys W) :
  only_calls is_query toRun -> only_calls is_query (ns_Do netns toRun).
Proof.
  intros Hrun s. unfold ns_Do.
  pose proof (query_ns_Set netns s) as Hset.
  destruct (ns_Set netns s) as [[e |] s1]; [ exact Hset | ].
  pose proof (Hrun s1) as Hbody. destruct (toRun s1) as [a s2].
  pose proof (query_ns_Set (sys_CurrentNS (world s)) s2) as Hback.
  log_chain.
Qed.

Lemma query_GetVethPeerIfindex (ifName : string) :
  only_calls is_query (ip.GetVethPeerIfindex ifName).
Proof.
  intros s. unfold ip.GetVethPeerIfindex.
  pose proof (query_LinkByName ifName s) as Hlink.
  destruct (netlinksafe_LinkByName ifName s) as [[link | err] s1]; [ | exact Hlink ].
  destruct (negb (is_Veth link)); [ exact Hlink | ].
  destruct (ParentIndex (Attrs link) <=? 0); [ | exact Hlink ].
  pose proof (query_NewEthtool s1) as Hnew.
  destruct (ethtool_NewEthtool s1) as [[err |] s2]; [ log_chain | ].
  pose proof (query_Stats (Netlink.Name (Attrs link)) s2) as Hstats.
  destruct (ethtool_Stats (Netlink.Name (Attrs link)) s2) as [[stats | err] s3].
  - pose proof (query_ethtool_Close s3) as Hclose.
    destruct (stats !! "peer_ifindex") as [n |]; [ | log_chain ].
    destruct ((32767 <? n)%N || (n =? 0)%N); log_chain.
  - pose proof (query_ethtool_Close s3) as Hclose. log_chain.
Qed.

Lemma query_getHostInterface (interfaces : list current.Interface)
    (containerIfName : string) (netns : NetNS) :
  only_calls is_query (bandwidth.getHostInterface interfaces containerIfName netns).
Proof.
  unfold bandwidth.getHostInterface.
  destruct (length interfaces =? 0)%nat; [ apply only_calls_fail | ].
  apply only_calls_bind.
  - intros s.
    pose proof (query_ns_Do netns (ip.GetVethPeerIfindex containerIfName)
                  (query_GetVethPeerIfindex containerIfName) s) as Hdo.
    destruct (ns_Do netns (ip.GetVethPeerIfindex containerIfName) s)
      as [[[[link peerIndex] err] | e] s1]; exact Hdo.
  - intros [peerIndex err].
    destruct (peerIndex <=? 0); [ apply only_calls_fail | ].
    apply only_calls_bind.
    + apply only_calls_wrap, only_calls_lift, query_LinkByIndex.
    + intros link. destruct (List.find _ interfaces);
        [ apply only_calls_ret | apply only_calls_fail ].
Qed.

Lemma query_SafeQdiscList (link : Link) : only_calls is_query (bandwidth.SafeQdiscList link).
Proof.
  intros s. unfold bandwidth.SafeQdiscList.
  pose proof (query_QdiscList link s) as Hlist.
  destruct (netlinksafe_QdiscList link s) as [[qdiscs | err] s1]; exact Hlist.
Qed.

Lemma query_checkQdiscs (rate limit buffer : Z) (link : Link) :
  only_calls is_query (bandwidth.checkQdiscs rate limit buffer link).
Proof.
  unfold bandwidth.checkQdiscs. apply only_calls_bind.
  - apply only_calls_lift, query_SafeQdiscList.
  - intros qdiscs. destruct (length qdiscs =? 0)%nat; [ apply only_calls_fail | ].
    destruct (bandwidth.matchQdiscs rate limit buffer qdiscs);
      [ apply only_calls_fail | apply only_calls_ret ].
Qed.

(** X5: whatever its input and whatever the platform answers, [cmdCheck]
    performs only look-ups, listings and namespace switches: it never
    creates or deletes a link, never creates a discipline or a device and
    never prints a result. *)
Theorem cmdCheck_only_queries (args : skel.CmdArgs) :
  only_calls is_query (bandwidth.cmdCheck args).
Proof.
  unfold bandwidth.cmdCheck. apply only_calls_bind.
  - apply only_calls_lift, only_calls_pure.
  - intros bwConf.
    destruct (types.PrevResult (NetConf bwConf)); [ | apply only_calls_fail ].
    apply only_calls_bind; [ apply only_calls_wrap, only_calls_lift, only_calls_pure | ].
    intros result.
    apply only_calls_bind; [ apply only_calls_wrap, only_calls_lift, query_GetNS | ].
    intros netns. apply only_calls_defer; [ apply query_ns_Close | ].
    apply only_calls_bind; [ apply query_getHostInterface | ]. intros hostInterface.
    apply only_calls_bind; [ apply only_calls_lift, query_LinkByName | ]. intros link.
    apply only_calls_bind; [ apply only_calls_deref | ]. intros ingress.
    apply only_calls_bind.
    { destruct ((0 <? IngressRate ingress) && (0 <? IngressBurst ingress));
        [ apply query_checkQdiscs | apply only_calls_ret ]. }
    intros _.
    apply only_calls_bind; [ apply only_calls_deref | ]. intros egress.
    apply only_calls_bind; [ | intros _; apply only_calls_ret ].
    destruct ((0 <? EgressRate egress) && (0 <? EgressBurst egress));
      [ | apply only_calls_ret ].
    cbv zeta. apply only_calls_bind.
    + apply only_calls_wrap, only_calls_lift, query_LinkByName.
    + intros ifbDevice. apply query_checkQdiscs.
Qed.

End CheckQueries.

(** ** Whatever happens during veth creation *)

Section MakeVethAlways.
Context {W : Type} {P : Platform W}.
Variables (name : string) (mtu : Z) (mac : string) (hostNS : NetNS).

Lemma creations_makeVethPair_le (peer : string) (s : Sys W) :
  (creations (snd (ip.makeVethPair name peer mtu mac hostNS s)) <= S (creations s))%nat.
Proof.
  unfold ip.makeVethPair. cbv zeta.
  match goal with
  | |- context [ match ?v with inl _ => _ | inr _ => _ end ] => destruct v as [veth | err]
  end; [ | cbn [snd]; lia ].
  pose proof (creations_LinkAdd veth s) as Hadd.
  destruct (netlink_LinkAdd veth s) as [[err |] s1]; cbn [snd] in *; [ lia | ].
  pose proof (creations_LinkByName name s1) as Hget.
  destruct (netlinksafe_LinkByName name s1) as [[veth2 | err] s2]; cbn [snd] in *; [ lia | ].
  pose proof (creations_LinkDel (LinkAttrs_ veth) s2) as Hdel.
  destruct (netlink_LinkDel (LinkAttrs_ veth) s2) as [o s3]; cbn [snd] in *. lia.
Qed.

Lemma creations_makeVeth_loop (n : nat) (hint peerName : string) (s : Sys W) :
  (creations (snd (ip.makeVeth_loop n name hint mtu mac hostNS peerName s)) <=
   creations s + n)%nat.
Proof.
  revert peerName s. induction n as [| n IH]; intros peerName s; cbn [ip.makeVeth_loop].
  - cbn [snd]. lia.
  - assert (Hdraw : exists r s1,
              (if negb (hint =? "")%string then ((hint, None), s) else ip.RandomVethName s) =
                (r, s1) /\ creations s1 = creations s).
    { destruct (negb (hint =? "")%string).
      - exists (hint, None), s. split; reflexivity.
      - pose proof (creations_RandomVethName s) as Hr.
        destruct (ip.RandomVethName s) as [r s1]. exists r, s1. split; [ reflexivity | exact Hr ]. }
    destruct Hdraw as ([peer [err |]] & s1 & -> & Hs1); [ cbn [snd]; lia | ].
    pose proof (creations_makeVethPair_le peer s1) as Hpair.
    destruct (ip.makeVethPair name peer mtu mac hostNS s1) as [[veth | err] s2];
      cbn [snd] in *; [ lia | ].
    destruct (os_IsExist err); [ | cbn [snd]; lia ].
    pose proof (creations_peerExists peer s2) as Hpeer.
    destruct (ip.peerExists peer s2) as [exists_ s3]. cbn [snd] in Hpeer.
    destruct (exists_ && (hint =? "")%string); [ | cbn [snd]; lia ].
    specialize (IH peer s3). lia.
Qed.

(** X6: whatever the platform answers, [makeVeth] requests at most ten link
    creations. *)
Theorem makeVeth_at_most_ten (hint : string) (s : Sys W) :
  (creations (snd (ip.makeVeth name hint mtu mac hostNS s)) <= creations s + 10)%nat.
Proof. apply creations_makeVeth_loop. Qed.

Lemma makeVeth_loop_link_or_error (n : nat) (hint peerName : string) (s : Sys W) :
  let '(_, veth, err) := fst (ip.makeVeth_loop n name hint mtu mac hostNS peerName s) in
  veth = None <-> err <> None.
Proof.
  revert s peerName. induction n as [| n IH]; intros s peerName; cbn [ip.makeVeth_loop].
  - cbn. split; [ discriminate | reflexivity ].
  - destruct (if negb (hint =? "")%string then ((hint, None), s) else ip.RandomVethName s)
      as [[peer [err |]] s1].
    + cbn. split; [ discriminate | reflexivity ].
    + destruct (ip.makeVethPair name peer mtu mac hostNS s1) as [[veth | err] s2].
      * cbn. split; [ discriminate | intros H; contradiction ].
      * destruct (os_IsExist err); [ | cbn; split; [ discriminate | reflexivity ] ].
        destruct (ip.peerExists peer s2) as [exists_ s3].
        destruct (exists_ && (hint =? "")%string);
          [ apply IH | cbn; split; [ discriminate | reflexivity ] ].
Qed.

(** X7: in every run, [makeVeth] returns a link exactly when it returns no
    error. *)
Theorem makeVeth_link_or_error (hint : string) (s : Sys W) :
  let '(_, veth, err) := fst (ip.makeVeth name hint mtu mac hostNS s) in
  veth = None <-> err <> None.
Proof. apply makeVeth_loop_link_or_error. Qed.

(** X8: with a peer name provided, [makeVeth] makes one attempt with that
    name and never another: its result is that of the one [makeVethPair]
    call, with a duplicate reported as a collision and any other error as
    a failure to make the pair; no entropy is drawn. *)
Theorem makeVeth_hint_once (hint : string) (s : Sys W) :
  hint <> "" ->
  match ip.makeVethPair name hint mtu mac hostNS s with
  | (inl veth, s1) =>
      ip.makeVeth name hint mtu mac hostNS s = ((hint, Some veth, None), s1)
  | (inr err, s1) =>
      if os_IsExist err then
        ip.makeVeth name hint mtu mac hostNS s =
          ((hint, None, Some (errNameCollision name hint)), snd (ip.peerExists hint s1))
      else
        ip.makeVeth name hint mtu mac hostNS s =
          ((hint, None, Some (Errorf "failed to make veth pair: %v" [AErr (Some err)])), s1)
  end.
Proof.
  intros Hhint. apply String.eqb_neq in Hhint.
  unfold ip.makeVeth. cbn [ip.makeVeth_loop]. rewrite Hhint. cbn [negb].
  destruct (ip.makeVethPair name hint mtu mac hostNS s) as [[veth | err] s1];
    [ reflexivity | ].
  destruct (os_IsExist err); [ | reflexivity ].
  destruct (ip.peerExists hint s1) as [exists_ s2]. rewrite andb_false_r. reflexivity.
Qed.

End MakeVethAlways.

Lemma makeVeth_hint_once_witness :
  let P := Machine.configured Machine.noBandwidth in
  fst (ip.makeVeth "eth0" "veth5" 1500 "" Machine.hostNS MachineSetup.empty) =
    ("veth5",
     Some {| Type_ := Veth;
             Attrs := {| Index := 1; MTU := 1500; Netlink.Name := "eth0";
                         HardwareAddr := ""; ParentIndex := 2 |} |},
     None) /\
  calls (snd (ip.makeVeth "eth0" "veth5" 1500 "" Machine.hostNS MachineSetup.empty)) =
    [CLinkAdd "eth0" "veth5"; CLinkByName "eth0"].
Proof.
  cbv zeta.
  pose proof (@makeVeth_hint_once _ (Machine.configured Machine.noBandwidth)
                "eth0" 1500 "" Machine.hostNS "veth5" MachineSetup.empty
                ltac:(discriminate)) as Hrun.
  cbv beta iota in Hrun.
  change (@ip.makeVethPair _ (Machine.configured Machine.noBandwidth)
            "eth0" "veth5" 1500 "" Machine.hostNS MachineSetup.empty)
    with (@inl Link error
            {| Type_ := Veth;
               Attrs := {| Index := 1; MTU := 1500; Netlink.Name := "eth0";
                           HardwareAddr := ""; ParentIndex := 2 |} |},
          snd (@ip.makeVethPair _ (Machine.configured Machine.noBandwidth)
                 "eth0" "veth5" 1500 "" Machine.hostNS MachineSetup.empty)) in Hrun.
  rewrite Hrun. split; reflexivity.
Defined.

(** ** The peer index, continued *)

Section PeerIfindexAlways.
Context {W : Type} {P : Platform W}.

(** X9: in every run of [GetVethPeerIfindex] the index returned is positive
    exactly when no error is returned, and with an error the link is nil
    and the index is [-1]: a caller may test the index instead of the
    error, as [getHostInterface] does. *)
Theorem GetVethPeerIfindex_index_sign (ifName : string) (s : Sys W) :
  let '(link, peerIndex, err) := fst (ip.GetVethPeerIfindex ifName s) in
  (err = None <-> 0 < peerIndex) /\
  (err <> None -> link = None /\ peerIndex = -1).
Proof.
  unfold ip.GetVethPeerIfindex.
  assert (Herr : forall e : error,
            (Some e = None <-> 0 < -1) /\ (Some e <> None -> @None Link = None /\ -1 = -1)).
  { intros e. split; [ split; [ discriminate | lia ] | intros _; split; reflexivity ]. }
  destruct (netlinksafe_LinkByName ifName s) as [[link | err] s1]; [ | apply Herr ].
  destruct (negb (is_Veth link)); [ apply Herr | ].
  destruct (Z.leb_spec (ParentIndex (Attrs link)) 0) as [Hold | Hnew].
  - destruct (ethtool_NewEthtool s1) as [[err |] s2]; [ apply Herr | ].
    destruct (ethtool_Stats (Netlink.Name (Attrs link)) s2) as [[stats | err] s3];
      [ | apply Herr ].
    destruct (stats !! "peer_ifindex") as [n |]; [ | apply Herr ].
    destruct (N.ltb_spec 32767 n) as [Hbig | Hsmall]; cbn [orb]; [ apply Herr | ].
    destruct (N.eqb_spec n 0) as [Hz | Hnz]; [ apply Herr | ].
    cbn [fst]. split; [ split; [ lia | reflexivity ] | intros H; contradiction ].
  - cbn [fst]. split; [ split; [ lia | reflexivity ] | intros H; contradiction ].
Qed.

(** X10: [ethtool] is used only when the kernel reports no positive parent
    index, and once it has been initialised it is closed whatever the
    statistics say: the run ends with the close that follows the query. *)
Theorem GetVethPeerIfindex_closes_ethtool (ifName : string) (s s1 : Sys W) (link : Link) :
  netlinksafe_LinkByName ifName s = (inl link, s1) ->
  is_Veth link = true ->
  (0 < ParentIndex (Attrs link) -> snd (ip.GetVethPeerIfindex ifName s) = s1) /\
  (ParentIndex (Attrs link) <= 0 ->
   forall s2, ethtool_NewEthtool s1 = (None, s2) ->
     snd (ip.GetVethPeerIfindex ifName s) =
       ethtool_Close (snd (ethtool_Stats (Netlink.Name (Attrs link)) s2))).
Proof.
  intros Hlink Hveth. unfold ip.GetVethPeerIfindex. rewrite Hlink, Hveth. cbn [negb].
  split.
  - intros Hpos. destruct (Z.leb_spec (ParentIndex (Attrs link)) 0); [ lia | reflexivity ].
  - intros Hold s2 Hnew. apply Z.leb_le in Hold. rewrite Hold, Hnew.
    destruct (ethtool_Stats (Netlink.Name (Attrs link)) s2) as [[stats | err] s3];
      [ | reflexivity ].
    destruct (stats !! "peer_ifindex") as [n |]; [ | reflexivity ].
    destruct ((32767 <? n)%N || (n =? 0)%N); reflexivity.
Qed.

End PeerIfindexAlways.

Lemma GetVethPeerIfindex_closes_ethtool_witness :
  let P := Machine.configured Machine.noBandwidth in
  calls (snd (ip.GetVethPeerIfindex "eth0" Machine.oldKernel)) =
    [CLinkByName "eth0"; CNewEthtool; CEthtoolStats "eth0"; CEthtoolClose] /\
  calls (snd (ip.GetVethPeerIfindex "eth0" Machine.farPeer)) = [CLinkByName "eth0"].
Proof.
  cbv zeta.
  set (P := Machine.configured Machine.noBandwidth).
  destruct (@GetVethPeerIfindex_closes_ethtool _ P "eth0" Machine.oldKernel
              (snd (@netlinksafe_LinkByName _ P "eth0" Machine.oldKernel))
              (Machine.veth "eth0" 3 0) eq_refl eq_refl) as [_ Hold].
  destruct (@GetVethPeerIfindex_closes_ethtool _ P "eth0" Machine.farPeer
              (snd (@netlinksafe_LinkByName _ P "eth0" Machine.farPeer))
              (Machine.veth "eth0" 3 40000) eq_refl eq_refl) as [Hnew _].
  rewrite (Hold ltac:(cbn; lia) _ eq_refl), (Hnew ltac:(cbn; lia)).
  split; reflexivity.
Defined.

(** ** One creation attempt *)

Section MakeVethPairLog.
Context {W : Type} {P : Platform W}.

(** X11: what one call of [makeVethPair] does on the link table, by its
    result: with a link returned, one creation and the re-fetch; with an
    error, nothing at all (the hardware address does not parse), the
    failed creation alone, or the creation, the failed re-fetch and the
    deletion of the pair that was just created.  No deletion is requested
    on any other path. *)
Theorem makeVethPair_calls (name peer : string) (mtu : Z) (mac : string) (hostNS : NetNS)
    (s : Sys W) :
  let '(r, s') := ip.makeVethPair name peer mtu mac hostNS s in
  match r with
  | inl _ => calls s' = (calls s ++ [CLinkAdd name peer; CLinkByName name])%list
  | inr err =>
      (s' = s /\ err = AddrError "invalid MAC address" mac /\ mac <> "") \/
      calls s' = (calls s ++ [CLinkAdd name peer])%list \/
      calls s' = (calls s ++ [CLinkAdd name peer; CLinkByName name; CLinkDel name])%list
  end.
Proof.
  unfold ip.makeVethPair. cbv zeta.
  match goal with
  | |- context [ match ?v with inl _ => _ | inr _ => _ end ] =>
      assert (Hreq : match v with
                     | inl veth => Netlink.Name (LinkAttrs_ veth) = name /\ PeerName veth = peer
                     | inr err => err = AddrError "invalid MAC address" mac /\ mac <> ""
                     end);
      [ | destruct v as [veth | err] ]
  end.
  { destruct (String.eqb_spec mac "") as [-> | Hmac]; cbn [negb].
    - split; reflexivity.
    - unfold ParseMAC. destruct (net_ParseMAC mac); split; solve [ reflexivity | assumption ]. }
  - destruct Hreq as [Hname Hpeer].
    unfold netlink_LinkAdd, netlinksafe_LinkByName, netlink_LinkDel, call.
    rewrite Hname, Hpeer. cbn [world calls].
    destruct (sys_LinkAdd veth (world s)) as [[err |] w1]; cbn [world calls].
    + right. left. reflexivity.
    + destruct (sys_LinkByName name w1) as [[veth2 | err] w2]; cbn [world calls].
      * rewrite <- List.app_assoc. reflexivity.
      * destruct (sys_LinkDel (LinkAttrs_ veth) w2) as [o w3].
        right. right. cbn [calls]. rewrite <- !List.app_assoc. reflexivity.
  - destruct Hreq as [-> Hmac]. left. repeat split. exact Hmac.
Qed.

End MakeVethPairLog.

(** ** Generated names *)

Lemma unhex_hex_byte (b : byte) (rest : string) :
  unhex (ip.hex_byte b +:+ rest) = option_map (cons b) (unhex rest).
Proof.
  destruct (unhex rest) as [bs |] eqn:Hrest;
    destruct b; lazy beta iota zeta delta -[unhex]; cbn [unhex];
    rewrite Hrest; reflexivity.
Qed.

Lemma unhex_hex (bs : list byte) : unhex (ip.hex bs) = Some bs.
Proof.
  induction bs as [| b bs IH]; [ reflexivity | ].
  cbn [ip.hex]. rewrite unhex_hex_byte, IH. reflexivity.
Qed.

Lemma length_append (s1 s2 : string) :
  String.length (s1 +:+ s2) = (String.length s1 + String.length s2)%nat.
Proof.
  induction s1 as [| c s1 IH]; [ reflexivity | ].
  change (S (String.length (s1 +:+ s2)) = S (String.length s1 + String.length s2)).
  rewrite IH. reflexivity.
Qed.

Lemma length_hex (bs : list byte) : String.length (ip.hex bs) = (2 * length bs)%nat.
Proof.
  induction bs as [| b bs IH]; [ reflexivity | ].
  cbn [ip.hex length]. rewrite length_append, IH. unfold ip.hex_byte.
  cbn [String.length]. lia.
Qed.

Section RandomNames.
Context {W : Type} {P : Platform W}.

(** X12: a generated name is "veth" followed by the hexadecimal form of the
    entropy read: with the four bytes that are asked for it has twelve
    characters, which is within the fifteen of an interface name, and the
    entropy can be read back from it. *)
Theorem RandomVethName_format (s s1 : Sys W) (entropy : list byte) :
  rand_Read 4 s = (inl entropy, s1) ->
  length entropy = 4%nat ->
  exists digits,
    ip.RandomVethName s = (("veth" +:+ digits, None), s1) /\
    String.length ("veth" +:+ digits) = 12%nat /\
    unhex digits = Some entropy.
Proof.
  intros Hread Hlen. exists (ip.hex entropy). unfold ip.RandomVethName. rewrite Hread.
  split; [ reflexivity | ]. split; [ | apply unhex_hex ].
  rewrite length_append, length_hex, Hlen. reflexivity.
Qed.

(** X13: two generated names are equal only if the entropy was: the names
    keep all of the entropy. *)
Theorem RandomVethName_injective (s s1 t t1 : Sys W) (e1 e2 : list byte) :
  rand_Read 4 s = (inl e1, s1) ->
  rand_Read 4 t = (inl e2, t1) ->
  fst (fst (ip.RandomVethName s)) = fst (fst (ip.RandomVethName t)) ->
  e1 = e2.
Proof.
  unfold ip.RandomVethName. intros -> ->. cbn [fst]. intros Hname.
  change (String "v" (String "e" (String "t" (String "h" (ip.hex e1)))) =
          String "v" (String "e" (String "t" (String "h" (ip.hex e2))))) in Hname.
  injection Hname as Hhex.
  assert (H : unhex (ip.hex e1) = unhex (ip.hex e2)) by (rewrite Hhex; reflexivity).
  rewrite !unhex_hex in H. injection H as ->. reflexivity.
Qed.

(** When no entropy can be read, no name is returned. *)
Lemma RandomVethName_no_entropy (s s1 : Sys W) (err : error) :
  rand_Read 4 s = (inr err, s1) ->
  ip.RandomVethName s =
    (("", Some (Errorf "failed to generate random veth name: %v" [AErr (Some err)])), s1).
Proof. unfold ip.RandomVethName. intros ->. reflexivity. Qed.

End RandomNames.

Lemma RandomVethName_format_witness :
  let P := Machine.configured Machine.noBandwidth in
  exists digits,
    fst (ip.RandomVethName MachineSetup.empty) = ("veth" +:+ digits, None) /\
    String.length ("veth" +:+ digits) = 12%nat /\
    unhex digits = Some Machine.name3.
Proof.
  cbv zeta.
  destruct (@RandomVethName_format _ (Machine.configured Machine.noBandwidth)
              MachineSetup.empty
              (snd (@rand_Read _ (Machine.configured Machine.noBandwidth) 4 MachineSetup.empty))
              Machine.name3 eq_refl eq_refl) as (digits & Hrun & Hlen & Hback).
  exists digits. rewrite Hrun. split; [ reflexivity | split; assumption ].
Defined.

Lemma RandomVethName_injective_witness :
  let P := Machine.configured Machine.noBandwidth in
  Machine.name1 = Machine.name1.
Proof.
  cbv zeta.
  apply (@RandomVethName_injective _ (Machine.configured Machine.noBandwidth)
           (Machine.crowded [Machine.name1])
           (snd (@rand_Read _ (Machine.configured Machine.noBandwidth) 4
                   (Machine.crowded [Machine.name1])))
           (Machine.crowded [Machine.name1; Machine.name2])
           (snd (@rand_Read _ (Machine.configured Machine.noBandwidth) 4
                   (Machine.crowded [Machine.name1; Machine.name2])))
           Machine.name1 Machine.name1 eq_refl eq_refl eq_refl).
Defined.

(** ** Deleting a link and returning its addresses *)

Section DelLinkAddr.
Context {W : Type} {P : Platform W}.

(** X14: [DelLinkByNameAddr] lists the addresses before it deletes the link,
    and does not delete it when the listing fails; the addresses it
    returns are those of the listing that are global unicast, in the order
    of the listing, and they are returned only after the deletion has
    succeeded. *)
Theorem DelLinkByNameAddr_order (ifName : string) (s s1 : Sys W) (iface : Link) :
  netlinksafe_LinkByName ifName s = (inl iface, s1) ->
  let name := Netlink.Name (Attrs iface) in
  (forall err s2,
      netlinksafe_AddrList iface s1 = (inr err, s2) ->
      ip.DelLinkByNameAddr ifName s = (inr (errAddresses ifName err), s2) /\
      calls s2 = (calls s ++ [CLinkByName ifName; CAddrList name])%list) /\
  (forall addrs s2 r s3,
      netlinksafe_AddrList iface s1 = (inl addrs, s2) ->
      netlink_LinkDel (Attrs iface) s2 = (r, s3) ->
      calls s3 = (calls s ++ [CLinkByName ifName; CAddrList name; CLinkDel name])%list /\
      match r with
      | Some err => ip.DelLinkByNameAddr ifName s = (inr (errDelete ifName err), s3)
      | None =>
          exists out,
            ip.DelLinkByNameAddr ifName s = (inl out, s3) /\
            out = map IPNet (List.filter IsGlobalUnicast addrs) /\
            (forall net, In net out <->
                         exists addr, In addr addrs /\ IsGlobalUnicast addr = true /\
                                      IPNet addr = net)
      end).
Proof.
  intros Hlink name. unfold ip.DelLinkByNameAddr. rewrite Hlink.
  assert (Hlog1 : calls s1 = (calls s ++ [CLinkByName ifName])%list).
  { unfold netlinksafe_LinkByName, call in Hlink.
    destruct (sys_LinkByName ifName (world s)) as [r w1]. injection Hlink as _ <-.
    reflexivity. }
  assert (Hlog2 : forall r s2, netlinksafe_AddrList iface s1 = (r, s2) ->
            calls s2 = (calls s ++ [CLinkByName ifName; CAddrList name])%list).
  { intros r s2. unfold netlinksafe_AddrList, call.
    destruct (sys_AddrList iface (world s1)) as [r' w2]. intros [= _ <-]. cbn [calls].
    rewrite Hlog1, <- List.app_assoc. reflexivity. }
  split.
  - intros err s2 Hlist. rewrite Hlist. split; [ reflexivity | eapply Hlog2, Hlist ].
  - intros addrs s2 r s3 Hlist Hdel. rewrite Hlist, Hdel. split.
    + unfold netlink_LinkDel, call in Hdel.
      destruct (sys_LinkDel (Attrs iface) (world s2)) as [r' w3]. injection Hdel as _ <-.
      cbn [calls]. rewrite (Hlog2 _ _ Hlist), <- List.app_assoc. reflexivity.
    + destruct r as [err |]; [ reflexivity | ].
      eexists. split; [ reflexivity | ]. split; [ reflexivity | ].
      intros net. rewrite List.in_map_iff. split.
      * intros (addr & Hnet & Hin). apply List.filter_In in Hin as [Hin Hglobal].
        exists addr. repeat split; assumption.
      * intros (addr & Hin & Hglobal & Hnet). exists addr. split; [ exact Hnet | ].
        apply List.filter_In. split; assumption.
Qed.

End DelLinkAddr.

Lemma DelLinkByNameAddr_order_witness :
  let P := MachineSetup.addressed
             [ {| IPNet := "fe80::1/64"; IsGlobalUnicast := false |};
               {| IPNet := "10.0.0.2/24"; IsGlobalUnicast := true |} ] in
  ip.DelLinkByNameAddr "eth0" Machine.farPeer =
    (inl ["10.0.0.2/24"],
     {| world := {| Machine.links := []; Machine.qdiscs := []; Machine.entropy := [];
                    Machine.stats := ∅; Machine.netns := Machine.hostNS |};
        calls := [CLinkByName "eth0"; CAddrList "eth0"; CLinkDel "eth0"] |}).
Proof.
  cbv zeta.
  set (P := MachineSetup.addressed _).
  destruct (@DelLinkByNameAddr_order _ P "eth0" Machine.farPeer
              (snd (@netlinksafe_LinkByName _ P "eth0" Machine.farPeer))
              (Machine.veth "eth0" 3 40000) eq_refl) as [_ Hdel].
  destruct (Hdel _ _ None _ eq_refl eq_refl) as (_ & out & Hrun & -> & _).
  rewrite Hrun. reflexivity.
Defined.

(** ** The host interface *)

Section HostInterface.
Context {W : Type} {P : Platform W}.

(** X15: without interfaces [getHostInterface] fails before it looks at
    anything; and the interface it returns is an entry of the list it was
    given that carries no sandbox and is named as a link that
    [netlink.LinkByIndex] found for a positive index. *)
Theorem getHostInterface_host_entry (interfaces : list current.Interface)
    (containerIfName : string) (netns : NetNS) (s : Sys W) :
  (interfaces = [] ->
   bandwidth.getHostInterface interfaces containerIfName netns s =
     (Fail (Errorf "no interfaces provided" []), s)) /\
  (forall iface s',
      bandwidth.getHostInterface interfaces containerIfName netns s = (Ret iface, s') ->
      In iface interfaces /\ current.Sandbox iface = "" /\
      exists peerIndex link s1,
        0 < peerIndex /\
        netlink_LinkByIndex peerIndex s1 = (inl link, s') /\
        current.Name iface = Netlink.Name (Attrs link)).
Proof.
  split; [ intros ->; reflexivity | ].
  intros iface s'. unfold bandwidth.getHostInterface, bind, wrap, lift.
  destruct (length interfaces =? 0)%nat; [ discriminate | ].
  destruct (ns_Do netns (ip.GetVethPeerIfindex containerIfName) s)
    as [[[[l peerIndex] err] | e] s1]; cbn [Z.leb Z.compare]; [ | discriminate ].
  destruct (Z.leb_spec peerIndex 0) as [Hle | Hpos]; [ discriminate | ].
  destruct (netlink_LinkByIndex peerIndex s1) as [[link | e] s2] eqn:Hindex;
    [ | discriminate ].
  destruct (List.find _ interfaces) as [found |] eqn:Hfind; [ | discriminate ].
  intros [= <- <-]. apply List.find_some in Hfind as [Hin Hmatch].
  apply andb_true_iff in Hmatch as [Hsandbox Hname].
  apply String.eqb_eq in Hsandbox, Hname.
  split; [ exact Hin | ]. split; [ exact Hsandbox | ].
  exists peerIndex, link, s1. repeat split; assumption.
Qed.

(** X16: what is left of the listing is what is not [pfifo_fast], nothing
    more and nothing less, and an error of the listing is passed on. *)
Theorem SafeQdiscList_filters (link : Link) (s : Sys W) :
  match netlinksafe_QdiscList link s with
  | (inr err, s1) => bandwidth.SafeQdiscList link s = (inr err, s1)
  | (inl qdiscs, s1) =>
      exists result,
        bandwidth.SafeQdiscList link s = (inl result, s1) /\
        (forall q, In q result <-> In q qdiscs /\ q <> PfifoFast) /\
        (length result <= length qdiscs)%nat
  end.
Proof.
  unfold bandwidth.SafeQdiscList.
  destruct (netlinksafe_QdiscList link s) as [[qdiscs | err] s1]; [ | reflexivity ].
  eexists. split; [ reflexivity | ]. split.
  - intros q. rewrite List.filter_In. destruct q; cbn; intuition (discriminate || congruence).
  - apply List.filter_length_le.
Qed.

End HostInterface.

Lemma getHostInterface_host_entry_witness :
  let P := Machine.configured Machine.ingressOnly in
  exists s',
    bandwidth.getHostInterface (current.Interfaces Machine.prevResult) "eth0"
      {| Fd := 3; Path := "/var/run/netns/cid1" |} (Machine.attached []) =
      (Ret {| current.Name := "veth123"; current.Mac := "0a:58:0a:00:00:01";
              current.Sandbox := "" |}, s') /\
    current.Sandbox {| current.Name := "veth123"; current.Mac := "0a:58:0a:00:00:01";
                       current.Sandbox := "" |} = "".
Proof.
  cbv zeta. eexists. split; [ reflexivity | ].
  apply (proj2 (@getHostInterface_host_entry _ (Machine.configured Machine.ingressOnly)
                  (current.Interfaces Machine.prevResult) "eth0"
                  {| Fd := 3; Path := "/var/run/netns/cid1" |} (Machine.attached []))
           _ _ eq_refl).
Defined.

(** ** The comparison loop of Check *)

(** X17: the loop looks at the token-bucket disciplines at the head of the
    list only: it passes exactly when each of them has the expected rate,
    limit and buffer, and what follows the first discipline of another
    kind has no influence on its result. *)
Theorem matchQdiscs_leading (rate limit buffer : Z) (qdiscs : list Qdisc) :
  bandwidth.matchQdiscs rate limit buffer qdiscs =
    bandwidth.matchQdiscs rate limit buffer (leading_Tbf qdiscs) /\
  (bandwidth.matchQdiscs rate limit buffer qdiscs = None <->
   Forall (is_expected_Tbf rate limit buffer) (leading_Tbf qdiscs)).
Proof.
  assert (Hsame : bandwidth.matchQdiscs rate limit buffer qdiscs =
                  bandwidth.matchQdiscs rate limit buffer (leading_Tbf qdiscs)).
  { induction qdiscs as [| [tbf | | |] rest IH]; cbn [bandwidth.matchQdiscs leading_Tbf];
      try reflexivity.
    rewrite IH. reflexivity. }
  split; [ exact Hsame | ].
  rewrite Hsame. apply matchQdiscs_all_Tbf. clear Hsame.
  induction qdiscs as [| [tbf | | |] rest IH]; cbn [leading_Tbf forallb is_Tbf andb];
    try reflexivity.
  exact IH.
Qed.

(** ** Add and Check as chained plugins *)

Lemma appended_weaken {W : Type} (Q Q' : Call -> bool) (s s' : Sys W) :
  (forall c, Q c = true -> Q' c = true) -> appended Q s s' -> appended Q' s s'.
Proof.
  intros Himp (l & Hl & HQ). exists l. split; [ exact Hl | ].
  rewrite forallb_forall in *. auto.
Qed.

Lemma is_query_keeps_links (c : Call) : is_query c = true -> keeps_links c = true.
Proof. destruct c; cbn; congruence. Qed.

Section Chained.
Context {W : Type} {P : Platform W}.

(** X18: without a previous result Check fails, whatever the bandwidth entry
    is and even when there is none, and Add fails when its entry is not
    all zero; neither touches the platform. *)
Theorem not_chained (args : skel.CmdArgs) (conf : PluginConf) (s : Sys W) :
  bandwidth.parseConfig (skel.StdinData args) = inl conf ->
  types.PrevResult (NetConf conf) = None ->
  bandwidth.cmdCheck args s = (Fail (Errorf "must be called as a chained plugin" []), s) /\
  (forall b, getBandwidth conf = Some b -> isZero b = false ->
     bandwidth.cmdAdd args s = (Fail (Errorf "must be called as chained plugin" []), s)).
Proof.
  intros Hparse Hprev. split.
  - unfold bandwidth.cmdCheck, bind, lift. rewrite Hparse, Hprev. reflexivity.
  - intros b Hb Hnz. unfold bandwidth.cmdAdd, bind, lift. rewrite Hparse, Hb, Hnz, Hprev.
    reflexivity.
Qed.

(** X19: whatever its input and whatever the platform answers, [cmdAdd]
    requests neither the creation of a veth pair nor the deletion of a
    link: when a later step fails, what the earlier steps have set up,
    the auxiliary device included, stays. *)
Theorem cmdAdd_keeps_links (args : skel.CmdArgs) :
  only_calls keeps_links (bandwidth.cmdAdd args).
Proof.
  assert (Hcall : forall A (c : Call) (op : W -> A * W),
            keeps_links c = true -> only_calls keeps_links (call c op)).
  { intros A c op Hc s. apply appended_call. exact Hc. }
  assert (Hprint : forall r version, only_calls keeps_links (types_PrintResult r version)).
  { intros [r |] version; [ apply only_calls_lift_err, Hcall; reflexivity | ].
    intros s. apply appended_refl. }
  unfold bandwidth.cmdAdd. apply only_calls_bind.
  - apply only_calls_lift, only_calls_pure.
  - intros conf.
    destruct (match getBandwidth conf with None => true | Some b => isZero b end).
    { apply Hprint. }
    apply only_calls_bind; [ apply only_calls_deref | ]. intros b.
    destruct (types.PrevResult (NetConf conf)); [ | apply only_calls_fail ].
    apply only_calls_bind; [ apply only_calls_wrap, only_calls_lift, only_calls_pure | ].
    intros result.
    apply only_calls_bind; [ apply only_calls_wrap, only_calls_lift, Hcall; reflexivity | ].
    intros netns. apply only_calls_defer.
    { intros s. apply (appended_call keeps_links (CCloseNS netns)). reflexivity. }
    apply only_calls_bind.
    { intros s. eapply appended_weaken; [ apply is_query_keeps_links | ].
      apply query_getHostInterface. }
    intros hostInterface. apply only_calls_bind.
    { destruct ((0 <? IngressRate b) && (0 <? IngressBurst b));
        [ apply only_calls_lift_err, Hcall; reflexivity | apply only_calls_ret ]. }
    intros _. apply only_calls_bind; [ | intros printed; apply Hprint ].
    destruct ((0 <? EgressRate b) && (0 <? EgressBurst b)); [ | apply only_calls_ret ].
    apply only_calls_bind.
    { unfold bandwidth.getMTU. apply only_calls_bind;
        [ apply only_calls_lift, Hcall; reflexivity | intros l; apply only_calls_ret ]. }
    intros mtu. cbv zeta.
    apply only_calls_bind; [ apply only_calls_lift_err, Hcall; reflexivity | ]. intros _.
    apply only_calls_bind; [ apply only_calls_lift, Hcall; reflexivity | ]. intros ifbDevice.
    apply only_calls_bind; [ apply only_calls_lift_err, Hcall; reflexivity | ]. intros _.
    apply only_calls_ret.
Qed.

End Chained.

Lemma not_chained_witness :
  let conf := {| NetConf :=
                   {| types.CNIVersion := "1.0.0"; types.Name := "net1";
                      types.RawPrevResult := None; types.PrevResult := None |};
                 RuntimeConfig_Bandwidth := None; BandwidthEntry_ := None |} in
  let P := Machine.platform (fun _ => inl conf) None in
  bandwidth.cmdCheck Machine.args (Machine.attached []) =
    (Fail (Errorf "must be called as a chained plugin" []), Machine.attached []).
Proof.
  intros conf P.
  apply (proj1 (@not_chained _ P Machine.args conf (Machine.attached []) eq_refl eq_refl)).
Defined.

(** ** What Add prints *)

Lemma calls_call {W A : Type} (c : Call) (op : W -> A * W) (s : Sys W) :
  calls (snd (call c op s)) = (calls s ++ [c])%list.
Proof. unfold call. destruct (op (world s)) as [a w1]. reflexivity. Qed.

Section AddResult.
Context {W : Type} {P : Platform W}.

Lemma printed_then_closed (printed : current.Result) (version : string) (netns : NetNS)
    (s s' : Sys W) :
  (let (r, s1) := types_PrintResult (Some printed) version s in
   (r, ns_Close netns s1)) = (Ret tt, s') ->
  calls s' = (calls s ++ [CPrintResult (Some printed) version; CCloseNS netns])%list.
Proof.
  unfold types_PrintResult, lift_err.
  pose proof (calls_call (CPrintResult (Some printed) version)
                (sys_PrintResult (Some printed) version) s) as Hprint.
  destruct (call (CPrintResult (Some printed) version)
              (sys_PrintResult (Some printed) version) s) as [[err |] s1];
    [ discriminate | ].
  cbn [snd] in Hprint. intros [= <-].
  unfold ns_Close. rewrite calls_call, Hprint, <- List.app_assoc. reflexivity.
Qed.

(** X20: when Add succeeds for an entry that is not all zero, the last thing
    it does before closing the namespace is to print a result, and that
    result is the converted previous result with, when egress is
    configured, one entry appended — the auxiliary device, without a
    sandbox — and otherwise unchanged: the earlier entries are never
    rewritten. *)
Theorem cmdAdd_appends (args : skel.CmdArgs) (conf : PluginConf) (b : BandwidthEntry)
    (prev result : current.Result) (s s' : Sys W) :
  bandwidth.parseConfig (skel.StdinData args) = inl conf ->
  getBandwidth conf = Some b ->
  isZero b = false ->
  types.PrevResult (NetConf conf) = Some prev ->
  current_NewResultFromResult (Some prev) = inl result ->
  bandwidth.cmdAdd args s = (Ret tt, s') ->
  exists before printed netns,
    calls s' =
      (before ++ [CPrintResult (Some printed) (types.CNIVersion (NetConf conf));
                  CCloseNS netns])%list /\
    current.CNIVersion printed = current.CNIVersion result /\
    current.Rest printed = current.Rest result /\
    if configured_direction (EgressRate b) (EgressBurst b) then
      exists mac,
        current.Interfaces printed =
          (current.Interfaces result ++
           [ {| current.Name :=
                  bandwidth.getIfbDeviceName (types.Name (NetConf conf))
                    (skel.ContainerID args);
                current.Mac := mac;
                current.Sandbox := "" |} ])%list
    else printed = result.
Proof.
  intros Hparse Hb Hnz Hprev Hresult.
  unfold bandwidth.cmdAdd, configured_direction.
  unfold bind at 1, lift at 1. rewrite Hparse, Hb, Hnz.
  unfold bind at 1. cbn [deref ret]. rewrite Hprev.
  unfold bind at 1, wrap at 1, lift at 1. rewrite Hresult.
  unfold bind at 1, wrap at 1, lift at 1.
  destruct (ns_GetNS (skel.Netns args) s) as [[netns | err] s1]; [ | discriminate ].
  unfold defer, bind at 1.
  destruct (bandwidth.getHostInterface (current.Interfaces result) (skel.IfName args)
              netns s1) as [[host | err | msg] s2]; try discriminate.
  unfold bind at 1.
  assert (Hingress : exists r3 s3,
    (if (0 <? IngressRate b) && (0 <? IngressBurst b)
     then lift_err (CreateIngressQdisc (IngressRate b) (IngressBurst b) (current.Name host))
     else ret tt) s2 = (r3, s3)) by (eexists; eexists; apply surjective_pairing).
  destruct Hingress as (r3 & s3 & ->).
  destruct r3 as [[] | err | msg]; try discriminate.
  unfold bind at 1.
  destruct ((0 <? EgressRate b) && (0 <? EgressBurst b)).
  - unfold bind at 1.
    destruct (bandwidth.getMTU (current.Name host) s3) as [[mtu | err | msg] s4];
      try discriminate.
    unfold bind at 1.
    destruct (lift_err (CreateIfb _ mtu) s4) as [[[] | err | msg] s5]; try discriminate.
    unfold bind at 1.
    destruct (lift (netlinksafe_LinkByName _) s5) as [[ifbDevice | err | msg] s6];
      try discriminate.
    unfold bind at 1.
    destruct (lift_err (CreateEgressQdisc _ _ _ _) s6) as [[[] | err | msg] s7];
      try discriminate.
    cbn [ret]. intros Hrun. apply printed_then_closed in Hrun.
    do 3 eexists. split; [ exact Hrun | ].
    split; [ reflexivity | ]. split; [ reflexivity | ].
    eexists. reflexivity.
  - cbn [ret]. intros Hrun. apply printed_then_closed in Hrun.
    do 3 eexists. split; [ exact Hrun | ].
    split; [ reflexivity | ]. split; reflexivity.
Qed.

End AddResult.

Lemma cmdAdd_appends_witness :
  let P := Machine.configured MachineSetup.bothDirections in
  exists before,
    calls (snd (bandwidth.cmdAdd Machine.args MachineSetup.prepared)) =
      (before ++
       [CPrintResult
          (Some {| current.CNIVersion := "1.0.0";
                   current.Interfaces :=
                     (current.Interfaces Machine.prevResult ++
                      [ {| current.Name := Machine.ifbName;
                           current.Mac := "0a:58:0a:00:00:03";
                           current.Sandbox := "" |} ])%list;
                   current.Rest := "" |})
          "1.0.0";
        CCloseNS {| Fd := 3; Path := "/var/run/netns/cid1" |}])%list.
Proof.
  cbv zeta.
  set (P := Machine.configured MachineSetup.bothDirections).
  destruct (@cmdAdd_appends _ P Machine.args (Machine.parsed MachineSetup.bothDirections)
              {| IngressRate := 1000000; IngressBurst := 1000000;
                 EgressRate := 2000000; EgressBurst := 2000000 |}
              Machine.prevResult Machine.prevResult MachineSetup.prepared
              (snd (@bandwidth.cmdAdd _ P Machine.args MachineSetup.prepared))
              eq_refl eq_refl eq_refl eq_refl eq_refl eq_refl)
    as (before & printed & netns & Hcalls & _).
  exists [CGetNS "/var/run/netns/cid1";
          CSetNS {| Fd := 3; Path := "/var/run/netns/cid1" |};
          CLinkByName "eth0"; CSetNS Machine.hostNS; CLinkByIndex 7;
          CCreateIngressQdisc 1000000 1000000 "veth123";
          CLinkByName "veth123"; CCreateIfb Machine.ifbName 1500;
          CLinkByName Machine.ifbName;
          CCreateEgressQdisc 2000000 2000000 "veth123" Machine.ifbName].
  reflexivity.
Defined.

(** ** Renaming, and the set-up of a pair *)

Section SetupLinks.
Context {W : Type} {P : Platform W} {L : LinkSetup W}.

(** X21: [RenameLink] returns a failed look-up as it is and renames nothing
    then; in particular a link that does not exist is reported with
    netlink's own [LinkNotFoundError] and not, as by [DelLinkByName], with
    the sentinel [ErrLinkNotFound]. *)
Theorem RenameLink_lookup_error (curName newName : string) (s s1 : Sys W) (err : error) :
  netlinksafe_LinkByName curName s = (inr err, s1) ->
  ip_setup.RenameLink curName newName s = (Some err, s1) /\
  (is_LinkNotFoundError err = true ->
   fst (ip_setup.RenameLink curName newName s) <> Some ErrLinkNotFound /\
   fst (ip.DelLinkByName curName s) = Some ErrLinkNotFound).
Proof.
  intros Hlookup. unfold ip_setup.RenameLink, ip.DelLinkByName. rewrite Hlookup.
  split; [ reflexivity | ].
  intros Hnf. rewrite Hnf. cbn [fst]. split; [ | reflexivity ].
  intros [= ->]. discriminate.
Qed.

(** X22: [SetupVethWithName] fails with the error of [makeVeth] when that
    fails, without entering the host namespace; it never reads a link
    through a nil pointer; and when it succeeds the container interface
    is taken from the link that [makeVeth] returned and the host
    interface from the link that was looked up under the peer name and
    set up.  The result of the sysctl call has no part in it. *)
Theorem SetupVethWithName_result (contVethName hostVethName : string) (mtu : Z)
    (contVethMac : string) (hostNS : NetNS) (s : Sys W) :
  let '((peer, veth, err), s1) :=
    ip.makeVeth contVethName hostVethName mtu contVethMac hostNS s in
  match err with
  | Some err =>
      ip_setup.SetupVethWithName contVethName hostVethName mtu contVethMac hostNS s =
        (Fail err, s1)
  | None =>
      match ip_setup.SetupVethWithName contVethName hostVethName mtu contVethMac hostNS s with
      | (Ret (host, cont), _) =>
          exists contVeth hostVeth sa sb sc,
            veth = Some contVeth /\
            cont = ip_setup.ifaceFromNetlinkLink contVeth /\
            host = ip_setup.ifaceFromNetlinkLink hostVeth /\
            netlinksafe_LinkByName peer sa = (inl hostVeth, sb) /\
            ip_setup.netlink_LinkSetUp hostVeth sb = (None, sc)
      | (Fail _, _) => True
      | (Panic _, _) => False
      end
  end.
Proof.
  unfold ip_setup.SetupVethWithName.
  pose proof (makeVeth_loop_link_or_error contVethName mtu contVethMac hostNS 10
                hostVethName "" s) as Hinv.
  fold (ip.makeVeth contVethName hostVethName mtu contVethMac hostNS s) in Hinv.
  destruct (ip.makeVeth contVethName hostVethName mtu contVethMac hostNS s)
    as [[[peer veth] [err |]] s1]; [ reflexivity | ].
  cbn [fst] in Hinv.
  destruct veth as [contVeth |]; [ | exfalso; apply (proj1 Hinv); reflexivity ].
  unfold ns_Do, ip_setup.setUpHostVeth.
  destruct (ns_Set hostNS s1) as [[e |] s2]; [ exact I | ].
  destruct (netlinksafe_LinkByName peer s2) as [[hostVeth | e] s3] eqn:Hlookup;
    [ | exact I ].
  destruct (ip_setup.netlink_LinkSetUp hostVeth s3) as [[e |] s4] eqn:Hup; [ exact I | ].
  destruct (ip_setup.sysctl_Sysctl _ "0" s4) as [o s5].
  cbn. exists contVeth, hostVeth, s2, s3, s4. repeat split; assumption.
Qed.

End SetupLinks.

Lemma RenameLink_lookup_error_witness :
  let P := Machine.configured Machine.noBandwidth in
  let L := MachineSetup.setup in
  fst (ip_setup.RenameLink "eth1" "eth0" MachineSetup.empty) =
    Some (LinkNotFoundError "Link not found") /\
  fst (ip.DelLinkByName "eth1" MachineSetup.empty) = Some ErrLinkNotFound.
Proof.
  cbv zeta.
  destruct (@RenameLink_lookup_error _ (Machine.configured Machine.noBandwidth)
              MachineSetup.setup "eth1" "eth0" MachineSetup.empty
              (snd (@netlinksafe_LinkByName _ (Machine.configured Machine.noBandwidth)
                      "eth1" MachineSetup.empty))
              (LinkNotFoundError "Link not found") eq_refl) as [Hrun Hcmp].
  rewrite Hrun. split; [ reflexivity | ]. apply (Hcmp eq_refl).
Defined.

(** On the small machine: a pair set up in an empty namespace. *)
Example SetupVeth_example :
  let P := Machine.configured Machine.noBandwidth in
  let L := MachineSetup.setup in
  fst (ip_setup.SetupVeth "eth0" 1500 "" Machine.hostNS MachineSetup.empty) =
    Ret ({| net.Index := 2; net.MTU := 1500; net.Name := "veth00000003";
            net.HardwareAddr := ""; net.Flags := 1 |},
         {| net.Index := 1; net.MTU := 1500; net.Name := "eth0";
            net.HardwareAddr := ""; net.Flags := 1 |}).
Proof. vm_compute. reflexivity. Qed.

(** ** Add without an entry and without a previous result *)

Section AddNotChained.
Context {W : Type} {P : Platform W}.

(** X24: when the configuration parses without a previous result and its
    effective bandwidth entry is absent or all zero, [cmdAdd] hands the nil
    previous result to [types.PrintResult] and aborts with a nil
    dereference, before any platform operation; the test for a chained
    invocation, which gives an error when an entry is configured, comes
    only after this branch. *)
Theorem cmdAdd_unconfigured_not_chained (args : skel.CmdArgs) (conf : PluginConf)
    (s : Sys W) :
  bandwidth.parseConfig (skel.StdinData args) = inl conf ->
  types.PrevResult (NetConf conf) = None ->
  (getBandwidth conf = None \/ exists b, getBandwidth conf = Some b /\ isZero b = true) ->
  bandwidth.cmdAdd args s = (Panic nil_dereference, s).
Proof.
  intros Hparse Hprev Hzero.
  unfold bandwidth.cmdAdd, bind, lift at 1. rewrite Hparse, Hprev.
  destruct Hzero as [-> | (b & -> & ->)]; reflexivity.
Qed.

End AddNotChained.

Lemma cmdAdd_unconfigured_not_chained_witness :
  let conf := {| NetConf :=
                   {| types.CNIVersion := "1.0.0"; types.Name := "net1";
                      types.RawPrevResult := None; types.PrevResult := None |};
                 RuntimeConfig_Bandwidth := None; BandwidthEntry_ := None |} in
  let P := Machine.platform (fun _ => inl conf) None in
  bandwidth.cmdAdd Machine.args (Machine.attached []) =
    (Panic nil_dereference, Machine.attached []).
Proof.
  intros conf P.
  apply (@cmdAdd_unconfigured_not_chained _ P Machine.args conf (Machine.attached []));
    [ reflexivity | reflexivity | left; reflexivity ].
Defined.
